(** * Vulkan rasterizer backend: a shallow embedding of
      [src/video_core/renderer_vulkan/vk_rasterizer.cpp]

    The per-draw control flow of [RasterizerVulkan] is embedded as
    functions over an explicit rasterizer state.  Calls into the external
    collaborators (surface cache, pipeline cache, scheduler, descriptor
    update queue, log) are appended to a trace of events; what the
    collaborators answer is given by the variables of the section
    [Backend]. *)

From Stdlib Require Import ZArith Bool Lia.
From stdpp Require Import base list.

Local Open Scope Z_scope.

(** ** Machine integers *)

(** [u32] arithmetic wraps around modulo 2^32. *)
Definition u32 (x : Z) : Z := x mod 2 ^ 32.

(** [static_cast<s32>] of a [u32] value. *)
Definition s32 (x : Z) : Z :=
  let y := u32 x in if y <? 2 ^ 31 then y else y - 2 ^ 32.

(** Modelled from the spec: [Common::AlignUp] ([common/alignment.h] is not
    part of the sources at hand) rounds [value] up to the next multiple of
    [size] ("align the running byte offset to the attribute's natural
    alignment", "alignment-rounded size"), in the unsigned type of
    [value]. *)
Definition AlignUp (value size : Z) : Z :=
  let md := value mod size in
  let value' := value - md in
  u32 (if md =? 0 then value' else value' + size).

(** ** Guest registers

    The register declarations live in the [video_core/pica] headers.  The
    fields below are the ones the rasterizer reads, under the names the
    source uses.  Bit fields that overlay one raw register in the headers
    (such as [depth_test_enable] and [depth_write_enable] inside
    [depth_color_mask]) are kept as separate inputs, so every result below
    holds whatever the overlay is. *)

Module FramebufferRegs.

Inductive LogicOp :=
  | Clear | And | AndReverse | Copy | Set_ | CopyInverted | NoOp | Invert
  | Nand | Or | Nor | Xor | Equiv | AndInverted | OrReverse | OrInverted.

Inductive DepthFormat := D16 | D24 | D24S8.

Inductive CompareFunc :=
  | Never | Always | Equal | NotEqual
  | LessThan | LessThanOrEqual | GreaterThan | GreaterThanOrEqual.

Definition LogicOp_eqb (a b : LogicOp) : bool :=
    match a, b with
    | Clear, Clear | And, And | AndReverse, AndReverse | Copy, Copy
    | Set_, Set_ | CopyInverted, CopyInverted | NoOp, NoOp | Invert, Invert
    | Nand, Nand | Or, Or | Nor, Nor | Xor, Xor | Equiv, Equiv
    | AndInverted, AndInverted | OrReverse, OrReverse
    | OrInverted, OrInverted => true
    | _, _ => false
    end.

Definition DepthFormat_eqb (a b : DepthFormat) : bool :=
    match a, b with
    | D16, D16 | D24, D24 | D24S8, D24S8 => true
    | _, _ => false
    end.

Record StencilTest := {
    enable : Z;
    action_stencil_fail : Z;
    action_depth_pass : Z;
    action_depth_fail : Z;
    func : CompareFunc;
    reference_value : Z;
    input_mask : Z;
    write_mask : Z;
  }.

Record AlphaBlending := {
    blend_equation_rgb : Z;
    blend_equation_a : Z;
    factor_source_rgb : Z;
    factor_dest_rgb : Z;
    factor_source_a : Z;
    factor_dest_a : Z;
  }.

Record OutputMerger := {
    alphablend_enable : Z;
    alpha_blending : AlphaBlending;
    blend_const_raw : Z;
    logic_op : LogicOp;
    depth_color_mask : Z;
    depth_test_enable : Z;
    depth_test_func : CompareFunc;
    depth_write_enable : Z;
    stencil_test : StencilTest;
  }.

Record FramebufferConfig := {
    allow_color_write : Z;
    allow_depth_stencil_write : Z;
    depth_format : DepthFormat;
    IsFlipped : bool;
    GetColorBufferPhysicalAddress : Z;
    GetDepthBufferPhysicalAddress : Z;
  }.

Record framebuffer_t := {
    framebuffer : FramebufferConfig;
    output_merger : OutputMerger;
    IsShadowRendering : bool;
    HasStencil : bool;
  }.

End FramebufferRegs.

Module PipelineRegs.

Inductive TriangleTopology := List | Strip | Fan | Shader.

Inductive UseGS := No | Yes.

Inductive GSMode := Point | VariablePrim | FixedPrim.

Inductive VertexAttributeFormat := BYTE | UBYTE | SHORT | FLOAT.

Definition TriangleTopology_eqb (a b : TriangleTopology) : bool :=
  match a, b with
  | List, List | Strip, Strip | Fan, Fan | Shader, Shader => true
  | _, _ => false
  end.

(** One of the twelve attribute loaders; [GetComponent comp] is the slot
    assignment of component [comp]. *)
Record AttributeLoader := {
  data_offset : Z;
  component_count : Z;
  byte_count : Z;
  GetComponent : Z -> Z;
}.

Record VertexAttributes := {
  GetPhysicalBaseAddress : Z;
  attribute_loaders : list AttributeLoader;
  GetNumElements : Z -> Z;
  GetElementSizeInBytes : Z -> Z;
  GetStride : Z -> Z;
  GetFormat : Z -> VertexAttributeFormat;
  IsDefaultAttribute : Z -> bool;
}.

Record IndexArray := {
  format : Z;
  offset : Z;
}.

Record pipeline_t := {
  vertex_attributes : VertexAttributes;
  index_array : IndexArray;
  num_vertices : Z;
  use_gs : UseGS;
  gs_config_mode : GSMode;
  triangle_topology : TriangleTopology;
}.

End PipelineRegs.

Module TexturingRegs.

Inductive TextureType :=
| Texture2D | TextureCube | Shadow2D | Projection2D | ShadowCube | Disabled.

Inductive CubeFace :=
| PositiveX | NegativeX | PositiveY | NegativeY | PositiveZ | NegativeZ.

(** [static_cast<u32>(face)] *)
Definition CubeFace_index (f : CubeFace) : Z :=
  match f with
  | PositiveX => 0 | NegativeX => 1 | PositiveY => 2
  | NegativeY => 3 | PositiveZ => 4 | NegativeZ => 5
  end.

Record TextureConfig := {
  type : TextureType;
  width : Z;
  height : Z;
  lod_max_level : Z;
  raw : Z;
}.

Record FullTextureConfig := {
  enabled : bool;
  config : TextureConfig;
  format : Z;
}.

Record texturing_t := {
  GetTextures : list FullTextureConfig;
  GetCubePhysicalAddress : CubeFace -> Z;
}.

End TexturingRegs.

(** The register shadow [regs] as far as this file reads it.
    [vs_GetRegisterForAttribute] is [regs.vs.GetRegisterForAttribute] and
    [lighting_disable] is [regs.lighting.disable]. *)
Record RegsInternal := {
  rasterizer_cull_mode : Z;
  framebuffer : FramebufferRegs.framebuffer_t;
  pipeline : PipelineRegs.pipeline_t;
  texturing : TexturingRegs.texturing_t;
  vs_GetRegisterForAttribute : Z -> Z;
  lighting_disable : bool;
}.

(** What the rasterizer asks of the Vulkan [Instance]. *)
Record Instance := {
  NeedsLogicOpEmulation : bool;
  GetMinVertexStrideAlignment : Z;
  IsIndexTypeUint8Supported : bool;
  IsTriangleFanSupported : bool;
  IsFragmentShaderBarycentricSupported : bool;
}.

(** ** The pipeline-state descriptor

    [PipelineInfo] and its parts are declared in [vk_graphics_pipeline.h];
    the fields are the ones this file assigns. The widths of its bit
    fields are declared there too: [Assign] is taken to store the value it
    is given, and one-bit flags assigned from a [bool] are booleans. *)

Record RasterizationState := {
  topology : PipelineRegs.TriangleTopology;
  cull_mode : Z;
  flip_viewport : bool;
}.

Record BlendingState := {
  blend_enable : Z;
  color_write_mask : Z;
  logic_op : FramebufferRegs.LogicOp;
  src_color_blend_factor : Z;
  dst_color_blend_factor : Z;
  color_blend_eq : Z;
  src_alpha_blend_factor : Z;
  dst_alpha_blend_factor : Z;
  alpha_blend_eq : Z;
}.

Record DepthStencilState := {
  depth_test_enable : bool;
  depth_write_enable : bool;
  stencil_test_enable : bool;
  depth_compare_op : FramebufferRegs.CompareFunc;
  stencil_fail_op : Z;
  stencil_pass_op : Z;
  stencil_depth_fail_op : Z;
  stencil_compare_op : FramebufferRegs.CompareFunc;
}.

Record Rectangle := {
  left : Z;
  top : Z;
  right : Z;
  bottom : Z;
}.

Record DynamicState := {
  blend_color : Z;
  stencil_reference : Z;
  stencil_compare_mask : Z;
  stencil_write_mask : Z;
  scissor : Rectangle;
  viewport : Rectangle;
}.

Record VertexBinding := {
  vb_binding : Z;
  vb_fixed : Z;
  vb_stride : Z;
}.

Record VertexAttribute := {
  va_binding : Z;
  va_location : Z;
  va_type : PipelineRegs.VertexAttributeFormat;
  va_size : Z;
  va_offset : Z;
}.

Record VertexLayout := {
  binding_count : Z;
  attribute_count : Z;
  bindings : list VertexBinding;
  attributes : list VertexAttribute;
}.

Record AttachmentInfo := {
  color : Z;
  depth : Z;
}.

Record PipelineInfo := {
  blending : BlendingState;
  attachments : AttachmentInfo;
  rasterization : RasterizationState;
  depth_stencil : DepthStencilState;
  dynamic : DynamicState;
  vertex_layout : VertexLayout;
}.

(** ** Collaborators

    Surfaces, samplers, framebuffers and descriptor sets are owned by the
    external caches; the rasterizer only handles their Vulkan handles,
    modelled as integers (0 is the null handle). *)

Record Surface := {
  ImageView : Z;
  CopyImageView : Z;
  StorageView : Z;
}.

Record Framebuffer := {
  Handle : Z;
  Format_Color : Z;
  Format_Depth : Z;
  ImageView_Color : Z;
}.

Record ViewportInfo := {
  vp_x : Z;
  vp_y : Z;
  vp_width : Z;
  vp_height : Z;
}.

(** The helper returned by [res_cache.GetFramebufferSurfaces]. [Scissor]
    is the tuple [(x1, y2, x2, y1)] in the order the source unpacks it. *)
Record FramebufferHelper := {
  Framebuffer_ : Framebuffer;
  Scissor : Z * Z * Z * Z;
  DrawRect : Rectangle;
  Viewport : ViewportInfo;
}.

Record TextureCubeConfig := {
  px : Z;
  nx : Z;
  py : Z;
  ny : Z;
  pz : Z;
  nz : Z;
  cube_width : Z;
  levels : Z;
  cube_format : Z;
}.

(** [Pica::Texture::TextureInfo::FromPicaRegister (config, format)] with its
    [physical_address] overwritten, as [BindShadowCube] builds it. *)
Record TextureInfo := {
  info_config : TexturingRegs.TextureConfig;
  info_format : Z;
  physical_address : Z;
}.

(** [MemoryRef]: a host pointer into guest-backed memory together with the
    number of bytes that remain available behind it. [GetPtr k] is the byte
    the host reads at [ptr + k]; only the first [GetSize] of them belong to
    the guest memory block.  A read at [k >= GetSize] is out of bounds in
    the source: [GetPtr] is total only so that such a read can be followed,
    and its value there stands for whatever the host holds past the
    block. *)
Record MemoryRef := {
  GetSize : Z;
  GetPtr : Z -> Z;
}.

Record VertexArrayInfo := {
  vs_input_index_min : Z;
  vs_input_index_max : Z;
  vs_input_size : Z;
}.

Inductive IndexType := eUint8EXT | eUint16.

Inductive DescriptorHeapType := Buffer | Texture | Utility.

(** Commands a closure handed to [scheduler.Record] issues on the command
    buffer. *)
Inductive Command :=
| bindIndexBuffer (offset : Z) (index_type : IndexType)
| bindVertexBuffers (first_binding count : Z) (offsets : list Z)
| drawIndexed (index_count instance_count first_index vertex_offset first_instance : Z)
| draw (vertex_count instance_count first_vertex first_instance : Z).

(** Calls into the collaborators, in program order. *)
Inductive Event :=
| scheduler_Record (cmds : list Command)
| pipeline_cache_BindPipeline (info : PipelineInfo) (wait_built : bool)
| pipeline_cache_Acquire (heap : DescriptorHeapType)
| pipeline_cache_UseProgrammableVertexShader (layout : VertexLayout)
| pipeline_cache_UseTrivialVertexShader
| pipeline_cache_UseTrivialGeometryShader
| pipeline_cache_UseFixedGeometryShader
| pipeline_cache_UseFragmentShader
| pipeline_cache_UpdateRange (binding offset : Z)
| res_cache_FlushRegion (addr size : Z)
| res_cache_GetFramebufferSurfaces (using_color_fb using_depth_fb : bool)
| res_cache_GetTextureSurface (texture : TexturingRegs.FullTextureConfig)
| res_cache_GetTextureSurface_info (info : TextureInfo)
| res_cache_GetSampler (config : TexturingRegs.TextureConfig)
| res_cache_GetTextureCube (config : TextureCubeConfig)
| surface_flags_ShadowMap (surface : Surface)
| update_queue_AddImageSampler (set binding array_index view sampler : Z)
| update_queue_AddStorageImage (set binding view : Z)
| renderpass_cache_BeginRendering (framebuffer : Framebuffer) (draw_rect : Rectangle)
| LOG_ERROR_vertex_buffer_size (data_size available addr : Z)
| LOG_ERROR_geometry_shader
| LOG_DEBUG_triangle_fan.

(** ** Host memory *)

(** A region of host memory, byte by byte, addressed by offset. *)
Definition Bytes := Z -> Z.

(** [std::memcpy (dst + d, src + s, n)] *)
Definition memcpy (dst : Bytes) (d : Z) (src : Bytes) (s : Z) (n : Z) : Bytes :=
  fun k => if (d <=? k) && (k <? d + n) then src (s + (k - d)) else dst k.

(** [reinterpret_cast<u16*>(p)[i] = v] on a little-endian host. *)
Definition store_u16 (dst : Bytes) (p i v : Z) : Bytes :=
  fun k =>
    if k =? p + 2 * i then v mod 256
    else if k =? p + 2 * i + 1 then (v / 256) mod 256
    else dst k.

(** [const u8* p; p[i]] *)
Definition load_u8 (m : Bytes) (i : Z) : Z := m i mod 256.

(** Four [float]s, each by its IEEE-754 single-precision bit pattern. *)
Record Vec4f := {
  x : Z;
  y : Z;
  z : Z;
  w : Z;
}.

Definition sizeof_float : Z := 4.

Definition sizeof_Vec4f : Z := 16.

Definition sizeof_Vec2f : Z := 8.

(** The object representation of a [Vec4f] ([AsArray ()] / [data.data ()]),
    little-endian. *)
Definition AsArray (v : Vec4f) : Bytes :=
  fun k =>
    let c := match k / 4 with
             | 0 => x v | 1 => y v | 2 => z v | _ => w v
             end in
    (c / 2 ^ (8 * (k mod 4))) mod 256.

(** [static const Common::Vec4f default_attrib{0.f, 0.f, 0.f, 1.f}] *)
Definition default_attrib : Vec4f :=
  {| x := 0; y := 0; z := 0; w := 0x3F800000 |}.

(** ** Uniform data and lookup tables *)

(** The fields of [FSUniformData] this file writes.
    [lighting_lut_offset] is the array [[index / 4][index % 4]], flat. *)
Record FSUniformData := {
  scissor_x1 : Z;
  scissor_y1 : Z;
  scissor_x2 : Z;
  scissor_y2 : Z;
  lighting_lut_offset : list Z;
  fog_lut_offset : Z;
  proctex_noise_lut_offset : Z;
  proctex_color_map_offset : Z;
  proctex_alpha_map_offset : Z;
  proctex_lut_offset : Z;
  proctex_diff_lut_offset : Z;
}.

(** The dirty bits of the procedural-texture tables.  In [pica_core.h]
    they are bit fields sharing one word with [table_dirty]. *)
Record ProcTexDirty := {
  noise_lut_dirty : bool;
  color_map_dirty : bool;
  alpha_map_dirty : bool;
  lut_dirty : bool;
  diff_lut_dirty : bool;
}.

(** Modelled from the spec: [ProcTex::TableAllDirty] (declared in
    [pica_core.h]) is the value of [table_dirty] in which every
    procedural-texture table is dirty ("all LUT dirty bits true"). *)
Definition TableAllDirty : ProcTexDirty :=
  {| noise_lut_dirty := true; color_map_dirty := true; alpha_map_dirty := true;
     lut_dirty := true; diff_lut_dirty := true |}.

(** [table_dirty = 0] *)
Definition TableNoneDirty : ProcTexDirty :=
  {| noise_lut_dirty := false; color_map_dirty := false; alpha_map_dirty := false;
     lut_dirty := false; diff_lut_dirty := false |}.

(** The part of [PicaCore] outside the registers: the dirty state of the
    lookup tables and shader uniforms, and the default attributes, already
    converted by [ToFloat32]. *)
Record PicaCore := {
  lighting_lut_dirty : Z;
  fog_lut_dirty : bool;
  proctex_dirty : ProcTexDirty;
  vs_setup_uniforms_dirty : bool;
  input_default_attributes : Z -> Vec4f;
}.

(** What an upload stores into a uniform or texel buffer. The layouts of
    the uniform structures and the float conversion of table entries are
    outside this file, so a store is recorded by what it holds. *)
Inductive Block :=
| VSPicaUniformData_block
| VSUniformData_block
| FSUniformData_block (fs : FSUniformData)
| lighting_lut (index : Z)
| fog_lut
| proctex_noise_table
| proctex_color_map_table
| proctex_alpha_map_table
| proctex_color_table
| proctex_color_diff_table.

(** [std::countr_zero] on a [u32]. *)
Fixpoint countr_zero_pos (p : positive) : Z :=
  match p with
  | xO q => 1 + countr_zero_pos q
  | _ => 0
  end.

Definition countr_zero (v : Z) : Z :=
  match v with
  | Zpos p => countr_zero_pos p
  | _ => 32
  end.

(** * The rasterizer *)

Section Backend.

(** The internal state of a [StreamBuffer] (its cursor and fences) and its
    two operations are those of [vk_stream_buffer.cpp]. [sb_Map st size
    alignment] answers the offset of the mapped region and whether the ring
    wrapped ([invalidate]); the mapped pointer is the buffer's base plus
    that offset. *)
Context {SB : Type}.
Variable sb_Map : SB -> Z -> Z -> Z * bool * SB.
Variable sb_Commit : SB -> Z -> SB.

Variable instance : Instance.
Variable regs : RegsInternal.

(** [Settings::values.async_shader_compilation] as read by the
    constructor. *)
Variable async_shaders : bool.

(** Set by the constructor from [instance.UniformMinAlignment ()] and the
    sizes of the uniform structures. *)
Variable uniform_buffer_alignment : Z.
Variable uniform_size_aligned_vs_pica : Z.
Variable uniform_size_aligned_vs : Z.
Variable uniform_size_aligned_fs : Z.
Variable sizeof_HardwareVertex : Z.

(** [Pica::LightingRegs::NumLightingSampler], the number of lighting
    lookup tables. *)
Variable NumLightingSampler : Z.

(** Guest memory. *)
Variable memory_GetPhysicalRef : Z -> MemoryRef.
Variable memory_GetPhysicalPointer : Z -> Bytes.

(** Answers of the surface cache. *)
Variable GetFramebufferSurfaces : bool -> bool -> FramebufferHelper.
Variable GetTextureSurface : TexturingRegs.FullTextureConfig -> Surface.
Variable GetTextureSurface_info : TextureInfo -> Surface.
Variable GetSampler : TexturingRegs.TextureConfig -> Z.
Variable GetTextureCube : TextureCubeConfig -> Surface.
Variable null_surface : Surface.
Variable null_sampler : Z.

(** Answers of the pipeline cache. *)
Variable Acquire : DescriptorHeapType -> Z.
Variable BindPipeline : PipelineInfo -> bool -> bool.
Variable UseProgrammableVertexShader : VertexLayout -> bool.
Variable UseFixedGeometryShader : bool.

(** [PipelineInfo::IsDepthWriteEnabled], declared with the descriptor in
    [vk_graphics_pipeline.h]. *)
Variable IsDepthWriteEnabled : PipelineInfo -> bool.

(** Inherited from [RasterizerAccelerated]: [SyncDrawUniforms] refreshes
    the fragment uniform data and the two dirty flags, [AnalyzeVertexArray]
    finds the index range of the draw. *)
Variable SyncDrawUniforms : FSUniformData * bool * bool -> FSUniformData * bool * bool.
Variable AnalyzeVertexArray : bool -> Z -> VertexArrayInfo.

(** A stream buffer: the allocator state and what the mapped memory
    holds. *)
Record StreamBuffer (C : Type) := {
  sb_state : SB;
  sb_content : C;
}.

Arguments sb_state {C} _.
Arguments sb_content {C} _.

(** The mutable members of [RasterizerVulkan], and the trace of the calls
    made so far. *)
Record RasterizerVulkan := {
  pipeline_info : PipelineInfo;
  enable_attributes : list bool;
  binding_offsets : list Z;
  vertex_info : VertexArrayInfo;
  vs_data_dirty : bool;
  fs_data_dirty : bool;
  fs_data : FSUniformData;
  pica : PicaCore;
  vertex_batch : list (list Z);
  stream_buffer : StreamBuffer Bytes;
  uniform_buffer : StreamBuffer (list (Z * Block));
  texture_buffer : StreamBuffer (list (Z * Block));
  texture_lf_buffer : StreamBuffer (list (Z * Block));
  trace : list Event;
}.

Definition set_pipeline_info (v : PipelineInfo) (s : RasterizerVulkan) : RasterizerVulkan :=
  {| pipeline_info := v; enable_attributes := enable_attributes s;
     binding_offsets := binding_offsets s; vertex_info := vertex_info s;
     vs_data_dirty := vs_data_dirty s; fs_data_dirty := fs_data_dirty s;
     fs_data := fs_data s; pica := pica s; vertex_batch := vertex_batch s;
     stream_buffer := stream_buffer s; uniform_buffer := uniform_buffer s;
     texture_buffer := texture_buffer s;
     texture_lf_buffer := texture_lf_buffer s; trace := trace s |}.

Definition set_enable_attributes (v : list bool) (s : RasterizerVulkan) : RasterizerVulkan :=
  {| pipeline_info := pipeline_info s; enable_attributes := v;
     binding_offsets := binding_offsets s; vertex_info := vertex_info s;
     vs_data_dirty := vs_data_dirty s; fs_data_dirty := fs_data_dirty s;
     fs_data := fs_data s; pica := pica s; vertex_batch := vertex_batch s;
     stream_buffer := stream_buffer s; uniform_buffer := uniform_buffer s;
     texture_buffer := texture_buffer s;
     texture_lf_buffer := texture_lf_buffer s; trace := trace s |}.

Definition set_binding_offsets (v : list Z) (s : RasterizerVulkan) : RasterizerVulkan :=
  {| pipeline_info := pipeline_info s;
     enable_attributes := enable_attributes s; binding_offsets := v;
     vertex_info := vertex_info s; vs_data_dirty := vs_data_dirty s;
     fs_data_dirty := fs_data_dirty s; fs_data := fs_data s; pica := pica s;
     vertex_batch := vertex_batch s; stream_buffer := stream_buffer s;
     uniform_buffer := uniform_buffer s; texture_buffer := texture_buffer s;
     texture_lf_buffer := texture_lf_buffer s; trace := trace s |}.

Definition set_vertex_info (v : VertexArrayInfo) (s : RasterizerVulkan) : RasterizerVulkan :=
  {| pipeline_info := pipeline_info s;
     enable_attributes := enable_attributes s;
     binding_offsets := binding_offsets s; vertex_info := v;
     vs_data_dirty := vs_data_dirty s; fs_data_dirty := fs_data_dirty s;
     fs_data := fs_data s; pica := pica s; vertex_batch := vertex_batch s;
     stream_buffer := stream_buffer s; uniform_buffer := uniform_buffer s;
     texture_buffer := texture_buffer s;
     texture_lf_buffer := texture_lf_buffer s; trace := trace s |}.

Definition set_vs_data_dirty (v : bool) (s : RasterizerVulkan) : RasterizerVulkan :=
  {| pipeline_info := pipeline_info s;
     enable_attributes := enable_attributes s;
     binding_offsets := binding_offsets s; vertex_info := vertex_info s;
     vs_data_dirty := v; fs_data_dirty := fs_data_dirty s;
     fs_data := fs_data s; pica := pica s; vertex_batch := vertex_batch s;
     stream_buffer := stream_buffer s; uniform_buffer := uniform_buffer s;
     texture_buffer := texture_buffer s;
     texture_lf_buffer := texture_lf_buffer s; trace := trace s |}.

Definition set_fs_data_dirty (v : bool) (s : RasterizerVulkan) : RasterizerVulkan :=
  {| pipeline_info := pipeline_info s;
     enable_attributes := enable_attributes s;
     binding_offsets := binding_offsets s; vertex_info := vertex_info s;
     vs_data_dirty := vs_data_dirty s; fs_data_dirty := v;
     fs_data := fs_data s; pica := pica s; vertex_batch := vertex_batch s;
     stream_buffer := stream_buffer s; uniform_buffer := uniform_buffer s;
     texture_buffer := texture_buffer s;
     texture_lf_buffer := texture_lf_buffer s; trace := trace s |}.

Definition set_fs_data (v : FSUniformData) (s : RasterizerVulkan) : RasterizerVulkan :=
  {| pipeline_info := pipeline_info s;
     enable_attributes := enable_attributes s;
     binding_offsets := binding_offsets s; vertex_info := vertex_info s;
     vs_data_dirty := vs_data_dirty s; fs_data_dirty := fs_data_dirty s;
     fs_data := v; pica := pica s; vertex_batch := vertex_batch s;
     stream_buffer := stream_buffer s; uniform_buffer := uniform_buffer s;
     texture_buffer := texture_buffer s;
     texture_lf_buffer := texture_lf_buffer s; trace := trace s |}.

Definition set_pica (v : PicaCore) (s : RasterizerVulkan) : RasterizerVulkan :=
  {| pipeline_info := pipeline_info s;
     enable_attributes := enable_attributes s;
     binding_offsets := binding_offsets s; vertex_info := vertex_info s;
     vs_data_dirty := vs_data_dirty s; fs_data_dirty := fs_data_dirty s;
     fs_data := fs_data s; pica := v; vertex_batch := vertex_batch s;
     stream_buffer := stream_buffer s; uniform_buffer := uniform_buffer s;
     texture_buffer := texture_buffer s;
     texture_lf_buffer := texture_lf_buffer s; trace := trace s |}.

Definition set_vertex_batch (v : list (list Z)) (s : RasterizerVulkan) : RasterizerVulkan :=
  {| pipeline_info := pipeline_info s;
     enable_attributes := enable_attributes s;
     binding_offsets := binding_offsets s; vertex_info := vertex_info s;
     vs_data_dirty := vs_data_dirty s; fs_data_dirty := fs_data_dirty s;
     fs_data := fs_data s; pica := pica s; vertex_batch := v;
     stream_buffer := stream_buffer s; uniform_buffer := uniform_buffer s;
     texture_buffer := texture_buffer s;
     texture_lf_buffer := texture_lf_buffer s; trace := trace s |}.

Definition set_stream_buffer (v : StreamBuffer Bytes) (s : RasterizerVulkan) : RasterizerVulkan :=
  {| pipeline_info := pipeline_info s;
     enable_attributes := enable_attributes s;
     binding_offsets := binding_offsets s; vertex_info := vertex_info s;
     vs_data_dirty := vs_data_dirty s; fs_data_dirty := fs_data_dirty s;
     fs_data := fs_data s; pica := pica s; vertex_batch := vertex_batch s;
     stream_buffer := v; uniform_buffer := uniform_buffer s;
     texture_buffer := texture_buffer s;
     texture_lf_buffer := texture_lf_buffer s; trace := trace s |}.

Definition set_uniform_buffer (v : StreamBuffer (list (Z * Block))) (s : RasterizerVulkan) : RasterizerVulkan :=
  {| pipeline_info := pipeline_info s;
     enable_attributes := enable_attributes s;
     binding_offsets := binding_offsets s; vertex_info := vertex_info s;
     vs_data_dirty := vs_data_dirty s; fs_data_dirty := fs_data_dirty s;
     fs_data := fs_data s; pica := pica s; vertex_batch := vertex_batch s;
     stream_buffer := stream_buffer s; uniform_buffer := v;
     texture_buffer := texture_buffer s;
     texture_lf_buffer := texture_lf_buffer s; trace := trace s |}.

Definition set_texture_buffer (v : StreamBuffer (list (Z * Block))) (s : RasterizerVulkan) : RasterizerVulkan :=
  {| pipeline_info := pipeline_info s;
     enable_attributes := enable_attributes s;
     binding_offsets := binding_offsets s; vertex_info := vertex_info s;
     vs_data_dirty := vs_data_dirty s; fs_data_dirty := fs_data_dirty s;
     fs_data := fs_data s; pica := pica s; vertex_batch := vertex_batch s;
     stream_buffer := stream_buffer s; uniform_buffer := uniform_buffer s;
     texture_buffer := v; texture_lf_buffer := texture_lf_buffer s;
     trace := trace s |}.

Definition set_texture_lf_buffer (v : StreamBuffer (list (Z * Block))) (s : RasterizerVulkan) : RasterizerVulkan :=
  {| pipeline_info := pipeline_info s;
     enable_attributes := enable_attributes s;
     binding_offsets := binding_offsets s; vertex_info := vertex_info s;
     vs_data_dirty := vs_data_dirty s; fs_data_dirty := fs_data_dirty s;
     fs_data := fs_data s; pica := pica s; vertex_batch := vertex_batch s;
     stream_buffer := stream_buffer s; uniform_buffer := uniform_buffer s;
     texture_buffer := texture_buffer s; texture_lf_buffer := v;
     trace := trace s |}.

Definition set_trace (v : list Event) (s : RasterizerVulkan) : RasterizerVulkan :=
  {| pipeline_info := pipeline_info s;
     enable_attributes := enable_attributes s;
     binding_offsets := binding_offsets s; vertex_info := vertex_info s;
     vs_data_dirty := vs_data_dirty s; fs_data_dirty := fs_data_dirty s;
     fs_data := fs_data s; pica := pica s; vertex_batch := vertex_batch s;
     stream_buffer := stream_buffer s; uniform_buffer := uniform_buffer s;
     texture_buffer := texture_buffer s;
     texture_lf_buffer := texture_lf_buffer s; trace := v |}.

(** [trace] grows at the end. *)
Definition emit (e : Event) (s : RasterizerVulkan) : RasterizerVulkan :=
  set_trace (trace s ++ [e]) s.

(** A member function: a state transformer with a result. *)
Definition M (A : Type) : Type := RasterizerVulkan -> A * RasterizerVulkan.

Definition ret {A} (a : A) : M A := fun s => (a, s).

Definition bind {A B} (c : M A) (k : A -> M B) : M B :=
  fun s => let (a, s') := c s in k a s'.

Definition modify (f : RasterizerVulkan -> RasterizerVulkan) : M unit :=
  fun s => (tt, f s).

Definition gets {A} (f : RasterizerVulkan -> A) : M A := fun s => (f s, s).

Notation "'let*' x ':=' c 'in' k" := (bind c (fun x => k))
  (at level 10, x name, c at level 100, k at level 200).
Notation "'do' c 'then' k" := (bind c (fun _ => k))
  (at level 10, c at level 100, k at level 200).

(** ** [SyncDrawState] *)

(** A bit field or integer read in a boolean context. *)
Definition truthy (v : Z) : bool := negb (v =? 0).

(** The assignments [SyncDrawState] makes to [pipeline_info], in the order
    of the source. *)
Definition SyncDrawState_info (info : PipelineInfo) : PipelineInfo :=
  let fb := FramebufferRegs.framebuffer (framebuffer regs) in
  let om := FramebufferRegs.output_merger (framebuffer regs) in
  let ab := FramebufferRegs.alpha_blending om in
  (* SyncCullMode, viewport flip *)
  let is_flipped := FramebufferRegs.IsFlipped fb in
  let rasterization' :=
    {| topology := topology (rasterization info);
       cull_mode := rasterizer_cull_mode regs;
       flip_viewport := is_flipped |} in
  (* SyncLogicOp, SyncColorWriteMask *)
  let is_logic_op_emulated :=
    NeedsLogicOpEmulation instance
    && negb (truthy (FramebufferRegs.alphablend_enable om)) in
  let is_logic_op_noop :=
    FramebufferRegs.LogicOp_eqb (FramebufferRegs.logic_op om) FramebufferRegs.NoOp in
  let color_write_mask' :=
    if is_logic_op_emulated && is_logic_op_noop then 0
    else
      if truthy (FramebufferRegs.allow_color_write fb)
      then Z.land (Z.shiftr (FramebufferRegs.depth_color_mask om) 8) 0xF
      else 0 in
  (* SyncBlendEnabled, SyncBlendFuncs *)
  let blending' :=
    {| blend_enable := FramebufferRegs.alphablend_enable om;
       color_write_mask := color_write_mask';
       logic_op := FramebufferRegs.logic_op om;
       src_color_blend_factor := FramebufferRegs.factor_source_rgb ab;
       dst_color_blend_factor := FramebufferRegs.factor_dest_rgb ab;
       color_blend_eq := FramebufferRegs.blend_equation_rgb ab;
       src_alpha_blend_factor := FramebufferRegs.factor_source_a ab;
       dst_alpha_blend_factor := FramebufferRegs.factor_dest_a ab;
       alpha_blend_eq := FramebufferRegs.blend_equation_a ab |} in
  (* SyncStencilTest *)
  let stencil_test := FramebufferRegs.stencil_test om in
  let test_enable :=
    truthy (FramebufferRegs.enable stencil_test)
    && FramebufferRegs.DepthFormat_eqb (FramebufferRegs.depth_format fb)
         FramebufferRegs.D24S8 in
  (* SyncDepthTest *)
  let test_enabled :=
    (FramebufferRegs.depth_test_enable om =? 1)
    || (FramebufferRegs.depth_write_enable om =? 1) in
  let compare_op :=
    if FramebufferRegs.depth_test_enable om =? 1
    then FramebufferRegs.depth_test_func om
    else FramebufferRegs.Always in
  (* SyncDepthWriteMask *)
  let write_enable :=
    truthy (FramebufferRegs.allow_depth_stencil_write fb)
    && truthy (FramebufferRegs.depth_write_enable om) in
  let depth_stencil' :=
    {| depth_test_enable := test_enabled;
       depth_write_enable := write_enable;
       stencil_test_enable := test_enable;
       depth_compare_op := compare_op;
       stencil_fail_op := FramebufferRegs.action_stencil_fail stencil_test;
       stencil_pass_op := FramebufferRegs.action_depth_pass stencil_test;
       stencil_depth_fail_op := FramebufferRegs.action_depth_fail stencil_test;
       stencil_compare_op := FramebufferRegs.func stencil_test |} in
  (* SyncBlendColor, stencil reference and masks, SyncStencilWriteMask *)
  let dynamic' :=
    {| blend_color := FramebufferRegs.blend_const_raw om;
       stencil_reference := FramebufferRegs.reference_value stencil_test;
       stencil_compare_mask := FramebufferRegs.input_mask stencil_test;
       stencil_write_mask :=
         if truthy (FramebufferRegs.allow_depth_stencil_write fb)
         then u32 (FramebufferRegs.write_mask stencil_test)
         else 0;
       scissor := scissor (dynamic info);
       viewport := viewport (dynamic info) |} in
  {| blending := blending';
     attachments := attachments info;
     rasterization := rasterization';
     depth_stencil := depth_stencil';
     dynamic := dynamic';
     vertex_layout := vertex_layout info |}.

Definition SyncDrawState : M unit :=
  fun s =>
    let '(fs, vs_dirty, fs_dirty) :=
      SyncDrawUniforms (fs_data s, vs_data_dirty s, fs_data_dirty s) in
    let s := set_fs_data_dirty fs_dirty (set_vs_data_dirty vs_dirty (set_fs_data fs s)) in
    (tt, set_pipeline_info (SyncDrawState_info (pipeline_info s)) s).

(** ** [SetupVertexArray] and [SetupFixedAttribs] *)

Definition set_attribute (reg : Z) (a : VertexAttribute) (layout : VertexLayout)
  : VertexLayout :=
  {| binding_count := binding_count layout;
     attribute_count := attribute_count layout;
     bindings := bindings layout;
     attributes := <[Z.to_nat reg := a]> (attributes layout) |}.

Definition set_binding (i : Z) (b : VertexBinding) (layout : VertexLayout)
  : VertexLayout :=
  {| binding_count := binding_count layout;
     attribute_count := attribute_count layout;
     bindings := <[Z.to_nat i := b]> (bindings layout);
     attributes := attributes layout |}.

Definition set_binding_count (n : Z) (layout : VertexLayout) : VertexLayout :=
  {| binding_count := n;
     attribute_count := attribute_count layout;
     bindings := bindings layout;
     attributes := attributes layout |}.

Definition set_attribute_count (n : Z) (layout : VertexLayout) : VertexLayout :=
  {| binding_count := binding_count layout;
     attribute_count := n;
     bindings := bindings layout;
     attributes := attributes layout |}.

Definition set_vertex_layout (layout : VertexLayout) (info : PipelineInfo)
  : PipelineInfo :=
  {| blending := blending info;
     attachments := attachments info;
     rasterization := rasterization info;
     depth_stencil := depth_stencil info;
     dynamic := dynamic info;
     vertex_layout := layout |}.

Definition vertex_attributes_regs : PipelineRegs.VertexAttributes :=
  PipelineRegs.vertex_attributes (pipeline regs).

(** The body of the loop over the components of one loader; the state is
    the running [offset], the layout and [enable_attributes]. *)
Definition loader_component (loader : PipelineRegs.AttributeLoader)
    (st : Z * VertexLayout * list bool) (comp : Z)
  : Z * VertexLayout * list bool :=
  let '(offset, layout, enable) := st in
  let va := vertex_attributes_regs in
  let attribute_index := PipelineRegs.GetComponent loader comp in
  if 12 <=? attribute_index then
    (* Attribute ids 12 to 15 signify 4, 8, 12 and 16-byte paddings. *)
    let offset := AlignUp offset 4 in
    (u32 (offset + (attribute_index - 11) * 4), layout, enable)
  else
    let size := PipelineRegs.GetNumElements va attribute_index in
    if size =? 0 then st
    else
      let offset :=
        AlignUp offset (PipelineRegs.GetElementSizeInBytes va attribute_index) in
      let input_reg := vs_GetRegisterForAttribute regs attribute_index in
      let format := PipelineRegs.GetFormat va attribute_index in
      let attribute :=
        {| va_binding := binding_count layout;
           va_location := input_reg;
           va_type := format;
           va_size := size;
           va_offset := offset |} in
      (u32 (offset + PipelineRegs.GetStride va attribute_index),
       set_attribute input_reg attribute layout,
       <[Z.to_nat input_reg := true]> enable).

(** [for (comp = 0; comp < loader.component_count && comp < 12; comp++)] *)
Definition loader_components (loader : PipelineRegs.AttributeLoader)
    (layout : VertexLayout) (enable : list bool) : Z * VertexLayout * list bool :=
  fold_left (loader_component loader)
    (seqZ 0 (Z.min (PipelineRegs.component_count loader) 12))
    (0, layout, enable).

(** The copy of one loader's vertex data: one [memcpy] when the stride
    needs no alignment, one [memcpy] per vertex otherwise. *)
Definition copy_vertices (dst : Bytes) (dst_ptr : Z) (src_ptr : Bytes)
    (byte_count aligned_stride vertex_num data_size : Z) : Bytes :=
  if aligned_stride =? byte_count then
    memcpy dst dst_ptr src_ptr 0 data_size
  else
    fold_left
      (fun d vertex =>
         memcpy d (dst_ptr + vertex * aligned_stride)
           src_ptr (vertex * byte_count) byte_count)
      (seqZ 0 vertex_num) dst.

(** Where a loader's vertex data starts in guest memory, how many vertices
    the index range holds, how many bytes that makes, and the stride after
    alignment. *)
Definition loader_data_addr (vi : VertexArrayInfo)
    (loader : PipelineRegs.AttributeLoader) : Z :=
  u32 (PipelineRegs.GetPhysicalBaseAddress vertex_attributes_regs
       + PipelineRegs.data_offset loader
       + vs_input_index_min vi * PipelineRegs.byte_count loader).

Definition loader_vertex_num (vi : VertexArrayInfo) : Z :=
  u32 (vs_input_index_max vi - vs_input_index_min vi + 1).

Definition loader_data_size (vi : VertexArrayInfo)
    (loader : PipelineRegs.AttributeLoader) : Z :=
  u32 (PipelineRegs.byte_count loader * loader_vertex_num vi).

Definition loader_aligned_stride (loader : PipelineRegs.AttributeLoader) : Z :=
  AlignUp (u32 (PipelineRegs.byte_count loader)) (GetMinVertexStrideAlignment instance).

(** The body of the loop over the attribute loaders; [array_offset] is
    where [stream_buffer.Map] placed the region, and the accumulator pairs
    [buffer_offset] with the rasterizer. *)
Definition setup_loader (array_offset : Z) (acc : Z * RasterizerVulkan)
    (loader : PipelineRegs.AttributeLoader) : Z * RasterizerVulkan :=
  let '(buffer_offset, s) := acc in
  let byte_count := PipelineRegs.byte_count loader in
  if (PipelineRegs.component_count loader =? 0) || (byte_count =? 0) then acc
  else
    let vi := vertex_info s in
    (* Analyze the attribute loader by checking which attributes it provides *)
    let '(_, layout, enable) :=
      loader_components loader (vertex_layout (pipeline_info s))
        (enable_attributes s) in
    let data_addr := loader_data_addr vi loader in
    let vertex_num := loader_vertex_num vi in
    let data_size := loader_data_size vi loader in
    let s := emit (res_cache_FlushRegion data_addr data_size) s in
    let src_ref := memory_GetPhysicalRef data_addr in
    let s :=
      if GetSize src_ref <? data_size
      then emit (LOG_ERROR_vertex_buffer_size data_size (GetSize src_ref) data_addr) s
      else s in
    let src_ptr := GetPtr src_ref in
    let dst_ptr := array_offset + buffer_offset in
    (* Align stride up if required by Vulkan implementation. *)
    let aligned_stride := loader_aligned_stride loader in
    let sb := stream_buffer s in
    let data :=
      copy_vertices (sb_content sb) dst_ptr src_ptr byte_count aligned_stride
        vertex_num data_size in
    let s := set_stream_buffer {| sb_state := sb_state sb; sb_content := data |} s in
    (* Create the binding associated with this loader *)
    let n := binding_count layout in
    let binding :=
      {| vb_binding := n; vb_fixed := 0; vb_stride := aligned_stride |} in
    let layout := set_binding n binding layout in
    (* Keep track of the binding offsets so we can bind the vertex buffer later *)
    let s :=
      set_binding_offsets
        (<[Z.to_nat n := u32 (array_offset + buffer_offset)]> (binding_offsets s)) s in
    let layout := set_binding_count (n + 1) layout in
    let s := set_enable_attributes enable s in
    let s := set_pipeline_info (set_vertex_layout layout (pipeline_info s)) s in
    (u32 (buffer_offset + AlignUp (u32 (aligned_stride * vertex_num)) 4), s).

(** The first loop of [SetupFixedAttribs]: the state is the write [offset]
    into the fixed region, the fixed region's bytes, the layout and
    [enable_attributes]. *)
Definition fixed_attrib (pica_core : PicaCore) (fixed_ptr : Z)
    (st : Z * Bytes * VertexLayout * list bool) (i : Z)
  : Z * Bytes * VertexLayout * list bool :=
  let '(offset, data, layout, enable) := st in
  if PipelineRegs.IsDefaultAttribute vertex_attributes_regs i then
    let reg := vs_GetRegisterForAttribute regs i in
    if negb (default false (enable !! Z.to_nat reg)) then
      let attr := input_default_attributes pica_core i in
      let data_size := sizeof_float * 4 in
      let data := memcpy data (fixed_ptr + offset) (AsArray attr) 0 data_size in
      let attribute :=
        {| va_binding := binding_count layout;
           va_location := reg;
           va_type := PipelineRegs.FLOAT;
           va_size := 4;
           va_offset := offset |} in
      (u32 (offset + data_size), data, set_attribute reg attribute layout,
       <[Z.to_nat reg := true]> enable)
    else st
  else st.

(** The second loop: every attribute still unused takes the default one. *)
Definition unused_attrib (enable : list bool) (layout : VertexLayout) (i : Z)
  : VertexLayout :=
  if negb (default false (enable !! Z.to_nat i)) then
    set_attribute i
      {| va_binding := binding_count layout;
         va_location := i;
         va_type := PipelineRegs.FLOAT;
         va_size := 4;
         va_offset := 0 |} layout
  else layout.

Definition SetupFixedAttribs : M unit :=
  fun s =>
    let layout := vertex_layout (pipeline_info s) in
    let sb := stream_buffer s in
    let '(fixed_offset, _, st) := sb_Map (sb_state sb) (16 * sizeof_Vec4f) 0 in
    let fixed_ptr := fixed_offset in
    let s :=
      set_binding_offsets
        (<[Z.to_nat (binding_count layout) := u32 fixed_offset]> (binding_offsets s)) s in
    (* Reserve the last binding for fixed and default attributes.
       Place the default attrib at offset zero for easy access. *)
    let data := memcpy (sb_content sb) fixed_ptr (AsArray default_attrib) 0 sizeof_Vec4f in
    (* Find all fixed attributes and assign them to the last binding *)
    let '(offset, data, layout, enable) :=
      fold_left (fixed_attrib (pica s) fixed_ptr) (seqZ 0 16)
        (sizeof_Vec4f, data, layout, enable_attributes s) in
    (* Loop one more time to find unused attributes *)
    let layout := fold_left (unused_attrib enable) (seqZ 0 16) layout in
    (* Define the fixed+default binding *)
    let n := binding_count layout in
    let layout :=
      set_binding_count (n + 1)
        (set_binding n {| vb_binding := n; vb_fixed := 1; vb_stride := offset |} layout) in
    let s := set_enable_attributes enable s in
    let s := set_pipeline_info (set_vertex_layout layout (pipeline_info s)) s in
    let s :=
      set_stream_buffer {| sb_state := sb_Commit st offset; sb_content := data |} s in
    (tt, s).

Definition SetupVertexArray : M unit :=
  fun s =>
    let vi := vertex_info s in
    let sb := stream_buffer s in
    let '(array_offset, invalidate, st) := sb_Map (sb_state sb) (vs_input_size vi) 16 in
    let s := set_stream_buffer {| sb_state := st; sb_content := sb_content sb |} s in
    let layout :=
      set_attribute_count 16 (set_binding_count 0 (vertex_layout (pipeline_info s))) in
    let s := set_pipeline_info (set_vertex_layout layout (pipeline_info s)) s in
    let s := set_enable_attributes (replicate 16 false) s in
    let '(buffer_offset, s) :=
      fold_left (setup_loader array_offset)
        (PipelineRegs.attribute_loaders vertex_attributes_regs) (0, s) in
    let sb := stream_buffer s in
    let s :=
      set_stream_buffer
        {| sb_state := sb_Commit (sb_state sb) buffer_offset;
           sb_content := sb_content sb |} s in
    (* Assign the rest of the attributes to the last binding *)
    SetupFixedAttribs s.

(** ** [SetupIndexArray] and [AccelerateDrawBatchInternal] *)

Definition SetupIndexArray : M unit :=
  fun s =>
    let p := pipeline regs in
    let index_u8 := PipelineRegs.format (PipelineRegs.index_array p) =? 0 in
    let native_u8 := index_u8 && IsIndexTypeUint8Supported instance in
    let index_buffer_size :=
      u32 (PipelineRegs.num_vertices p * (if native_u8 then 1 else 2)) in
    let index_type := if native_u8 then eUint8EXT else eUint16 in
    let index_data :=
      memory_GetPhysicalPointer
        (u32 (PipelineRegs.GetPhysicalBaseAddress vertex_attributes_regs
              + PipelineRegs.offset (PipelineRegs.index_array p))) in
    let sb := stream_buffer s in
    let '(index_offset, _, st) := sb_Map (sb_state sb) index_buffer_size 2 in
    let index_ptr := index_offset in
    let data :=
      if index_u8 && negb native_u8 then
        fold_left
          (fun d i => store_u16 d index_ptr i (load_u8 index_data i))
          (seqZ 0 (PipelineRegs.num_vertices p)) (sb_content sb)
      else memcpy (sb_content sb) index_ptr index_data 0 index_buffer_size in
    let s :=
      set_stream_buffer
        {| sb_state := sb_Commit st index_buffer_size; sb_content := data |} s in
    (tt, emit (scheduler_Record [bindIndexBuffer index_offset index_type]) s).

Definition AccelerateDrawBatchInternal (is_indexed : bool) : M bool :=
  do (if is_indexed then SetupIndexArray else ret tt) then
  fun s =>
    let num_vertices := PipelineRegs.num_vertices (pipeline regs) in
    let wait_built := negb async_shaders || (num_vertices <=? 6) in
    let bound := BindPipeline (pipeline_info s) wait_built in
    let s := emit (pipeline_cache_BindPipeline (pipeline_info s) wait_built) s in
    if negb bound then (true, s)
    else
      let vertex_count := num_vertices in
      let vertex_offset := s32 (- s32 (vs_input_index_min (vertex_info s))) in
      let binding_count := binding_count (vertex_layout (pipeline_info s)) in
      let bindings := binding_offsets s in
      let cmds :=
        [bindVertexBuffers 0 binding_count bindings;
         if is_indexed
         then drawIndexed vertex_count 1 0 vertex_offset 0
         else draw vertex_count 1 0 0] in
      (true, emit (scheduler_Record cmds) s).

(** ** Texture units *)

Definition cube_faces : list TexturingRegs.CubeFace :=
  [TexturingRegs.PositiveX; TexturingRegs.NegativeX; TexturingRegs.PositiveY;
   TexturingRegs.NegativeY; TexturingRegs.PositiveZ; TexturingRegs.NegativeZ].

Definition BindShadowCube (texture : TexturingRegs.FullTextureConfig)
    (texture_set : Z) : M unit :=
  fun s =>
    let cfg := TexturingRegs.config texture in
    let sampler := GetSampler cfg in
    let s := emit (res_cache_GetSampler cfg) s in
    let face_step (s : RasterizerVulkan) (face : TexturingRegs.CubeFace) :=
      let binding := TexturingRegs.CubeFace_index face in
      let info :=
        {| info_config := cfg; info_format := TexturingRegs.format texture;
           physical_address := TexturingRegs.GetCubePhysicalAddress (texturing regs) face |} in
      let surface := GetTextureSurface_info info in
      let s := emit (res_cache_GetTextureSurface_info info) s in
      let s := emit (surface_flags_ShadowMap surface) s in
      emit (update_queue_AddImageSampler texture_set 0 binding
              (StorageView surface) sampler) s in
    (tt, fold_left face_step cube_faces s).

(** The key [BindTextureCube] hands to the surface cache. *)
Definition texture_cube_config (texture : TexturingRegs.FullTextureConfig)
  : TextureCubeConfig :=
  let t := texturing regs in
  let cfg := TexturingRegs.config texture in
  {| px := TexturingRegs.GetCubePhysicalAddress t TexturingRegs.PositiveX;
     nx := TexturingRegs.GetCubePhysicalAddress t TexturingRegs.NegativeX;
     py := TexturingRegs.GetCubePhysicalAddress t TexturingRegs.PositiveY;
     ny := TexturingRegs.GetCubePhysicalAddress t TexturingRegs.NegativeY;
     pz := TexturingRegs.GetCubePhysicalAddress t TexturingRegs.PositiveZ;
     nz := TexturingRegs.GetCubePhysicalAddress t TexturingRegs.NegativeZ;
     cube_width := TexturingRegs.width cfg;
     levels := u32 (TexturingRegs.lod_max_level cfg + 1);
     cube_format := TexturingRegs.format texture |}.

Definition BindTextureCube (texture : TexturingRegs.FullTextureConfig)
    (texture_set : Z) : M unit :=
  fun s =>
    let config := texture_cube_config texture in
    let surface := GetTextureCube config in
    let s := emit (res_cache_GetTextureCube config) s in
    let sampler := GetSampler (TexturingRegs.config texture) in
    let s := emit (res_cache_GetSampler (TexturingRegs.config texture)) s in
    (tt, emit (update_queue_AddImageSampler texture_set 0 0
                 (ImageView surface) sampler) s).

(** The body of the loop over the texture units. *)
Definition sync_texture_unit (framebuffer : Framebuffer) (texture_set : Z)
    (texture_index : Z) (texture : TexturingRegs.FullTextureConfig) : M unit :=
  let cfg := TexturingRegs.config texture in
  let general : M unit :=
    fun s =>
      (* Bind the texture provided by the rasterizer cache *)
      let surface := GetTextureSurface texture in
      let s := emit (res_cache_GetTextureSurface texture) s in
      let sampler := GetSampler cfg in
      let s := emit (res_cache_GetSampler cfg) s in
      let color_view := ImageView_Color framebuffer in
      let is_feedback_loop := color_view =? ImageView surface in
      let texture_view :=
        if is_feedback_loop then CopyImageView surface else ImageView surface in
      (tt, emit (update_queue_AddImageSampler texture_set texture_index 0
                   texture_view sampler) s) in
  if negb (TexturingRegs.enabled texture) then
    (* If the texture unit is disabled bind a null surface to it *)
    modify (emit (update_queue_AddImageSampler texture_set texture_index 0
                    (ImageView null_surface) null_sampler))
  else if texture_index =? 0 then
    (* Handle special tex0 configurations *)
    match TexturingRegs.type cfg with
    | TexturingRegs.Shadow2D =>
        fun s =>
          let surface := GetTextureSurface texture in
          let s := emit (res_cache_GetTextureSurface texture) s in
          let sampler := GetSampler cfg in
          let s := emit (res_cache_GetSampler cfg) s in
          let s := emit (surface_flags_ShadowMap surface) s in
          (tt, emit (update_queue_AddImageSampler texture_set texture_index 0
                       (StorageView surface) sampler) s)
    | TexturingRegs.ShadowCube => BindShadowCube texture texture_set
    | TexturingRegs.TextureCube => BindTextureCube texture texture_set
    | _ => general
    end
  else general.

Fixpoint sync_texture_units (framebuffer : Framebuffer) (texture_set : Z)
    (texture_index : Z) (textures : list TexturingRegs.FullTextureConfig)
  : M unit :=
  match textures with
  | [] => ret tt
  | texture :: rest =>
      do sync_texture_unit framebuffer texture_set texture_index texture then
      sync_texture_units framebuffer texture_set (texture_index + 1) rest
  end.

(** [pica_textures[0].enabled && pica_textures[0].config.type ==
    TextureType::ShadowCube] *)
Definition use_cube_heap (pica_textures : list TexturingRegs.FullTextureConfig) : bool :=
  match pica_textures with
  | texture :: _ =>
      TexturingRegs.enabled texture
      && match TexturingRegs.type (TexturingRegs.config texture) with
         | TexturingRegs.ShadowCube => true
         | _ => false
         end
  | [] => false
  end.

Definition SyncTextureUnits (framebuffer : Framebuffer) : M unit :=
  let pica_textures := TexturingRegs.GetTextures (texturing regs) in
  let heap := if use_cube_heap pica_textures then Texture else Texture in
  let texture_set := Acquire heap in
  do modify (emit (pipeline_cache_Acquire heap)) then
  sync_texture_units framebuffer texture_set 0 pica_textures.

Definition SyncUtilityTextures (fb : Framebuffer) : M unit :=
  let shadow_rendering := FramebufferRegs.IsShadowRendering (framebuffer regs) in
  if negb shadow_rendering then ret tt
  else
    let utility_set := Acquire Utility in
    do modify (emit (pipeline_cache_Acquire Utility)) then
    modify (emit (update_queue_AddStorageImage utility_set 0
                    (ImageView_Color fb))).

(** ** Lookup tables and uniforms *)

Definition set_scissor_x1 (v : Z) (r : FSUniformData) : FSUniformData :=
  {| scissor_x1 := v; scissor_y1 := scissor_y1 r;
     scissor_x2 := scissor_x2 r; scissor_y2 := scissor_y2 r;
     lighting_lut_offset := lighting_lut_offset r;
     fog_lut_offset := fog_lut_offset r;
     proctex_noise_lut_offset := proctex_noise_lut_offset r;
     proctex_color_map_offset := proctex_color_map_offset r;
     proctex_alpha_map_offset := proctex_alpha_map_offset r;
     proctex_lut_offset := proctex_lut_offset r;
     proctex_diff_lut_offset := proctex_diff_lut_offset r |}.

Definition set_scissor_y1 (v : Z) (r : FSUniformData) : FSUniformData :=
  {| scissor_x1 := scissor_x1 r; scissor_y1 := v;
     scissor_x2 := scissor_x2 r; scissor_y2 := scissor_y2 r;
     lighting_lut_offset := lighting_lut_offset r;
     fog_lut_offset := fog_lut_offset r;
     proctex_noise_lut_offset := proctex_noise_lut_offset r;
     proctex_color_map_offset := proctex_color_map_offset r;
     proctex_alpha_map_offset := proctex_alpha_map_offset r;
     proctex_lut_offset := proctex_lut_offset r;
     proctex_diff_lut_offset := proctex_diff_lut_offset r |}.

Definition set_scissor_x2 (v : Z) (r : FSUniformData) : FSUniformData :=
  {| scissor_x1 := scissor_x1 r; scissor_y1 := scissor_y1 r;
     scissor_x2 := v; scissor_y2 := scissor_y2 r;
     lighting_lut_offset := lighting_lut_offset r;
     fog_lut_offset := fog_lut_offset r;
     proctex_noise_lut_offset := proctex_noise_lut_offset r;
     proctex_color_map_offset := proctex_color_map_offset r;
     proctex_alpha_map_offset := proctex_alpha_map_offset r;
     proctex_lut_offset := proctex_lut_offset r;
     proctex_diff_lut_offset := proctex_diff_lut_offset r |}.

Definition set_scissor_y2 (v : Z) (r : FSUniformData) : FSUniformData :=
  {| scissor_x1 := scissor_x1 r; scissor_y1 := scissor_y1 r;
     scissor_x2 := scissor_x2 r; scissor_y2 := v;
     lighting_lut_offset := lighting_lut_offset r;
     fog_lut_offset := fog_lut_offset r;
     proctex_noise_lut_offset := proctex_noise_lut_offset r;
     proctex_color_map_offset := proctex_color_map_offset r;
     proctex_alpha_map_offset := proctex_alpha_map_offset r;
     proctex_lut_offset := proctex_lut_offset r;
     proctex_diff_lut_offset := proctex_diff_lut_offset r |}.

Definition set_lighting_lut_offset (v : list Z) (r : FSUniformData) : FSUniformData :=
  {| scissor_x1 := scissor_x1 r; scissor_y1 := scissor_y1 r;
     scissor_x2 := scissor_x2 r; scissor_y2 := scissor_y2 r;
     lighting_lut_offset := v; fog_lut_offset := fog_lut_offset r;
     proctex_noise_lut_offset := proctex_noise_lut_offset r;
     proctex_color_map_offset := proctex_color_map_offset r;
     proctex_alpha_map_offset := proctex_alpha_map_offset r;
     proctex_lut_offset := proctex_lut_offset r;
     proctex_diff_lut_offset := proctex_diff_lut_offset r |}.

Definition set_fog_lut_offset (v : Z) (r : FSUniformData) : FSUniformData :=
  {| scissor_x1 := scissor_x1 r; scissor_y1 := scissor_y1 r;
     scissor_x2 := scissor_x2 r; scissor_y2 := scissor_y2 r;
     lighting_lut_offset := lighting_lut_offset r; fog_lut_offset := v;
     proctex_noise_lut_offset := proctex_noise_lut_offset r;
     proctex_color_map_offset := proctex_color_map_offset r;
     proctex_alpha_map_offset := proctex_alpha_map_offset r;
     proctex_lut_offset := proctex_lut_offset r;
     proctex_diff_lut_offset := proctex_diff_lut_offset r |}.

Definition set_proctex_noise_lut_offset (v : Z) (r : FSUniformData) : FSUniformData :=
  {| scissor_x1 := scissor_x1 r; scissor_y1 := scissor_y1 r;
     scissor_x2 := scissor_x2 r; scissor_y2 := scissor_y2 r;
     lighting_lut_offset := lighting_lut_offset r;
     fog_lut_offset := fog_lut_offset r; proctex_noise_lut_offset := v;
     proctex_color_map_offset := proctex_color_map_offset r;
     proctex_alpha_map_offset := proctex_alpha_map_offset r;
     proctex_lut_offset := proctex_lut_offset r;
     proctex_diff_lut_offset := proctex_diff_lut_offset r |}.

Definition set_proctex_color_map_offset (v : Z) (r : FSUniformData) : FSUniformData :=
  {| scissor_x1 := scissor_x1 r; scissor_y1 := scissor_y1 r;
     scissor_x2 := scissor_x2 r; scissor_y2 := scissor_y2 r;
     lighting_lut_offset := lighting_lut_offset r;
     fog_lut_offset := fog_lut_offset r;
     proctex_noise_lut_offset := proctex_noise_lut_offset r;
     proctex_color_map_offset := v;
     proctex_alpha_map_offset := proctex_alpha_map_offset r;
     proctex_lut_offset := proctex_lut_offset r;
     proctex_diff_lut_offset := proctex_diff_lut_offset r |}.

Definition set_proctex_alpha_map_offset (v : Z) (r : FSUniformData) : FSUniformData :=
  {| scissor_x1 := scissor_x1 r; scissor_y1 := scissor_y1 r;
     scissor_x2 := scissor_x2 r; scissor_y2 := scissor_y2 r;
     lighting_lut_offset := lighting_lut_offset r;
     fog_lut_offset := fog_lut_offset r;
     proctex_noise_lut_offset := proctex_noise_lut_offset r;
     proctex_color_map_offset := proctex_color_map_offset r;
     proctex_alpha_map_offset := v;
     proctex_lut_offset := proctex_lut_offset r;
     proctex_diff_lut_offset := proctex_diff_lut_offset r |}.

Definition set_proctex_lut_offset (v : Z) (r : FSUniformData) : FSUniformData :=
  {| scissor_x1 := scissor_x1 r; scissor_y1 := scissor_y1 r;
     scissor_x2 := scissor_x2 r; scissor_y2 := scissor_y2 r;
     lighting_lut_offset := lighting_lut_offset r;
     fog_lut_offset := fog_lut_offset r;
     proctex_noise_lut_offset := proctex_noise_lut_offset r;
     proctex_color_map_offset := proctex_color_map_offset r;
     proctex_alpha_map_offset := proctex_alpha_map_offset r;
     proctex_lut_offset := v;
     proctex_diff_lut_offset := proctex_diff_lut_offset r |}.

Definition set_proctex_diff_lut_offset (v : Z) (r : FSUniformData) : FSUniformData :=
  {| scissor_x1 := scissor_x1 r; scissor_y1 := scissor_y1 r;
     scissor_x2 := scissor_x2 r; scissor_y2 := scissor_y2 r;
     lighting_lut_offset := lighting_lut_offset r;
     fog_lut_offset := fog_lut_offset r;
     proctex_noise_lut_offset := proctex_noise_lut_offset r;
     proctex_color_map_offset := proctex_color_map_offset r;
     proctex_alpha_map_offset := proctex_alpha_map_offset r;
     proctex_lut_offset := proctex_lut_offset r;
     proctex_diff_lut_offset := v |}.

Definition set_lighting_lut_dirty (v : Z) (r : PicaCore) : PicaCore :=
  {| lighting_lut_dirty := v; fog_lut_dirty := fog_lut_dirty r;
     proctex_dirty := proctex_dirty r;
     vs_setup_uniforms_dirty := vs_setup_uniforms_dirty r;
     input_default_attributes := input_default_attributes r |}.

Definition set_fog_lut_dirty (v : bool) (r : PicaCore) : PicaCore :=
  {| lighting_lut_dirty := lighting_lut_dirty r; fog_lut_dirty := v;
     proctex_dirty := proctex_dirty r;
     vs_setup_uniforms_dirty := vs_setup_uniforms_dirty r;
     input_default_attributes := input_default_attributes r |}.

Definition set_proctex_dirty (v : ProcTexDirty) (r : PicaCore) : PicaCore :=
  {| lighting_lut_dirty := lighting_lut_dirty r;
     fog_lut_dirty := fog_lut_dirty r; proctex_dirty := v;
     vs_setup_uniforms_dirty := vs_setup_uniforms_dirty r;
     input_default_attributes := input_default_attributes r |}.

Definition set_vs_setup_uniforms_dirty (v : bool) (r : PicaCore) : PicaCore :=
  {| lighting_lut_dirty := lighting_lut_dirty r;
     fog_lut_dirty := fog_lut_dirty r; proctex_dirty := proctex_dirty r;
     vs_setup_uniforms_dirty := v;
     input_default_attributes := input_default_attributes r |}.

(** Modelled from the spec: [Lighting::LutAllDirty] (declared in
    [pica_core.h]) has the dirty bit of every lighting lookup table set,
    bits 0 to [NumLightingSampler - 1] ("all LUT dirty bits true"). *)
Definition LutAllDirty : Z := Z.ones NumLightingSampler.

(** Number of entries of one lighting table and of the fog table, as in
    the bound [max_size] of [SyncAndUploadLUTsLF]. *)
Definition lighting_lut_size : Z := 256.

Definition fog_lut_size : Z := 128.

(** Entries of a procedural-texture value table and colour table. *)
Definition proctex_value_lut_size : Z := 128.

Definition proctex_color_table_size : Z := 256.

(** A store of [block] at byte [at_] of the mapped texel buffer. *)
Definition store_block (at_ : Z) (block : Block)
    (b : StreamBuffer (list (Z * Block))) : StreamBuffer (list (Z * Block)) :=
  {| sb_state := sb_state b; sb_content := sb_content b ++ [(at_, block)] |}.

(** The body of [while (pica.lighting.lut_dirty)]; the accumulator pairs
    [bytes_used] with the rasterizer. *)
Definition sync_lighting_lut (offset : Z) (acc : Z * RasterizerVulkan)
  : Z * RasterizerVulkan :=
  let '(bytes_used, s) := acc in
  let dirty := lighting_lut_dirty (pica s) in
  let index := countr_zero dirty in
  let s :=
    set_pica
      (set_lighting_lut_dirty (Z.land dirty (Z.lnot (Z.shiftl 1 index))) (pica s)) s in
  let s :=
    set_texture_lf_buffer
      (store_block (offset + bytes_used) (lighting_lut index) (texture_lf_buffer s)) s in
  let fs := fs_data s in
  let s :=
    set_fs_data
      (set_lighting_lut_offset
         (<[Z.to_nat (4 * (index / 4) + index mod 4)
              := (offset + bytes_used) / sizeof_Vec2f]> (lighting_lut_offset fs)) fs) s in
  let s := set_fs_data_dirty true s in
  (bytes_used + lighting_lut_size * sizeof_Vec2f, s).

(** The [while] loop. Every round clears one bit of a 32-bit word, so 32
    rounds are enough ([while_lut_dirty_done] below). *)
Fixpoint while_lut_dirty (fuel : nat) (offset : Z) (acc : Z * RasterizerVulkan)
  : Z * RasterizerVulkan :=
  match fuel with
  | O => acc
  | S fuel =>
      if truthy (lighting_lut_dirty (pica (snd acc)))
      then while_lut_dirty fuel offset (sync_lighting_lut offset acc)
      else acc
  end.

(** The bound [max_size] of [SyncAndUploadLUTsLF]: all lighting tables
    and the fog table. *)
Definition LUTsLF_max_size : Z :=
  sizeof_Vec2f * 256 * NumLightingSampler + sizeof_Vec2f * 128.

Definition SyncAndUploadLUTsLF : M unit :=
  fun s =>
    let max_size := LUTsLF_max_size in
    if negb (truthy (lighting_lut_dirty (pica s))) && negb (fog_lut_dirty (pica s))
    then (tt, s)
    else
      let b := texture_lf_buffer s in
      let '(offset, invalidate, st) := sb_Map (sb_state b) max_size sizeof_Vec4f in
      let s :=
        set_texture_lf_buffer {| sb_state := st; sb_content := sb_content b |} s in
      let s :=
        if invalidate
        then set_pica (set_fog_lut_dirty true
                         (set_lighting_lut_dirty LutAllDirty (pica s))) s
        else s in
      (* Sync the lighting luts *)
      let '(bytes_used, s) := while_lut_dirty 32 offset (0, s) in
      (* Sync the fog lut *)
      let '(bytes_used, s) :=
        if fog_lut_dirty (pica s) then
          let s :=
            set_texture_lf_buffer
              (store_block (offset + bytes_used) fog_lut (texture_lf_buffer s)) s in
          let s :=
            set_fs_data
              (set_fog_lut_offset ((offset + bytes_used) / sizeof_Vec2f) (fs_data s)) s in
          let s := set_fs_data_dirty true s in
          let s := set_pica (set_fog_lut_dirty false (pica s)) s in
          (bytes_used + fog_lut_size * sizeof_Vec2f, s)
        else (bytes_used, s) in
      let b := texture_lf_buffer s in
      (tt, set_texture_lf_buffer
             {| sb_state := sb_Commit (sb_state b) (u32 bytes_used);
                sb_content := sb_content b |} s).

(** One table of [SyncAndUploadLUTs]: stored at [offset + bytes_used] when
    its bit is dirty, its offset recorded in elements of [elem] bytes. *)
Definition sync_proctex_table (is_dirty : ProcTexDirty -> bool) (offset : Z)
    (block : Block) (set_offset : Z -> FSUniformData -> FSUniformData)
    (elem entries : Z) (acc : Z * RasterizerVulkan) : Z * RasterizerVulkan :=
  let '(bytes_used, s) := acc in
  if is_dirty (proctex_dirty (pica s)) then
    let s :=
      set_texture_buffer
        (store_block (offset + bytes_used) block (texture_buffer s)) s in
    let s := set_fs_data (set_offset ((offset + bytes_used) / elem) (fs_data s)) s in
    let s := set_fs_data_dirty true s in
    (bytes_used + entries * elem, s)
  else acc.

(** The bound [max_size] of [SyncAndUploadLUTs]: noise, colour map and
    alpha map, then the colour table and its difference table. *)
Definition LUTs_max_size : Z :=
  sizeof_Vec2f * 128 * 3 + sizeof_Vec4f * 256 + sizeof_Vec4f * 256.

Definition SyncAndUploadLUTs : M unit :=
  fun s =>
    let max_size := LUTs_max_size in
    if negb (lut_dirty (proctex_dirty (pica s))) then (tt, s)
    else
      let b := texture_buffer s in
      let '(offset, invalidate, st) := sb_Map (sb_state b) max_size sizeof_Vec4f in
      let s := set_texture_buffer {| sb_state := st; sb_content := sb_content b |} s in
      let s :=
        if invalidate then set_pica (set_proctex_dirty TableAllDirty (pica s)) s else s in
      let acc := (0, s) in
      (* Sync the proctex noise lut, color map and alpha map *)
      let acc :=
        sync_proctex_table noise_lut_dirty offset proctex_noise_table
          set_proctex_noise_lut_offset sizeof_Vec2f proctex_value_lut_size acc in
      let acc :=
        sync_proctex_table color_map_dirty offset proctex_color_map_table
          set_proctex_color_map_offset sizeof_Vec2f proctex_value_lut_size acc in
      let acc :=
        sync_proctex_table alpha_map_dirty offset proctex_alpha_map_table
          set_proctex_alpha_map_offset sizeof_Vec2f proctex_value_lut_size acc in
      (* Sync the proctex lut and the proctex difference lut *)
      let acc :=
        sync_proctex_table lut_dirty offset proctex_color_table
          set_proctex_lut_offset sizeof_Vec4f proctex_color_table_size acc in
      let acc :=
        sync_proctex_table diff_lut_dirty offset proctex_color_diff_table
          set_proctex_diff_lut_offset sizeof_Vec4f proctex_color_table_size acc in
      let '(bytes_used, s) := acc in
      let s := set_pica (set_proctex_dirty TableNoneDirty (pica s)) s in
      let b := texture_buffer s in
      (tt, set_texture_buffer
             {| sb_state := sb_Commit (sb_state b) (u32 bytes_used);
                sb_content := sb_content b |} s).

(** One block of [UploadUniforms]: stored at [offset + used_bytes] and its
    binding point refreshed, when [cond] holds. *)
Definition upload_block (cond : RasterizerVulkan -> bool) (offset : Z)
    (block : Block) (binding : Z) (size_aligned : Z)
    (clear : RasterizerVulkan -> RasterizerVulkan)
    (acc : Z * RasterizerVulkan) : Z * RasterizerVulkan :=
  let '(used_bytes, s) := acc in
  if cond s then
    let s :=
      set_uniform_buffer
        (store_block (offset + used_bytes) block (uniform_buffer s)) s in
    let s := emit (pipeline_cache_UpdateRange binding (offset + used_bytes)) s in
    let s := clear s in
    (u32 (used_bytes + size_aligned), s)
  else acc.

(** The size [UploadUniforms] maps: room for the three blocks. *)
Definition uniform_size : Z :=
  u32 (uniform_size_aligned_vs_pica + uniform_size_aligned_vs
       + uniform_size_aligned_fs).

Definition UploadUniforms (accelerate_draw : bool) : M unit :=
  fun s =>
    let sync_vs_pica := accelerate_draw && vs_setup_uniforms_dirty (pica s) in
    if negb sync_vs_pica && negb (vs_data_dirty s) && negb (fs_data_dirty s)
    then (tt, s)
    else
      let b := uniform_buffer s in
      let '(offset, invalidate, st) :=
        sb_Map (sb_state b) uniform_size uniform_buffer_alignment in
      let s := set_uniform_buffer {| sb_state := st; sb_content := sb_content b |} s in
      let acc := (0, s) in
      let acc :=
        upload_block (fun s => vs_data_dirty s || invalidate) offset
          VSUniformData_block 1
          uniform_size_aligned_vs (set_vs_data_dirty false) acc in
      let acc :=
        upload_block (fun s => fs_data_dirty s || invalidate) offset
          (FSUniformData_block (fs_data s)) 2
          uniform_size_aligned_fs (set_fs_data_dirty false) acc in
      let acc :=
        upload_block (fun _ => sync_vs_pica || invalidate) offset
          VSPicaUniformData_block 0
          uniform_size_aligned_vs_pica
          (fun s => set_pica (set_vs_setup_uniforms_dirty false (pica s)) s) acc in
      let '(used_bytes, s) := acc in
      let b := uniform_buffer s in
      (tt, set_uniform_buffer
             {| sb_state := sb_Commit (sb_state b) used_bytes;
                sb_content := sb_content b |} s).

(** ** [Draw] and its callers *)

Definition set_attachments (a : AttachmentInfo) (info : PipelineInfo) : PipelineInfo :=
  {| blending := blending info;
     attachments := a;
     rasterization := rasterization info;
     depth_stencil := depth_stencil info;
     dynamic := dynamic info;
     vertex_layout := vertex_layout info |}.

Definition set_viewport_scissor (vp sc : Rectangle) (info : PipelineInfo)
  : PipelineInfo :=
  let d := dynamic info in
  {| blending := blending info;
     attachments := attachments info;
     rasterization := rasterization info;
     depth_stencil := depth_stencil info;
     dynamic :=
       {| blend_color := blend_color d;
          stencil_reference := stencil_reference d;
          stencil_compare_mask := stencil_compare_mask d;
          stencil_write_mask := stencil_write_mask d;
          scissor := sc;
          viewport := vp |};
     vertex_layout := vertex_layout info |}.

Definition set_topology (t : PipelineRegs.TriangleTopology) (info : PipelineInfo)
  : PipelineInfo :=
  let r := rasterization info in
  {| blending := blending info;
     attachments := attachments info;
     rasterization :=
       {| topology := t; cull_mode := cull_mode r; flip_viewport := flip_viewport r |};
     depth_stencil := depth_stencil info;
     dynamic := dynamic info;
     vertex_layout := vertex_layout info |}.

(** The software path of [Draw]: the batched vertices go to the stream
    buffer in one copy and are drawn unindexed. *)
Definition draw_vertex_batch : M unit :=
  fun s =>
    let s := emit (pipeline_cache_BindPipeline (pipeline_info s) true) s in
    let vertex_count := u32 (Z.of_nat (length (vertex_batch s))) in
    let vertex_size := u32 (vertex_count * sizeof_HardwareVertex) in
    let sb := stream_buffer s in
    let '(offset, _, st) := sb_Map (sb_state sb) vertex_size sizeof_HardwareVertex in
    let batch := concat (vertex_batch s) in
    let data :=
      memcpy (sb_content sb) offset (fun k => nth (Z.to_nat k) batch 0) 0 vertex_size in
    let s :=
      set_stream_buffer {| sb_state := sb_Commit st vertex_size; sb_content := data |} s in
    (tt, emit (scheduler_Record
                 [bindVertexBuffers 0 1 [offset]; draw vertex_count 1 0 0]) s).

(** Whether [Draw] takes the colour and the depth attachment as in use,
    from the registers and the descriptor [SyncDrawState] left. *)
Definition using_color_fb (info : PipelineInfo) : bool :=
  let fbregs := framebuffer regs in
  let fb := FramebufferRegs.framebuffer fbregs in
  let shadow_rendering := FramebufferRegs.IsShadowRendering fbregs in
  let write_color_fb :=
    shadow_rendering || truthy (color_write_mask (blending info)) in
  negb (FramebufferRegs.GetColorBufferPhysicalAddress fb =? 0) && write_color_fb.

Definition using_depth_fb (info : PipelineInfo) : bool :=
  let fbregs := framebuffer regs in
  let fb := FramebufferRegs.framebuffer fbregs in
  let om := FramebufferRegs.output_merger fbregs in
  let shadow_rendering := FramebufferRegs.IsShadowRendering fbregs in
  let has_stencil := FramebufferRegs.HasStencil fbregs in
  let write_depth_fb := IsDepthWriteEnabled info in
  negb shadow_rendering
  && negb (FramebufferRegs.GetDepthBufferPhysicalAddress fb =? 0)
  && (write_depth_fb
      || negb (FramebufferRegs.depth_test_enable om =? 0)
      || (has_stencil && stencil_test_enable (depth_stencil info))).

Definition Draw (accelerate is_indexed : bool) : M bool :=
  do SyncDrawState then
  fun s =>
    let using_color_fb := using_color_fb (pipeline_info s) in
    let using_depth_fb := using_depth_fb (pipeline_info s) in
    let fb_helper := GetFramebufferSurfaces using_color_fb using_depth_fb in
    let s := emit (res_cache_GetFramebufferSurfaces using_color_fb using_depth_fb) s in
    let framebuffer := Framebuffer_ fb_helper in
    if negb (truthy (Handle framebuffer)) then (true, s)
    else
      let s :=
        set_pipeline_info
          (set_attachments
             {| color := Format_Color framebuffer; depth := Format_Depth framebuffer |}
             (pipeline_info s)) s in
      (* Update scissor uniforms *)
      let '(x1, y2, x2, y1) := Scissor fb_helper in
      let fs := fs_data s in
      let s :=
        if negb (scissor_x1 fs =? x1) || negb (scissor_x2 fs =? x2)
           || negb (scissor_y1 fs =? y1) || negb (scissor_y2 fs =? y2)
        then
          set_fs_data_dirty true
            (set_fs_data
               (set_scissor_y2 y2 (set_scissor_y1 y1
                  (set_scissor_x2 x2 (set_scissor_x1 x1 fs)))) s)
        else s in
      let rest : M bool :=
        (* Sync and bind the texture surfaces *)
        do SyncTextureUnits framebuffer then
        do SyncUtilityTextures framebuffer then
        (* Sync and bind the shader *)
        do modify (emit pipeline_cache_UseFragmentShader) then
        (* Sync the LUTs within the texture buffer *)
        do SyncAndUploadLUTs then
        do SyncAndUploadLUTsLF then
        do UploadUniforms accelerate then
        (* Begin rendering *)
        let draw_rect := DrawRect fb_helper in
        do modify (emit (renderpass_cache_BeginRendering framebuffer draw_rect)) then
        (* Configure viewport and scissor *)
        let vp := Viewport fb_helper in
        let viewport_rect :=
          {| left := vp_x vp; top := vp_y vp;
             right := s32 (vp_x vp + vp_width vp);
             bottom := s32 (vp_y vp + vp_height vp) |} in
        do modify (fun s =>
             set_pipeline_info
               (set_viewport_scissor viewport_rect draw_rect (pipeline_info s)) s) then
        (* Draw the vertex batch *)
        let* succeeded :=
          (if accelerate then AccelerateDrawBatchInternal is_indexed
           else do draw_vertex_batch then ret true) in
        do modify (set_vertex_batch []) then
        ret succeeded in
      rest s.

Definition SetupVertexShader : M bool :=
  fun s =>
    let layout := vertex_layout (pipeline_info s) in
    (UseProgrammableVertexShader layout,
     emit (pipeline_cache_UseProgrammableVertexShader layout) s).

Definition SetupGeometryShader : M bool :=
  match PipelineRegs.use_gs (pipeline regs) with
  | PipelineRegs.Yes =>
      do modify (emit LOG_ERROR_geometry_shader) then ret false
  | PipelineRegs.No =>
      if lighting_disable regs || IsFragmentShaderBarycentricSupported instance then
        do modify (emit pipeline_cache_UseTrivialGeometryShader) then ret true
      else
        do modify (emit pipeline_cache_UseFixedGeometryShader) then
        ret UseFixedGeometryShader
  end.

Definition AccelerateDrawBatch (is_indexed : bool) : M bool :=
  let p := pipeline regs in
  let gs_rejected :=
    match PipelineRegs.use_gs p with
    | PipelineRegs.No => false
    | PipelineRegs.Yes =>
        match PipelineRegs.gs_config_mode p with
        | PipelineRegs.Point =>
            negb (PipelineRegs.TriangleTopology_eqb
                    (PipelineRegs.triangle_topology p) PipelineRegs.Shader)
        | _ => true
        end
    end in
  if gs_rejected then ret false
  else
    do modify (fun s =>
         set_pipeline_info
           (set_topology (PipelineRegs.triangle_topology p) (pipeline_info s)) s) then
    if PipelineRegs.TriangleTopology_eqb (PipelineRegs.triangle_topology p)
         PipelineRegs.Fan
       && negb (IsTriangleFanSupported instance)
    then do modify (emit LOG_DEBUG_triangle_fan) then ret false
    else
      (* Vertex data setup might involve scheduler flushes so perform it
         early to avoid invalidating our state in the middle of the draw. *)
      do modify (set_vertex_info
                   (AnalyzeVertexArray is_indexed
                      (GetMinVertexStrideAlignment instance))) then
      do SetupVertexArray then
      let* vs_ok := SetupVertexShader in
      if negb vs_ok then ret false
      else
        let* gs_ok := SetupGeometryShader in
        if negb gs_ok then ret false
        else Draw true is_indexed.

(** ** [MakeSoftwareVertexLayout] and [DrawTriangles] *)

(** A value-initialised [VertexLayout]; the sizes of its two arrays are
    declared with it in [vk_graphics_pipeline.h]. *)
Variable VertexLayout_zero : VertexLayout.

(** [constexpr std::array sizes], the number of floats of each member of
    a [HardwareVertex]. *)
Definition software_sizes : list Z := [4; 4; 2; 2; 2; 1; 4; 3].

(** The body of the loop over the bindings of the software layout. *)
Definition software_binding (layout : VertexLayout) (i : Z) : VertexLayout :=
  set_binding i
    {| vb_binding := i; vb_fixed := 0; vb_stride := sizeof_HardwareVertex |} layout.

(** The body of the loop over its eight attributes; the state pairs the
    running [offset] with the layout. *)
Definition software_attribute (st : Z * VertexLayout) (i : Z) : Z * VertexLayout :=
  let '(offset, layout) := st in
  let size := default 0 (software_sizes !! Z.to_nat i) in
  (u32 (offset + size * sizeof_float),
   set_attribute i
     {| va_binding := 0;
        va_location := i;
        va_type := PipelineRegs.FLOAT;
        va_size := size;
        va_offset := offset |} layout).

(** The value [MakeSoftwareVertexLayout] leaves in the member
    [software_layout]. *)
Definition MakeSoftwareVertexLayout : VertexLayout :=
  let layout := set_attribute_count 8 (set_binding_count 1 VertexLayout_zero) in
  let layout := fold_left software_binding (seqZ 0 (binding_count layout)) layout in
  snd (fold_left software_attribute (seqZ 0 8) (0, layout)).

(** [software_layout] is assigned by the constructor, through
    [MakeSoftwareVertexLayout], and nowhere else. *)
Definition software_layout : VertexLayout := MakeSoftwareVertexLayout.

Definition DrawTriangles : M unit :=
  fun s =>
    match vertex_batch s with
    | [] => (tt, s)
    | _ :: _ =>
        let s :=
          set_pipeline_info (set_topology PipelineRegs.List (pipeline_info s)) s in
        let s :=
          set_pipeline_info (set_vertex_layout software_layout (pipeline_info s)) s in
        let s := emit pipeline_cache_UseTrivialVertexShader s in
        let s := emit pipeline_cache_UseTrivialGeometryShader s in
        let '(_, s) := Draw false false s in
        (tt, s)
    end.

(** ** [AccelerateDisplay] *)

(** The fields of [Pica::FramebufferConfig] the display path reads. *)
Record Pica_FramebufferConfig := {
  config_width : Z;
  config_height : Z;
  config_color_format : Z;
}.

(** The fields of [VideoCore::SurfaceParams] it fills in before
    [UpdateParams]. *)
Record SurfaceParams := {
  params_addr : Z;
  params_width : Z;
  params_height : Z;
  params_stride : Z;
  params_is_tiled : bool;
  params_pixel_format : Z;
}.

(** Single-precision floats are kept abstract: [f32_div a b] is
    [(float)a / (float)b]. *)
Context {f32 : Type}.
Variable f32_div : Z -> Z -> f32.

(** [texcoords] holds the four arguments of the [Rectangle<f32>]
    constructor, in the order the source passes them. *)
Record ScreenInfo := {
  texcoords : f32 * f32 * f32 * f32;
  image_view : Z;
}.

Variable PixelFormatFromGPUPixelFormat : Z -> Z.

(** [res_cache.GetSurfaceSubRect (src_params, ScaleMatch::Ignore, true)]
    after [src_params.UpdateParams ()]: the surface id, if one is valid,
    and the sub-rectangle; and what [res_cache.GetSurface] then gives for
    that id. *)
Variable GetSurfaceSubRect : SurfaceParams -> option Z * Rectangle.
Variable GetSurface : Z -> Surface.
Variable GetScaledWidth : Z -> Z.
Variable GetScaledHeight : Z -> Z.

Definition AccelerateDisplay (config : Pica_FramebufferConfig)
    (framebuffer_addr pixel_stride : Z) (screen_info : ScreenInfo)
  : bool * ScreenInfo :=
  if framebuffer_addr =? 0 then (false, screen_info)
  else
    let src_params :=
      {| params_addr := framebuffer_addr;
         params_width := Z.min (config_width config) pixel_stride;
         params_height := config_height config;
         params_stride := pixel_stride;
         params_is_tiled := false;
         params_pixel_format :=
           PixelFormatFromGPUPixelFormat (config_color_format config) |} in
    let '(src_surface_id, src_rect) := GetSurfaceSubRect src_params in
    match src_surface_id with
    | None => (false, screen_info)
    | Some id =>
        let scaled_width := GetScaledWidth id in
        let scaled_height := GetScaledHeight id in
        (true,
         {| texcoords :=
              (f32_div (bottom src_rect) scaled_height,
               f32_div (left src_rect) scaled_width,
               f32_div (top src_rect) scaled_height,
               f32_div (right src_rect) scaled_width);
            image_view := ImageView (GetSurface id) |})
    end.


(** * Properties *)

(** ** The fixed-function state synchronizer *)

Lemma truthy_true (v : Z) : truthy v = true <-> v <> 0.
Proof. unfold truthy. destruct (Z.eqb_spec v 0); simpl; split; congruence. Qed.

Lemma SyncDrawState_pipeline_info (s : RasterizerVulkan) :
  pipeline_info (snd (SyncDrawState s)) = SyncDrawState_info (pipeline_info s).
Proof.
  unfold SyncDrawState.
  destruct (SyncDrawUniforms (fs_data s, vs_data_dirty s, fs_data_dirty s))
    as [[fs vs_dirty] fs_dirty].
  reflexivity.
Qed.

(** C1: when the target API needs logic-op emulation, blending is disabled
    and the logic op is NoOp, [SyncDrawState] sets the descriptor's colour
    write mask to 0; the depth write enable is [allow_depth_stencil_write
    != 0 && depth_write_enable], whatever the logic op and blend state. *)
Theorem C1_noop_logic_op_masks_color (s : RasterizerVulkan) :
  let fb := FramebufferRegs.framebuffer (framebuffer regs) in
  let om := FramebufferRegs.output_merger (framebuffer regs) in
  NeedsLogicOpEmulation instance = true ->
  FramebufferRegs.alphablend_enable om = 0 ->
  FramebufferRegs.logic_op om = FramebufferRegs.NoOp ->
  let info := pipeline_info (snd (SyncDrawState s)) in
  color_write_mask (blending info) = 0
  /\ depth_write_enable (depth_stencil info)
     = truthy (FramebufferRegs.allow_depth_stencil_write fb)
       && truthy (FramebufferRegs.depth_write_enable om).
Proof.
  intros fb om Hemu Hblend Hop info. subst info.
  rewrite SyncDrawState_pipeline_info. unfold SyncDrawState_info. cbn.
  fold om. rewrite Hemu, Hblend, Hop. split; reflexivity.
Qed.

(** The depth write enable of the descriptor never depends on the logic
    op, the blend enable or the instance: it is the same expression in
    every register state. *)
Lemma SyncDrawState_depth_write_enable (s : RasterizerVulkan) :
  depth_write_enable (depth_stencil (pipeline_info (snd (SyncDrawState s))))
  = truthy (FramebufferRegs.allow_depth_stencil_write
              (FramebufferRegs.framebuffer (framebuffer regs)))
    && truthy (FramebufferRegs.depth_write_enable
                 (FramebufferRegs.output_merger (framebuffer regs))).
Proof. rewrite SyncDrawState_pipeline_info. reflexivity. Qed.

(** C3: the descriptor's depth test enable is true exactly when the depth
    compare test or the depth write is enabled in the registers, and its
    stencil test enable is true exactly when the stencil test is requested
    and the depth format is D24S8, the one format with stencil. *)
Theorem C3_depth_and_stencil_test_enable (s : RasterizerVulkan) :
  let fb := FramebufferRegs.framebuffer (framebuffer regs) in
  let om := FramebufferRegs.output_merger (framebuffer regs) in
  let info := pipeline_info (snd (SyncDrawState s)) in
  (depth_test_enable (depth_stencil info) = true
   <-> FramebufferRegs.depth_test_enable om = 1
       \/ FramebufferRegs.depth_write_enable om = 1)
  /\ (stencil_test_enable (depth_stencil info) = true
      <-> FramebufferRegs.enable (FramebufferRegs.stencil_test om) <> 0
          /\ FramebufferRegs.depth_format fb = FramebufferRegs.D24S8).
Proof.
  intros fb om info. subst info.
  rewrite SyncDrawState_pipeline_info. unfold SyncDrawState_info. cbn.
  fold om fb. split.
  - rewrite orb_true_iff, !Z.eqb_eq. reflexivity.
  - rewrite andb_true_iff, truthy_true.
    destruct (FramebufferRegs.depth_format fb); simpl; intuition congruence.
Qed.

(** ** The vertex assembler: copying a loader's vertex data *)

Lemma u32_small (v : Z) : 0 <= v < 2 ^ 32 -> u32 v = v.
Proof. intros H. unfold u32. apply Z.mod_small. exact H. Qed.

Lemma u32_range (v : Z) : 0 <= u32 v < 2 ^ 32.
Proof. unfold u32. apply Z.mod_pos_bound. lia. Qed.


Lemma memcpy_inside (dst src : Bytes) (d s n k : Z) :
  d <= k < d + n -> memcpy dst d src s n k = src (s + (k - d)).
Proof.
  intros H. unfold memcpy.
  destruct (Z.leb_spec d k); destruct (Z.ltb_spec k (d + n)); simpl;
    first [reflexivity | lia].
Qed.

Lemma memcpy_outside (dst src : Bytes) (d s n k : Z) :
  k < d \/ d + n <= k -> memcpy dst d src s n k = dst k.
Proof.
  intros H. unfold memcpy.
  destruct (Z.leb_spec d k); destruct (Z.ltb_spec k (d + n)); simpl;
    first [reflexivity | lia].
Qed.



(** What the stream buffer holds after one round of the loader loop. *)
Lemma setup_loader_content (array_offset buffer_offset : Z) (s : RasterizerVulkan)
    (loader : PipelineRegs.AttributeLoader) :
  PipelineRegs.component_count loader <> 0 ->
  PipelineRegs.byte_count loader <> 0 ->
  sb_content (stream_buffer (snd (setup_loader array_offset (buffer_offset, s) loader)))
  = copy_vertices (sb_content (stream_buffer s)) (array_offset + buffer_offset)
      (GetPtr (memory_GetPhysicalRef (loader_data_addr (vertex_info s) loader)))
      (PipelineRegs.byte_count loader) (loader_aligned_stride loader)
      (loader_vertex_num (vertex_info s)) (loader_data_size (vertex_info s) loader).
Proof.
  intros Hc Hb. unfold setup_loader.
  destruct (Z.eqb_spec (PipelineRegs.component_count loader) 0); [contradiction |].
  destruct (Z.eqb_spec (PipelineRegs.byte_count loader) 0); [contradiction |].
  cbn [orb].
  destruct (loader_components loader _ _) as [[o layout] enable].
  destruct (GetSize _ <? _); reflexivity.
Qed.


(** ** The vertex assembler: a source range that does not fit *)

(** The events a member function added to the trace. *)
Definition events_since (s s' : RasterizerVulkan) : list Event :=
  drop (length (trace s)) (trace s').

Lemma events_since_app (s s' : RasterizerVulkan) (l : list Event) :
  trace s' = trace s ++ l -> events_since s s' = l.
Proof. intros H. unfold events_since. rewrite H. apply drop_app_length. Qed.

(** Spec reading of "clamps the read to the available space": of the
    region staged at [dst_ptr], nothing past the first [available] bytes is
    taken from the source. *)
Definition read_clamped_to_available (available dst_ptr : Z)
    (before staged : Bytes) : Prop :=
  forall k, available <= k -> staged (dst_ptr + k) = before (dst_ptr + k).

Lemma loader_component_binding_count (loader : PipelineRegs.AttributeLoader)
    (st : Z * VertexLayout * list bool) (comp : Z) :
  binding_count (snd (fst (loader_component loader st comp)))
  = binding_count (snd (fst st)).
Proof.
  destruct st as [[o layout] enable]. unfold loader_component.
  destruct (12 <=? _); [reflexivity |].
  destruct (_ =? 0); reflexivity.
Qed.

Lemma loader_components_binding_count (loader : PipelineRegs.AttributeLoader)
    (layout : VertexLayout) (enable : list bool) :
  binding_count (snd (fst (loader_components loader layout enable)))
  = binding_count layout.
Proof.
  unfold loader_components.
  generalize (seqZ 0 (Z.min (PipelineRegs.component_count loader) 12)).
  intros comps.
  change layout with (snd (fst (0, layout, enable))) at 2.
  generalize (0, layout, enable). induction comps as [| c comps IH]; intros st.
  - reflexivity.
  - cbn [fold_left]. rewrite IH. apply loader_component_binding_count.
Qed.

(** When a loader's source range [data_size] exceeds the space available
    behind the guest address, the loader round reports it (one [LOG_ERROR]
    after the flush) and goes on: [data_size] is not reduced for the copy,
    and the loader's binding is created as usual. *)
Lemma setup_loader_short_source (array_offset buffer_offset : Z)
    (s : RasterizerVulkan) (loader : PipelineRegs.AttributeLoader) :
  let vi := vertex_info s in
  let data_addr := loader_data_addr vi loader in
  let data_size := loader_data_size vi loader in
  let src_ref := memory_GetPhysicalRef data_addr in
  let dst_ptr := array_offset + buffer_offset in
  let s' := snd (setup_loader array_offset (buffer_offset, s) loader) in
  PipelineRegs.component_count loader <> 0 ->
  PipelineRegs.byte_count loader <> 0 ->
  GetSize src_ref < data_size ->
  events_since s s'
  = [res_cache_FlushRegion data_addr data_size;
     LOG_ERROR_vertex_buffer_size data_size (GetSize src_ref) data_addr]
  /\ sb_content (stream_buffer s')
     = copy_vertices (sb_content (stream_buffer s)) dst_ptr (GetPtr src_ref)
         (PipelineRegs.byte_count loader) (loader_aligned_stride loader)
         (loader_vertex_num vi) data_size
  /\ binding_count (vertex_layout (pipeline_info s'))
     = binding_count (vertex_layout (pipeline_info s)) + 1.
Proof.
  intros vi data_addr data_size src_ref dst_ptr s' Hc Hb Hshort.
  assert (Hcontent := setup_loader_content array_offset buffer_offset s loader Hc Hb).
  fold vi data_addr data_size src_ref dst_ptr s' in Hcontent.
  split; [| split; [exact Hcontent |]].
  - apply events_since_app. subst s'. unfold setup_loader.
    destruct (Z.eqb_spec (PipelineRegs.component_count loader) 0); [contradiction |].
    destruct (Z.eqb_spec (PipelineRegs.byte_count loader) 0); [contradiction |].
    cbn [orb].
    destruct (loader_components loader _ _) as [[o layout] enable].
    fold vi data_addr data_size src_ref.
    destruct (Z.ltb_spec (GetSize src_ref) data_size); [| lia].
    cbn. rewrite <- app_assoc. reflexivity.
  - subst s'. unfold setup_loader.
    destruct (Z.eqb_spec (PipelineRegs.component_count loader) 0); [contradiction |].
    destruct (Z.eqb_spec (PipelineRegs.byte_count loader) 0); [contradiction |].
    cbn [orb].
    pose proof (loader_components_binding_count loader
                  (vertex_layout (pipeline_info s)) (enable_attributes s)) as Hn.
    destruct (loader_components loader _ _) as [[o layout] enable].
    cbn in Hn. destruct (GetSize _ <? _); cbn; rewrite Hn; reflexivity.
Qed.

(** ** Index arrays *)

(** The widening loop after [n] rounds, byte by byte: the low byte of the
    16-bit index [i] is the guest byte [i], the high byte is 0. *)
Lemma widen_loop_bytes (dst src : Bytes) (p : Z) (n : nat) (i : Z) :
  0 <= i < Z.of_nat n ->
  let staged :=
    fold_left (fun d i => store_u16 d p i (load_u8 src i)) (seqZ 0 (Z.of_nat n)) dst in
  staged (p + 2 * i) = src i mod 256 /\ staged (p + 2 * i + 1) = 0.
Proof.
  induction n as [| n IH]; intros Hi; [lia |].
  cbv zeta. rewrite seqZ_S, fold_left_app. cbn [fold_left]. rewrite Z.add_0_l.
  unfold store_u16 at 1 3. unfold load_u8 at 1 2 4 5.
  pose proof (Z.mod_pos_bound (src (Z.of_nat n)) 256 ltac:(lia)) as Hbyte.
  destruct (Z.eq_dec i (Z.of_nat n)) as [-> | Hne].
  - rewrite Z.eqb_refl.
    destruct (Z.eqb_spec (p + 2 * Z.of_nat n + 1) (p + 2 * Z.of_nat n)); [lia |].
    rewrite Z.eqb_refl, Z.div_small by lia.
    split; [apply Z.mod_small; lia | apply Z.mod_0_l; lia].
  - destruct (Z.eqb_spec (p + 2 * i) (p + 2 * Z.of_nat n)); [lia |].
    destruct (Z.eqb_spec (p + 2 * i) (p + 2 * Z.of_nat n + 1)); [lia |].
    destruct (Z.eqb_spec (p + 2 * i + 1) (p + 2 * Z.of_nat n)); [lia |].
    destruct (Z.eqb_spec (p + 2 * i + 1) (p + 2 * Z.of_nat n + 1)); [lia |].
    apply IH. lia.
Qed.

(** What [SetupIndexArray] commits: the 32-bit product it computed as the
    buffer size, whatever the loop wrote. *)
Lemma SetupIndexArray_commit (s : RasterizerVulkan) :
  let p := pipeline regs in
  let native_u8 :=
    (PipelineRegs.format (PipelineRegs.index_array p) =? 0)
    && IsIndexTypeUint8Supported instance in
  let size := u32 (PipelineRegs.num_vertices p * (if native_u8 then 1 else 2)) in
  sb_state (stream_buffer (snd (SetupIndexArray s)))
  = sb_Commit (snd (sb_Map (sb_state (stream_buffer s)) size 2)) size.
Proof.
  unfold SetupIndexArray. cbv zeta.
  destruct (sb_Map _ _ _) as [[index_offset invalidate] st]. reflexivity.
Qed.

(** C10 (amended): with 8-bit guest indices, no native 8-bit index type
    and a buffer size [2 * num_vertices] that fits in 32 bits, every staged
    index [i] below [num_vertices] is the guest byte [i] widened to 16 bits
    with its value kept: on the little-endian host its low byte is the
    guest byte and its high byte is 0; the staged region is mapped and
    committed with [2 * num_vertices] bytes and is bound with index type
    uint16. *)
Theorem C10_u8_indices_widened (s : RasterizerVulkan) :
  let p := pipeline regs in
  let n := PipelineRegs.num_vertices p in
  let index_data :=
    memory_GetPhysicalPointer
      (u32 (PipelineRegs.GetPhysicalBaseAddress vertex_attributes_regs
            + PipelineRegs.offset (PipelineRegs.index_array p))) in
  let mapped := sb_Map (sb_state (stream_buffer s)) (2 * n) 2 in
  let index_offset := fst (fst mapped) in
  let s' := snd (SetupIndexArray s) in
  let staged := sb_content (stream_buffer s') in
  PipelineRegs.format (PipelineRegs.index_array p) = 0 ->
  IsIndexTypeUint8Supported instance = false ->
  0 <= n -> 2 * n < 2 ^ 32 ->
  (forall i, 0 <= i < n ->
     staged (index_offset + 2 * i) = index_data i mod 256
     /\ staged (index_offset + 2 * i + 1) = 0)
  /\ sb_state (stream_buffer s') = sb_Commit (snd mapped) (2 * n)
  /\ events_since s s' = [scheduler_Record [bindIndexBuffer index_offset eUint16]].
Proof.
  intros p n index_data mapped index_offset s' staged Hfmt Hnat Hn Hfit.
  subst staged s'. unfold SetupIndexArray. fold p. rewrite Hfmt, Hnat.
  cbn [Z.eqb andb negb].
  fold n. replace (n * 2) with (2 * n) by lia.
  rewrite (u32_small (2 * n)) by lia. fold index_data mapped.
  subst index_offset. destruct mapped as [[index_offset invalidate] st]. cbn.
  split; [| split].
  - intros i Hi. replace n with (Z.of_nat (Z.to_nat n)) by lia.
    apply widen_loop_bytes. lia.
  - reflexivity.
  - apply events_since_app. reflexivity.
Qed.

(** ** Recording the draw *)

Definition is_draw_command (c : Command) : bool :=
  match c with
  | drawIndexed _ _ _ _ _ | draw _ _ _ _ => true
  | _ => false
  end.

(** A closure handed to the scheduler that draws. *)
Definition records_draw (e : Event) : bool :=
  match e with
  | scheduler_Record cmds => existsb is_draw_command cmds
  | _ => false
  end.

(** The pipeline binds among some events, each with its descriptor and
    its [wait_built] flag. *)
Definition pipeline_binds (tr : list Event) : list (PipelineInfo * bool) :=
  omap (fun e =>
          match e with
          | pipeline_cache_BindPipeline info wait_built => Some (info, wait_built)
          | _ => None
          end) tr.

Lemma SetupIndexArray_frame (s : RasterizerVulkan) :
  let s' := snd (SetupIndexArray s) in
  pipeline_info s' = pipeline_info s
  /\ vertex_info s' = vertex_info s
  /\ binding_offsets s' = binding_offsets s
  /\ exists offset index_type,
       trace s' = trace s ++ [scheduler_Record [bindIndexBuffer offset index_type]].
Proof.
  unfold SetupIndexArray. cbv zeta.
  destruct (sb_Map _ _ _) as [[index_offset invalidate] st]. cbn.
  repeat split; eauto.
Qed.

(** C7: [AccelerateDrawBatchInternal] asks the pipeline cache to wait for
    the build exactly when asynchronous shader compilation is off or the
    draw has at most 6 vertices; when the cache answers that the pipeline
    is not bound, no draw command is recorded and the result is still
    true. *)
Theorem C7_async_pipeline_bind (is_indexed : bool) (s : RasterizerVulkan) :
  let n := PipelineRegs.num_vertices (pipeline regs) in
  let wait_built := negb async_shaders || (n <=? 6) in
  let r := AccelerateDrawBatchInternal is_indexed s in
  let new := events_since s (snd r) in
  (wait_built = true <-> async_shaders = false \/ n <= 6)
  /\ pipeline_binds new = [(pipeline_info s, wait_built)]
  /\ fst r = true
  /\ (BindPipeline (pipeline_info s) wait_built = false ->
      existsb records_draw new = false)
  /\ (BindPipeline (pipeline_info s) wait_built = true ->
      existsb records_draw new = true).
Proof.
  intros n wait_built r new.
  split.
  { subst wait_built. rewrite orb_true_iff, negb_true_iff, Z.leb_le. reflexivity. }
  assert (Hpre : exists s0 pre,
             (if is_indexed then SetupIndexArray else ret tt) s = (tt, s0)
             /\ pipeline_info s0 = pipeline_info s
             /\ trace s0 = trace s ++ pre
             /\ pipeline_binds pre = []
             /\ existsb records_draw pre = false).
  { destruct is_indexed.
    - destruct (SetupIndexArray_frame s) as (Hi & _ & _ & o & ty & Ht).
      exists (snd (SetupIndexArray s)), [scheduler_Record [bindIndexBuffer o ty]].
      destruct (SetupIndexArray s) as [[] s0]. cbn in *. auto.
    - exists s, []. cbn. rewrite app_nil_r. auto. }
  destruct Hpre as (s0 & pre & Hrun & Hinfo & Htrace & Hbinds & Hdraws).
  subst new r. unfold AccelerateDrawBatchInternal, bind. rewrite Hrun.
  fold n. fold wait_built. rewrite Hinfo.
  destruct (BindPipeline (pipeline_info s) wait_built) eqn:Hbound; cbn [negb].
  - cbn [fst snd].
    rewrite (events_since_app s _
               (pre ++ [pipeline_cache_BindPipeline (pipeline_info s) wait_built]
                    ++ [scheduler_Record
                          [bindVertexBuffers 0
                             (binding_count (vertex_layout (pipeline_info s0)))
                             (binding_offsets s0);
                           if is_indexed
                           then drawIndexed n 1 0
                                  (s32 (- s32 (vs_input_index_min (vertex_info s0)))) 0
                           else draw n 1 0 0]])).
    + unfold pipeline_binds in *. rewrite !omap_app, Hbinds, !existsb_app, Hdraws.
      cbn. repeat split; try congruence. destruct is_indexed; reflexivity.
    + cbn. rewrite Htrace, <- !app_assoc. reflexivity.
  - cbn [fst snd].
    rewrite (events_since_app s _
               (pre ++ [pipeline_cache_BindPipeline (pipeline_info s) wait_built])).
    + unfold pipeline_binds in *. rewrite !omap_app, Hbinds, !existsb_app, Hdraws.
      cbn. repeat split; congruence.
    + cbn. rewrite Htrace, <- !app_assoc. reflexivity.
Qed.

(** ** A draw with nothing to draw into *)

Lemma SyncDrawState_trace (s : RasterizerVulkan) :
  trace (snd (SyncDrawState s)) = trace s.
Proof.
  unfold SyncDrawState.
  destruct (SyncDrawUniforms _) as [[fs vs_dirty] fs_dirty]. reflexivity.
Qed.

Lemma SyncDrawState_buffers (s : RasterizerVulkan) :
  stream_buffer (snd (SyncDrawState s)) = stream_buffer s
  /\ vertex_batch (snd (SyncDrawState s)) = vertex_batch s.
Proof.
  unfold SyncDrawState.
  destruct (SyncDrawUniforms _) as [[fs vs_dirty] fs_dirty]. split; reflexivity.
Qed.

(** C6: when the framebuffer the surface cache resolves for the draw has a
    null handle, [Draw] returns true and its only call is the resolution
    itself: no pipeline is bound, nothing is recorded on the scheduler and
    the stream buffer is left as it was. *)
Theorem C6_null_framebuffer_is_noop (accelerate is_indexed : bool)
    (s : RasterizerVulkan) :
  let info := SyncDrawState_info (pipeline_info s) in
  let fb_helper := GetFramebufferSurfaces (using_color_fb info) (using_depth_fb info) in
  let r := Draw accelerate is_indexed s in
  let new := events_since s (snd r) in
  Handle (Framebuffer_ fb_helper) = 0 ->
  fst r = true
  /\ new = [res_cache_GetFramebufferSurfaces (using_color_fb info) (using_depth_fb info)]
  /\ pipeline_binds new = []
  /\ existsb records_draw new = false
  /\ stream_buffer (snd r) = stream_buffer s.
Proof.
  intros info fb_helper r new Hnull.
  assert (Hrun : r = (true,
                      emit (res_cache_GetFramebufferSurfaces (using_color_fb info)
                              (using_depth_fb info)) (snd (SyncDrawState s)))).
  { subst r. unfold Draw, bind.
    pose proof (SyncDrawState_pipeline_info s) as Hinfo.
    destruct (SyncDrawState s) as [[] s1]. cbn [snd] in *.
    rewrite Hinfo. fold info. fold fb_helper. rewrite Hnull. reflexivity. }
  assert (Hnew : new = [res_cache_GetFramebufferSurfaces (using_color_fb info)
                          (using_depth_fb info)]).
  { subst new. rewrite Hrun. apply events_since_app. cbn.
    rewrite SyncDrawState_trace. reflexivity. }
  rewrite Hnew, Hrun. cbn. repeat split.
  apply SyncDrawState_buffers.
Qed.

(** ** The result of a draw *)

Lemma AccelerateDrawBatchInternal_result (is_indexed : bool) (s : RasterizerVulkan) :
  fst (AccelerateDrawBatchInternal is_indexed s) = true.
Proof.
  unfold AccelerateDrawBatchInternal, bind.
  destruct ((if is_indexed then SetupIndexArray else ret tt) s) as [[] s0].
  destruct (negb (BindPipeline _ _)); reflexivity.
Qed.

(** [Draw] has no failing path: whatever the registers, the caches and
    the guest memory hold, it returns true. *)
Lemma Draw_result (accelerate is_indexed : bool) (s : RasterizerVulkan) :
  fst (Draw accelerate is_indexed s) = true.
Proof.
  unfold Draw, bind. destruct (SyncDrawState s) as [[] s1].
  destruct (negb (truthy (Handle _))); [reflexivity |].
  destruct (Scissor _) as [[[x1 y2] x2] y1].
  match goal with
  | |- context [SyncTextureUnits ?fb ?s0] => destruct (SyncTextureUnits fb s0) as [[] s2]
  end.
  destruct (SyncUtilityTextures _ s2) as [[] s3].
  unfold modify at 1.
  destruct (SyncAndUploadLUTs _) as [[] s4].
  destruct (SyncAndUploadLUTsLF s4) as [[] s5].
  destruct (UploadUniforms accelerate s5) as [[] s6].
  unfold modify, ret. destruct accelerate.
  - match goal with
    | |- context [AccelerateDrawBatchInternal is_indexed ?s0] =>
        pose proof (AccelerateDrawBatchInternal_result is_indexed s0) as Hr;
          destruct (AccelerateDrawBatchInternal is_indexed s0) as [succeeded s7]
    end.
    exact Hr.
  - unfold bind. destruct (draw_vertex_batch _) as [[] s7]. reflexivity.
Qed.


(** ** Texture units *)

(** Several events at once. *)
Definition emits (l : list Event) (s : RasterizerVulkan) : RasterizerVulkan :=
  set_trace (trace s ++ l) s.

Lemma emits_nil (s : RasterizerVulkan) : emits [] s = s.
Proof. destruct s. unfold emits, set_trace. cbn. rewrite app_nil_r. reflexivity. Qed.

Lemma emits_emits (l1 l2 : list Event) (s : RasterizerVulkan) :
  emits l2 (emits l1 s) = emits (l1 ++ l2) s.
Proof. unfold emits, set_trace. cbn. rewrite app_assoc. reflexivity. Qed.

Lemma emit_emits (e : Event) (s : RasterizerVulkan) : emit e s = emits [e] s.
Proof. reflexivity. Qed.

Lemma events_since_emits (l : list Event) (s : RasterizerVulkan) :
  events_since s (emits l s) = l.
Proof. apply events_since_app. reflexivity. Qed.

(** The combined-cube resolutions among some events. *)
Definition cube_resolutions (tr : list Event) : list TextureCubeConfig :=
  omap (fun e =>
          match e with
          | res_cache_GetTextureCube config => Some config
          | _ => None
          end) tr.

(** The image-sampler bindings made for texture unit [unit] among some
    events, each as (descriptor set, array index, view, sampler). *)
Definition image_sampler_bindings (unit : Z) (tr : list Event)
  : list (Z * Z * Z * Z) :=
  omap (fun e =>
          match e with
          | update_queue_AddImageSampler set binding array_index view sampler =>
              if binding =? unit then Some (set, array_index, view, sampler) else None
          | _ => None
          end) tr.

Lemma cube_resolutions_app (l1 l2 : list Event) :
  cube_resolutions (l1 ++ l2) = cube_resolutions l1 ++ cube_resolutions l2.
Proof. apply omap_app. Qed.

Lemma image_sampler_bindings_app (unit : Z) (l1 l2 : list Event) :
  image_sampler_bindings unit (l1 ++ l2)
  = image_sampler_bindings unit l1 ++ image_sampler_bindings unit l2.
Proof. apply omap_app. Qed.

Lemma BindTextureCube_events (texture : TexturingRegs.FullTextureConfig)
    (texture_set : Z) (s : RasterizerVulkan) :
  BindTextureCube texture texture_set s
  = (tt, emits
           [res_cache_GetTextureCube (texture_cube_config texture);
            res_cache_GetSampler (TexturingRegs.config texture);
            update_queue_AddImageSampler texture_set 0 0
              (ImageView (GetTextureCube (texture_cube_config texture)))
              (GetSampler (TexturingRegs.config texture))] s).
Proof.
  unfold BindTextureCube. rewrite !emit_emits, !emits_emits. reflexivity.
Qed.

(** A unit other than unit 0 resolves no cube and binds nothing at
    unit 0. *)
Lemma sync_texture_unit_other (fb : Framebuffer) (texture_set texture_index : Z)
    (texture : TexturingRegs.FullTextureConfig) (s : RasterizerVulkan) :
  texture_index <> 0 ->
  exists l,
    sync_texture_unit fb texture_set texture_index texture s = (tt, emits l s)
    /\ cube_resolutions l = []
    /\ image_sampler_bindings 0 l = [].
Proof.
  intros Hne. unfold sync_texture_unit.
  destruct (Z.eqb_spec texture_index 0) as [E | _]; [contradiction |].
  destruct (TexturingRegs.enabled texture); cbn [negb].
  - eexists. rewrite !emit_emits, !emits_emits. split; [reflexivity |].
    cbn. destruct (Z.eqb_spec texture_index 0); [contradiction |]. auto.
  - eexists. unfold modify. rewrite emit_emits. split; [reflexivity |].
    cbn. destruct (Z.eqb_spec texture_index 0); [contradiction |]. auto.
Qed.

Lemma sync_texture_units_other (fb : Framebuffer) (texture_set : Z)
    (textures : list TexturingRegs.FullTextureConfig) :
  forall (texture_index : Z) (s : RasterizerVulkan),
    0 < texture_index ->
    exists l,
      sync_texture_units fb texture_set texture_index textures s = (tt, emits l s)
      /\ cube_resolutions l = []
      /\ image_sampler_bindings 0 l = [].
Proof.
  induction textures as [| texture rest IH]; intros texture_index s Hpos.
  - exists []. cbn. rewrite emits_nil. auto.
  - cbn [sync_texture_units]. unfold bind.
    destruct (sync_texture_unit_other fb texture_set texture_index texture s)
      as (l1 & -> & Hc1 & Hb1); [lia |].
    destruct (IH (texture_index + 1) (emits l1 s)) as (l2 & -> & Hc2 & Hb2); [lia |].
    exists (l1 ++ l2). rewrite emits_emits. split; [reflexivity |].
    rewrite cube_resolutions_app, image_sampler_bindings_app, Hc1, Hc2, Hb1, Hb2.
    auto.
Qed.

(** C8: with texture unit 0 enabled and of type TextureCube,
    [SyncTextureUnits] asks the surface cache for exactly one combined
    cube, keyed by the six face addresses, the width, the format and
    [max_level + 1] levels, and binds exactly one image-sampler pair for
    unit 0: the cube's image view, at array index 0. *)
Theorem C8_texture_cube_bound_once (fb : Framebuffer) (s : RasterizerVulkan)
    (texture : TexturingRegs.FullTextureConfig)
    (rest : list TexturingRegs.FullTextureConfig) :
  let t := texturing regs in
  let cfg := TexturingRegs.config texture in
  let key :=
    {| px := TexturingRegs.GetCubePhysicalAddress t TexturingRegs.PositiveX;
       nx := TexturingRegs.GetCubePhysicalAddress t TexturingRegs.NegativeX;
       py := TexturingRegs.GetCubePhysicalAddress t TexturingRegs.PositiveY;
       ny := TexturingRegs.GetCubePhysicalAddress t TexturingRegs.NegativeY;
       pz := TexturingRegs.GetCubePhysicalAddress t TexturingRegs.PositiveZ;
       nz := TexturingRegs.GetCubePhysicalAddress t TexturingRegs.NegativeZ;
       cube_width := TexturingRegs.width cfg;
       levels := TexturingRegs.lod_max_level cfg + 1;
       cube_format := TexturingRegs.format texture |} in
  let new := events_since s (snd (SyncTextureUnits fb s)) in
  TexturingRegs.GetTextures t = texture :: rest ->
  TexturingRegs.enabled texture = true ->
  TexturingRegs.type cfg = TexturingRegs.TextureCube ->
  0 <= TexturingRegs.lod_max_level cfg < 2 ^ 32 - 1 ->
  cube_resolutions new = [key]
  /\ image_sampler_bindings 0 new
     = [(Acquire Texture, 0, ImageView (GetTextureCube key), GetSampler cfg)].
Proof.
  intros t cfg key new Htex Hen Hty Hlod.
  assert (Hkey : texture_cube_config texture = key).
  { unfold texture_cube_config. fold t cfg. subst key.
    rewrite u32_small by lia. reflexivity. }
  assert (Hrun : exists l,
             SyncTextureUnits fb s
             = (tt, emits
                      ([pipeline_cache_Acquire Texture;
                        res_cache_GetTextureCube key;
                        res_cache_GetSampler cfg;
                        update_queue_AddImageSampler (Acquire Texture) 0 0
                          (ImageView (GetTextureCube key)) (GetSampler cfg)] ++ l) s)
             /\ cube_resolutions l = []
             /\ image_sampler_bindings 0 l = []).
  { unfold SyncTextureUnits. fold t. rewrite Htex.
    replace (if use_cube_heap (texture :: rest) then Texture else Texture)
      with Texture by (destruct (use_cube_heap (texture :: rest)); reflexivity).
    unfold bind, modify. cbn [sync_texture_units]. unfold bind.
    unfold sync_texture_unit. fold cfg. rewrite Hen, Hty. cbn [negb Z.eqb].
    rewrite BindTextureCube_events, Hkey, emit_emits, emits_emits.
    match goal with
    | |- context [sync_texture_units fb ?set ?i rest ?s0] =>
        destruct (sync_texture_units_other fb set rest i s0) as (l & -> & Hc & Hb);
          [lia |]
    end.
    exists l. rewrite emits_emits. auto. }
  destruct Hrun as (l & Hrun & Hc & Hb).
  subst new. rewrite Hrun. cbn [snd]. rewrite events_since_emits.
  rewrite cube_resolutions_app, image_sampler_bindings_app, Hc, Hb.
  cbn. auto.
Qed.

(** ** Lookup tables: the dirty-bit loop *)

(** [countr_zero] finds the lowest set bit of a positive word. *)
Lemma countr_zero_pos_spec (p : positive) :
  0 <= countr_zero_pos p
  /\ Z.testbit (Zpos p) (countr_zero_pos p) = true
  /\ forall k, 0 <= k < countr_zero_pos p -> Z.testbit (Zpos p) k = false.
Proof.
  induction p as [p IH | p IH |]; cbn [countr_zero_pos].
  - repeat split; [lia | intros k Hk; lia].
  - destruct IH as (H0 & Hset & Hlow).
    change (Zpos p~0) with (2 * Zpos p).
    split; [lia |]. split.
    + replace (1 + countr_zero_pos p) with (Z.succ (countr_zero_pos p)) by lia.
      rewrite Z.testbit_even_succ by lia. exact Hset.
    + intros k Hk. destruct (Z.eq_dec k 0) as [-> | Hne].
      * apply Z.testbit_even_0.
      * replace k with (Z.succ (k - 1)) by lia.
        rewrite Z.testbit_even_succ by lia. apply Hlow. lia.
  - repeat split; [lia | intros k Hk; lia].
Qed.

Lemma countr_zero_spec (d : Z) :
  0 < d ->
  0 <= countr_zero d
  /\ Z.testbit d (countr_zero d) = true
  /\ forall k, 0 <= k < countr_zero d -> Z.testbit d k = false.
Proof.
  intros Hd. destruct d as [| p | p]; try lia. apply countr_zero_pos_spec.
Qed.

(** The dirty word, seen bit by bit: non-negative, and every set bit lies
    in [[lo, 32)]. *)
Definition bits_within (lo : Z) (d : Z) : Prop :=
  0 <= d /\ forall k, 0 <= k -> Z.testbit d k = true -> lo <= k < 32.

Lemma bits_within_u32 (d : Z) : 0 <= d < 2 ^ 32 -> bits_within 0 d.
Proof.
  intros Hd. split; [lia |]. intros k Hk Hbit. split; [lia |].
  destruct (Z.lt_ge_cases k 32) as [Hlt | Hge]; [exact Hlt |].
  rewrite <- (Z.mod_small d (2 ^ 32)) in Hbit by lia.
  rewrite Z.mod_pow2_bits_high in Hbit by lia. discriminate.
Qed.

Lemma bits_within_zero (lo d : Z) : 32 <= lo -> bits_within lo d -> d = 0.
Proof.
  intros Hlo [Hd Hbits]. apply Z.bits_inj'. intros k Hk.
  rewrite Z.bits_0. destruct (Z.testbit d k) eqn:E; [| reflexivity].
  specialize (Hbits k Hk E). lia.
Qed.

Lemma testbit_clear (d c k : Z) :
  0 <= c -> 0 <= k ->
  Z.testbit (Z.land d (Z.lnot (Z.shiftl 1 c))) k
  = Z.testbit d k && negb (k =? c).
Proof.
  intros Hc Hk. rewrite Z.land_spec, Z.lnot_spec by lia.
  rewrite Z.shiftl_1_l, Z.pow2_bits_eqb by lia.
  rewrite (Z.eqb_sym c k). reflexivity.
Qed.

(** One round on a dirty word: the lowest dirty bit lies in range, and
    clearing it leaves only bits above it. *)
Lemma bits_within_step (lo d : Z) :
  bits_within lo d -> d <> 0 ->
  lo <= countr_zero d < 32
  /\ Z.testbit d (countr_zero d) = true
  /\ (forall k, 0 <= k < countr_zero d -> Z.testbit d k = false)
  /\ bits_within (countr_zero d + 1) (Z.land d (Z.lnot (Z.shiftl 1 (countr_zero d)))).
Proof.
  intros [Hd Hbits] Hne.
  destruct (countr_zero_spec d) as (Hc & Hset & Hlow); [lia |].
  split; [apply Hbits; assumption |]. split; [exact Hset |]. split; [exact Hlow |].
  split.
  - apply Z.land_nonneg. left. exact Hd.
  - intros k Hk. rewrite testbit_clear by lia.
    intros Hbit. apply andb_true_iff in Hbit as [Hbit Hkc].
    apply negb_true_iff, Z.eqb_neq in Hkc.
    specialize (Hbits k Hk Hbit).
    destruct (Z.lt_ge_cases k (countr_zero d)) as [Hlt | Hge].
    + rewrite Hlow in Hbit by lia. discriminate.
    + lia.
Qed.

Lemma filter_none {A} (f : A -> bool) (l : list A) :
  (forall a, In a l -> f a = false) -> List.filter f l = [].
Proof.
  induction l as [| a l IH]; intros H; [reflexivity |].
  cbn [List.filter]. rewrite (H a) by (left; reflexivity).
  apply IH. intros b Hb. apply H. right. exact Hb.
Qed.

(** The dirty bits of [d] from [lo] on, in ascending order. *)
Definition dirty_bits_from (lo d : Z) : list Z :=
  List.filter (Z.testbit d) (seqZ lo (32 - lo)).

Lemma dirty_bits_from_step (lo d : Z) :
  0 <= lo -> bits_within lo d -> d <> 0 ->
  dirty_bits_from lo d
  = countr_zero d
      :: dirty_bits_from (countr_zero d + 1)
           (Z.land d (Z.lnot (Z.shiftl 1 (countr_zero d)))).
Proof.
  intros Hlo Hin Hne.
  destruct (bits_within_step lo d Hin Hne) as (Hc & Hset & Hlow & _).
  set (c := countr_zero d) in *. unfold dirty_bits_from.
  replace (32 - lo) with ((c - lo) + (1 + (32 - (c + 1)))) by lia.
  rewrite seqZ_app by lia. rewrite (seqZ_app _ 1) by lia.
  rewrite !List.filter_app.
  replace (lo + (c - lo)) with c by lia.
  rewrite (seqZ_cons c 1), (seqZ_nil (Z.succ c)) by lia.
  cbn [List.filter]. rewrite Hset.
  replace (List.filter (Z.testbit d) (seqZ lo (c - lo))) with (@nil Z).
  - cbn [app]. f_equal. apply List.filter_ext_in. intros k Hk.
    apply list_elem_of_In, elem_of_seqZ in Hk.
    rewrite testbit_clear by lia.
    destruct (Z.eqb_spec k c); [lia |]. rewrite andb_true_r. reflexivity.
  - symmetry. apply filter_none. intros k Hk.
    apply list_elem_of_In, elem_of_seqZ in Hk. apply Hlow. lia.
Qed.

Lemma dirty_bits_from_zero (lo : Z) : dirty_bits_from lo 0 = [].
Proof.
  unfold dirty_bits_from. apply filter_none. intros k _. apply Z.bits_0.
Qed.

Lemma dirty_bits_ones (n : Z) :
  0 <= n <= 32 -> dirty_bits_from 0 (Z.ones n) = seqZ 0 n.
Proof.
  intros Hn. unfold dirty_bits_from.
  replace (32 - 0) with (n + (32 - n)) by lia.
  rewrite seqZ_app, List.filter_app by lia.
  replace (List.filter (Z.testbit (Z.ones n)) (seqZ (0 + n) (32 - n))) with (@nil Z).
  - rewrite app_nil_r. apply List.forallb_filter_id, forallb_forall.
    intros k Hk. apply list_elem_of_In, elem_of_seqZ in Hk.
    apply Z.ones_spec_low. lia.
  - symmetry. apply filter_none. intros k Hk.
    apply list_elem_of_In, elem_of_seqZ in Hk. apply Z.ones_spec_high. lia.
Qed.

(** ** Uploads after a wrap of the ring buffer *)

(** The blocks an upload stored into a buffer, in order. *)
Definition stored_blocks (b b' : StreamBuffer (list (Z * Block))) : list Block :=
  map snd (drop (length (sb_content b)) (sb_content b')).

Lemma stored_blocks_app (b b' : StreamBuffer (list (Z * Block)))
    (l : list (Z * Block)) :
  sb_content b' = sb_content b ++ l -> stored_blocks b b' = map snd l.
Proof. intros H. unfold stored_blocks. rewrite H, drop_app_length. reflexivity. Qed.

Lemma sync_lighting_lut_step (offset bytes_used : Z) (s : RasterizerVulkan) :
  let d := lighting_lut_dirty (pica s) in
  let s' := snd (sync_lighting_lut offset (bytes_used, s)) in
  lighting_lut_dirty (pica s') = Z.land d (Z.lnot (Z.shiftl 1 (countr_zero d)))
  /\ fog_lut_dirty (pica s') = fog_lut_dirty (pica s)
  /\ sb_state (texture_lf_buffer s') = sb_state (texture_lf_buffer s)
  /\ sb_content (texture_lf_buffer s')
     = sb_content (texture_lf_buffer s)
         ++ [(offset + bytes_used, lighting_lut (countr_zero d))].
Proof. cbn. repeat split. Qed.

(** The [while] loop uploads exactly the dirty tables, lowest index
    first, and leaves no bit dirty; [fuel] rounds are enough once they
    cover the bits from [lo] up. *)
Lemma while_lut_dirty_spec (offset : Z) (fuel : nat) :
  forall (lo : Z) (acc : Z * RasterizerVulkan),
    let d := lighting_lut_dirty (pica (snd acc)) in
    let s' := snd (while_lut_dirty fuel offset acc) in
    0 <= lo -> bits_within lo d -> 32 - lo <= Z.of_nat fuel ->
    lighting_lut_dirty (pica s') = 0
    /\ fog_lut_dirty (pica s') = fog_lut_dirty (pica (snd acc))
    /\ sb_state (texture_lf_buffer s') = sb_state (texture_lf_buffer (snd acc))
    /\ exists l,
         sb_content (texture_lf_buffer s')
         = sb_content (texture_lf_buffer (snd acc)) ++ l
         /\ map snd l = map lighting_lut (dirty_bits_from lo d).
Proof.
  induction fuel as [| fuel IH]; intros lo acc d s' Hlo Hin Hfuel.
  - assert (Hd : d = 0) by (apply (bits_within_zero lo); [lia | exact Hin]).
    subst s'. cbn [while_lut_dirty]. fold d. rewrite Hd.
    repeat split; try reflexivity.
    exists []. rewrite app_nil_r, dirty_bits_from_zero. auto.
  - subst s'. cbn [while_lut_dirty]. fold d.
    destruct (Z.eq_dec d 0) as [Hd | Hd].
    + rewrite Hd. cbn [truthy Z.eqb negb].
      repeat split; try (fold d; assumption); try reflexivity.
      exists []. rewrite app_nil_r, dirty_bits_from_zero. auto.
    + unfold truthy. destruct (Z.eqb_spec d 0) as [E | _]; [contradiction |].
      cbn [negb].
      destruct (bits_within_step lo d Hin Hd) as (Hc & _ & _ & Hin').
      destruct acc as [bytes_used s]. cbn [snd] in *.
      destruct (sync_lighting_lut_step offset bytes_used s)
        as (Hdirty & Hfog & Hstate & Hcontent).
      fold d in Hdirty, Hcontent.
      specialize (IH (countr_zero d + 1) (sync_lighting_lut offset (bytes_used, s))).
      cbv zeta in IH. rewrite Hdirty in IH.
      destruct IH as (H0 & Hfog' & Hstate' & l & Hl & Hblocks); [lia | exact Hin' | lia |].
      split; [exact H0 |]. split; [congruence |]. split; [congruence |].
      exists ((offset + bytes_used, lighting_lut (countr_zero d)) :: l). split.
      * rewrite Hl, Hcontent, <- app_assoc. reflexivity.
      * rewrite (dirty_bits_from_step lo d) by assumption.
        cbn [map snd]. rewrite Hblocks. reflexivity.
Qed.

(** The loop of [SyncAndUploadLUTsLF] always runs to its end: from any
    32-bit dirty word, the 32 rounds the embedding allows leave no table
    dirty. *)
Lemma while_lut_dirty_done (offset : Z) (acc : Z * RasterizerVulkan) :
  0 <= lighting_lut_dirty (pica (snd acc)) < 2 ^ 32 ->
  lighting_lut_dirty (pica (snd (while_lut_dirty 32 offset acc))) = 0.
Proof.
  intros Hd.
  apply (while_lut_dirty_spec offset 32 0 acc); [lia | | lia].
  apply bits_within_u32. exact Hd.
Qed.

Lemma LutAllDirty_bits :
  0 <= NumLightingSampler <= 32 -> bits_within 0 LutAllDirty.
Proof.
  intros HN. apply bits_within_u32. unfold LutAllDirty.
  rewrite Z.ones_equiv.
  assert (0 < 2 ^ NumLightingSampler) by (apply Z.pow_pos_nonneg; lia).
  assert (2 ^ NumLightingSampler <= 2 ^ 32) by (apply Z.pow_le_mono_r; lia).
  lia.
Qed.

(** The lighting and fog tables after a wrap. *)
Lemma SyncAndUploadLUTsLF_wrap (s : RasterizerVulkan) :
  let mapped := sb_Map (sb_state (texture_lf_buffer s)) LUTsLF_max_size sizeof_Vec4f in
  let s' := snd (SyncAndUploadLUTsLF s) in
  0 <= NumLightingSampler <= 32 ->
  truthy (lighting_lut_dirty (pica s)) || fog_lut_dirty (pica s) = true ->
  snd (fst mapped) = true ->
  stored_blocks (texture_lf_buffer s) (texture_lf_buffer s')
  = map lighting_lut (seqZ 0 NumLightingSampler) ++ [fog_lut]
  /\ lighting_lut_dirty (pica s') = 0
  /\ fog_lut_dirty (pica s') = false.
Proof.
  intros mapped s' HN Hdirty Hwrap. subst s'. unfold SyncAndUploadLUTsLF.
  replace (negb (truthy (lighting_lut_dirty (pica s))) && negb (fog_lut_dirty (pica s)))
    with false
    by (rewrite <- negb_orb, Hdirty; reflexivity).
  fold mapped. destruct mapped as [[offset invalidate] st]. cbn in Hwrap. subst invalidate.
  match goal with
  | |- context [while_lut_dirty 32 offset (0, ?t)] => set (s1 := t)
  end.
  pose proof (while_lut_dirty_spec offset 32 0 (0, s1)) as Hloop.
  cbv zeta in Hloop. cbn [snd] in Hloop.
  change (lighting_lut_dirty (pica s1)) with LutAllDirty in Hloop.
  destruct Hloop as (H0 & Hfog & Hstate & l & Hl & Hblocks);
    [lia | apply LutAllDirty_bits; exact HN | lia |].
  unfold LutAllDirty in Hblocks. rewrite dirty_bits_ones in Hblocks by exact HN.
  destruct (while_lut_dirty 32 offset (0, s1)) as [bytes_used s2]. cbn [snd] in *.
  change (fog_lut_dirty (pica s1)) with true in Hfog. rewrite Hfog.
  cbn. split; [| split; [exact H0 | reflexivity]].
  rewrite (stored_blocks_app _ _ (l ++ [(offset + bytes_used, fog_lut)])).
  - rewrite map_app, Hblocks. reflexivity.
  - cbn. rewrite Hl. cbn. rewrite <- app_assoc. reflexivity.
Qed.

(** The procedural-texture tables after a wrap. *)
Lemma SyncAndUploadLUTs_wrap (s : RasterizerVulkan) :
  let mapped := sb_Map (sb_state (texture_buffer s)) LUTs_max_size sizeof_Vec4f in
  let s' := snd (SyncAndUploadLUTs s) in
  lut_dirty (proctex_dirty (pica s)) = true ->
  snd (fst mapped) = true ->
  stored_blocks (texture_buffer s) (texture_buffer s')
  = [proctex_noise_table; proctex_color_map_table; proctex_alpha_map_table;
     proctex_color_table; proctex_color_diff_table]
  /\ proctex_dirty (pica s') = TableNoneDirty.
Proof.
  intros mapped s' Hdirty Hwrap. subst s'. unfold SyncAndUploadLUTs.
  rewrite Hdirty. cbn [negb].
  fold mapped. destruct mapped as [[offset invalidate] st]. cbn in Hwrap. subst invalidate.
  cbn. split; [| reflexivity].
  match goal with
  | |- stored_blocks _ {| sb_state := _; sb_content := ?c |} = _ =>
      match c with
      | ((((_ ++ [?a]) ++ [?b]) ++ [?c1]) ++ [?d]) ++ [?e] =>
          apply (stored_blocks_app _ _ [a; b; c1; d; e])
      end
  end.
  cbn. rewrite <- !app_assoc. reflexivity.
Qed.

(** The three uniform blocks after a wrap. *)
Lemma UploadUniforms_wrap (accelerate_draw : bool) (s : RasterizerVulkan) :
  let mapped := sb_Map (sb_state (uniform_buffer s)) uniform_size uniform_buffer_alignment in
  let s' := snd (UploadUniforms accelerate_draw s) in
  (accelerate_draw && vs_setup_uniforms_dirty (pica s))
  || vs_data_dirty s || fs_data_dirty s = true ->
  snd (fst mapped) = true ->
  stored_blocks (uniform_buffer s) (uniform_buffer s')
  = [VSUniformData_block; FSUniformData_block (fs_data s); VSPicaUniformData_block]
  /\ vs_data_dirty s' = false
  /\ fs_data_dirty s' = false
  /\ vs_setup_uniforms_dirty (pica s') = false.
Proof.
  intros mapped s' Hdirty Hwrap. subst s'. unfold UploadUniforms.
  replace (negb (accelerate_draw && vs_setup_uniforms_dirty (pica s))
           && negb (vs_data_dirty s) && negb (fs_data_dirty s))
    with false
    by (rewrite <- !negb_orb, Hdirty; reflexivity).
  fold mapped. destruct mapped as [[offset invalidate] st]. cbn in Hwrap. subst invalidate.
  unfold upload_block. cbn. rewrite !orb_true_r. cbn.
  split; [| auto].
  match goal with
  | |- stored_blocks _ {| sb_state := _; sb_content := ?c |} = _ =>
      match c with
      | ((_ ++ [?a]) ++ [?b]) ++ [?c1] =>
          apply (stored_blocks_app _ _ [a; b; c1])
      end
  end.
  cbn. rewrite <- !app_assoc. reflexivity.
Qed.

(** An upload maps its buffer only past its early return: with nothing
    dirty for it, the rasterizer is left as it was. *)
Lemma uploads_gated (accelerate_draw : bool) (s : RasterizerVulkan) :
  ((accelerate_draw && vs_setup_uniforms_dirty (pica s))
   || vs_data_dirty s || fs_data_dirty s = false ->
   UploadUniforms accelerate_draw s = (tt, s))
  /\ (truthy (lighting_lut_dirty (pica s)) || fog_lut_dirty (pica s) = false ->
      SyncAndUploadLUTsLF s = (tt, s))
  /\ (lut_dirty (proctex_dirty (pica s)) = false -> SyncAndUploadLUTs s = (tt, s)).
Proof.
  split; [| split].
  - intros H. unfold UploadUniforms.
    apply orb_false_iff in H as [H Hfs]. apply orb_false_iff in H as [Hpica Hvs].
    rewrite Hpica, Hvs, Hfs. reflexivity.
  - intros H. unfold SyncAndUploadLUTsLF.
    apply orb_false_iff in H as [Hl Hf]. rewrite Hl, Hf. reflexivity.
  - intros H. unfold SyncAndUploadLUTs. rewrite H. reflexivity.
Qed.

(** C2: whenever an upload maps its ring buffer and [Map] reports a wrap,
    everything that buffer backs is uploaded again, whatever was dirty
    before: [UploadUniforms] stores the three uniform blocks,
    [SyncAndUploadLUTsLF] stores every lighting table and the fog table,
    and [SyncAndUploadLUTs] stores all five procedural-texture tables. *)
Theorem C2_wrap_forces_full_upload (accelerate_draw : bool) (s : RasterizerVulkan) :
  (let mapped :=
     sb_Map (sb_state (uniform_buffer s)) uniform_size uniform_buffer_alignment in
   let s' := snd (UploadUniforms accelerate_draw s) in
   (accelerate_draw && vs_setup_uniforms_dirty (pica s))
   || vs_data_dirty s || fs_data_dirty s = true ->
   snd (fst mapped) = true ->
   stored_blocks (uniform_buffer s) (uniform_buffer s')
   = [VSUniformData_block; FSUniformData_block (fs_data s); VSPicaUniformData_block]
   /\ vs_data_dirty s' = false
   /\ fs_data_dirty s' = false
   /\ vs_setup_uniforms_dirty (pica s') = false)
  /\ (let mapped :=
        sb_Map (sb_state (texture_lf_buffer s)) LUTsLF_max_size sizeof_Vec4f in
      let s' := snd (SyncAndUploadLUTsLF s) in
      0 <= NumLightingSampler <= 32 ->
      truthy (lighting_lut_dirty (pica s)) || fog_lut_dirty (pica s) = true ->
      snd (fst mapped) = true ->
      stored_blocks (texture_lf_buffer s) (texture_lf_buffer s')
      = map lighting_lut (seqZ 0 NumLightingSampler) ++ [fog_lut]
      /\ lighting_lut_dirty (pica s') = 0
      /\ fog_lut_dirty (pica s') = false)
  /\ (let mapped :=
        sb_Map (sb_state (texture_buffer s)) LUTs_max_size sizeof_Vec4f in
      let s' := snd (SyncAndUploadLUTs s) in
      lut_dirty (proctex_dirty (pica s)) = true ->
      snd (fst mapped) = true ->
      stored_blocks (texture_buffer s) (texture_buffer s')
      = [proctex_noise_table; proctex_color_map_table; proctex_alpha_map_table;
         proctex_color_table; proctex_color_diff_table]
      /\ proctex_dirty (pica s') = TableNoneDirty).
Proof.
  split; [apply UploadUniforms_wrap |].
  split; [apply SyncAndUploadLUTsLF_wrap | apply SyncAndUploadLUTs_wrap].
Qed.

(** ** The vertex assembler: one attribute per shader input location *)

(** A loader the loop skips. *)
Definition loader_skipped (loader : PipelineRegs.AttributeLoader) : bool :=
  (PipelineRegs.component_count loader =? 0) || (PipelineRegs.byte_count loader =? 0).

(** Component [comp] of [loader] is a real attribute with elements whose
    shader input register is [loc]. *)
Definition component_provides (loader : PipelineRegs.AttributeLoader)
    (loc comp : Z) : bool :=
  let attribute_index := PipelineRegs.GetComponent loader comp in
  negb (12 <=? attribute_index)
  && negb (PipelineRegs.GetNumElements vertex_attributes_regs attribute_index =? 0)
  && (vs_GetRegisterForAttribute regs attribute_index =? loc).

Definition loader_provides (loader : PipelineRegs.AttributeLoader) (loc : Z) : bool :=
  existsb (component_provides loader loc)
    (seqZ 0 (Z.min (PipelineRegs.component_count loader) 12)).

(** Location [loc] is resolved by some loader that is not skipped. *)
Definition resolved_by_loader (loc : Z) : bool :=
  existsb (fun loader => negb (loader_skipped loader) && loader_provides loader loc)
    (PipelineRegs.attribute_loaders vertex_attributes_regs).

(** Some guest attribute marked default feeds location [loc]. *)
Definition marked_default_below (m : Z) (loc : Z) : bool :=
  existsb
    (fun i => PipelineRegs.IsDefaultAttribute vertex_attributes_regs i
              && (vs_GetRegisterForAttribute regs i =? loc))
    (seqZ 0 m).

Definition marked_default (loc : Z) : bool := marked_default_below 16 loc.

(** The binding index a loader gets: the number of loaders before it
    that are not skipped. *)
Definition active_count (loaders : list PipelineRegs.AttributeLoader) : Z :=
  Z.of_nat (length (List.filter (fun loader => negb (loader_skipped loader)) loaders)).

(** Shader input registers are four bits wide. *)
Definition registers_in_range : Prop :=
  forall i, 0 <= vs_GetRegisterForAttribute regs i < 16.

Lemma lookup_insert_Z {A} (l : list A) (i j : Z) (a : A) :
  0 <= i -> 0 <= j ->
  (<[Z.to_nat i := a]> l) !! Z.to_nat j
  = if (i =? j) && (Z.to_nat i <? length l)%nat then Some a else l !! Z.to_nat j.
Proof.
  intros Hi Hj. destruct (Z.eqb_spec i j) as [-> | Hne]; cbn [andb].
  - destruct (Nat.ltb_spec (Z.to_nat j) (length l)).
    + apply list_lookup_insert_eq. assumption.
    + rewrite list_insert_ge by lia. reflexivity.
  - apply list_lookup_insert_ne. lia.
Qed.

(** One component of a loader. *)
Lemma loader_component_step (loader : PipelineRegs.AttributeLoader)
    (o : Z) (layout : VertexLayout) (enable : list bool) (comp : Z) :
  registers_in_range ->
  length (attributes layout) = 16%nat -> length enable = 16%nat ->
  exists o1 layout1 enable1,
    loader_component loader (o, layout, enable) comp = (o1, layout1, enable1)
    /\ binding_count layout1 = binding_count layout
    /\ attribute_count layout1 = attribute_count layout
    /\ bindings layout1 = bindings layout
    /\ length (attributes layout1) = 16%nat
    /\ length enable1 = 16%nat
    /\ forall loc, 0 <= loc < 16 ->
         if component_provides loader loc comp then
           enable1 !! Z.to_nat loc = Some true
           /\ exists a, attributes layout1 !! Z.to_nat loc = Some a
                        /\ va_location a = loc
                        /\ va_binding a = binding_count layout
         else
           enable1 !! Z.to_nat loc = enable !! Z.to_nat loc
           /\ attributes layout1 !! Z.to_nat loc = attributes layout !! Z.to_nat loc.
Proof.
  intros Hreg Hla Hle. unfold loader_component, component_provides.
  set (ai := PipelineRegs.GetComponent loader comp).
  destruct (12 <=? ai).
  { do 3 eexists. split; [reflexivity |]. repeat split; auto. }
  destruct (PipelineRegs.GetNumElements vertex_attributes_regs ai =? 0).
  { do 3 eexists. split; [reflexivity |]. repeat split; auto. }
  do 3 eexists. split; [reflexivity |]. cbn [negb andb].
  cbn [binding_count attribute_count bindings attributes set_attribute].
  rewrite !length_insert.
  do 5 (split; [first [reflexivity | assumption] |]).
  intros loc Hloc. pose proof (Hreg ai) as Hr.
  rewrite !lookup_insert_Z by lia. rewrite Hla, Hle.
  destruct (Z.eqb_spec (vs_GetRegisterForAttribute regs ai) loc) as [E | E];
    cbn [andb]; [| split; reflexivity].
  replace (Z.to_nat (vs_GetRegisterForAttribute regs ai) <? 16)%nat with true
    by (symmetry; apply Nat.ltb_lt; lia).
  split; [reflexivity |]. eexists. split; [reflexivity |]. cbn. auto.
Qed.

(** All components of a loader. *)
Lemma loader_components_fold (loader : PipelineRegs.AttributeLoader) (comps : list Z) :
  registers_in_range ->
  forall (o : Z) (layout : VertexLayout) (enable : list bool),
    length (attributes layout) = 16%nat -> length enable = 16%nat ->
    exists o1 layout1 enable1,
      fold_left (loader_component loader) comps (o, layout, enable)
      = (o1, layout1, enable1)
      /\ binding_count layout1 = binding_count layout
      /\ attribute_count layout1 = attribute_count layout
      /\ bindings layout1 = bindings layout
      /\ length (attributes layout1) = 16%nat
      /\ length enable1 = 16%nat
      /\ forall loc, 0 <= loc < 16 ->
           if existsb (component_provides loader loc) comps then
             enable1 !! Z.to_nat loc = Some true
             /\ exists a, attributes layout1 !! Z.to_nat loc = Some a
                          /\ va_location a = loc
                          /\ va_binding a = binding_count layout
           else
             enable1 !! Z.to_nat loc = enable !! Z.to_nat loc
             /\ attributes layout1 !! Z.to_nat loc = attributes layout !! Z.to_nat loc.
Proof.
  intros Hreg. induction comps as [| comp comps IH]; intros o layout enable Hla Hle.
  - do 3 eexists. split; [reflexivity |]. repeat split; auto.
  - cbn [fold_left existsb].
    destruct (loader_component_step loader o layout enable comp Hreg Hla Hle)
      as (o1 & layout1 & enable1 & -> & Hbc1 & Hac1 & Hb1 & Hla1 & Hle1 & Hstep).
    destruct (IH o1 layout1 enable1 Hla1 Hle1)
      as (o2 & layout2 & enable2 & -> & Hbc2 & Hac2 & Hb2 & Hla2 & Hle2 & Hrest).
    do 3 eexists. split; [reflexivity |].
    repeat split; try congruence.
    intros loc Hloc. specialize (Hstep loc Hloc). specialize (Hrest loc Hloc).
    destruct (existsb (component_provides loader loc) comps).
    + rewrite orb_true_r. destruct Hrest as (He & a & Ha & Hl & Hb).
      split; [exact He |]. exists a. repeat split; congruence.
    + rewrite orb_false_r. destruct Hrest as (He & Ha).
      destruct (component_provides loader loc comp).
      * destruct Hstep as (He1 & a & Ha1 & Hl & Hb).
        split; [congruence |]. exists a. repeat split; congruence.
      * destruct Hstep as (He1 & Ha1). split; congruence.
Qed.

Lemma active_count_app (l1 l2 : list PipelineRegs.AttributeLoader) :
  active_count (l1 ++ l2) = active_count l1 + active_count l2.
Proof. unfold active_count. rewrite List.filter_app, length_app. lia. Qed.

Lemma active_count_nonneg (l : list PipelineRegs.AttributeLoader) :
  0 <= active_count l <= Z.of_nat (length l).
Proof.
  unfold active_count. split; [lia |].
  apply inj_le. induction l as [| a l IH]; cbn; [lia |].
  destruct (negb (loader_skipped a)); cbn; lia.
Qed.

Lemma active_count_single (loader : PipelineRegs.AttributeLoader) :
  active_count [loader] = if loader_skipped loader then 0 else 1.
Proof. unfold active_count. cbn. destruct (loader_skipped loader); reflexivity. Qed.

(** An active loader's index lies below the count of the whole list. *)
Lemma active_count_take_lt (l : list PipelineRegs.AttributeLoader) (k : nat)
    (loader : PipelineRegs.AttributeLoader) :
  l !! k = Some loader -> loader_skipped loader = false ->
  0 <= active_count (take k l) < active_count l.
Proof.
  intros Hk Hact.
  assert (Hsplit : active_count l
                   = active_count (take k l) + (1 + active_count (drop (S k) l))).
  { rewrite <- (take_drop_middle l k loader Hk) at 1.
    change (loader :: drop (S k) l) with ([loader] ++ drop (S k) l).
    rewrite !active_count_app, active_count_single, Hact. reflexivity. }
  pose proof (active_count_nonneg (take k l)).
  pose proof (active_count_nonneg (drop (S k) l)). lia.
Qed.

(** What a round on an active loader leaves, given what its components
    did. *)
Lemma setup_loader_active (array_offset buffer_offset : Z) (s : RasterizerVulkan)
    (loader : PipelineRegs.AttributeLoader) (o1 : Z) (layout1 : VertexLayout)
    (enable1 : list bool) :
  loader_skipped loader = false ->
  loader_components loader (vertex_layout (pipeline_info s)) (enable_attributes s)
  = (o1, layout1, enable1) ->
  let s' := snd (setup_loader array_offset (buffer_offset, s) loader) in
  let n := binding_count layout1 in
  vertex_layout (pipeline_info s')
  = set_binding_count (n + 1)
      (set_binding n
         {| vb_binding := n; vb_fixed := 0;
            vb_stride := loader_aligned_stride loader |} layout1)
  /\ enable_attributes s' = enable1
  /\ binding_offsets s'
     = <[Z.to_nat n := u32 (array_offset + buffer_offset)]> (binding_offsets s)
  /\ pica s' = pica s.
Proof.
  intros Hact Hcomps. unfold setup_loader.
  unfold loader_skipped in Hact. rewrite Hact, Hcomps.
  destruct (GetSize _ <? _); repeat split.
Qed.

Lemma setup_loader_skipped (array_offset : Z) (acc : Z * RasterizerVulkan)
    (loader : PipelineRegs.AttributeLoader) :
  loader_skipped loader = true -> setup_loader array_offset acc loader = acc.
Proof.
  intros Hskip. unfold setup_loader. destruct acc as [buffer_offset s].
  unfold loader_skipped in Hskip. rewrite Hskip. reflexivity.
Qed.

(** The state of the loader loop after the loaders [done]. *)
Definition loaders_done (done : list PipelineRegs.AttributeLoader)
    (s0 s1 : RasterizerVulkan) : Prop :=
  let layout := vertex_layout (pipeline_info s1) in
  binding_count layout = active_count done
  /\ attribute_count layout = attribute_count (vertex_layout (pipeline_info s0))
  /\ length (attributes layout) = 16%nat
  /\ length (bindings layout) = 16%nat
  /\ length (enable_attributes s1) = 16%nat
  /\ length (binding_offsets s1) = 16%nat
  /\ pica s1 = pica s0
  /\ (forall loc, 0 <= loc < 16 ->
        if existsb (fun l => negb (loader_skipped l) && loader_provides l loc) done
        then enable_attributes s1 !! Z.to_nat loc = Some true
             /\ exists a k loader,
                  attributes layout !! Z.to_nat loc = Some a
                  /\ va_location a = loc
                  /\ done !! k = Some loader
                  /\ loader_skipped loader = false
                  /\ loader_provides loader loc = true
                  /\ va_binding a = active_count (take k done)
        else enable_attributes s1 !! Z.to_nat loc
             = enable_attributes s0 !! Z.to_nat loc)
  /\ (forall k loader,
        done !! k = Some loader -> loader_skipped loader = false ->
        bindings layout !! Z.to_nat (active_count (take k done))
        = Some {| vb_binding := active_count (take k done); vb_fixed := 0;
                  vb_stride := loader_aligned_stride loader |}).

Lemma loaders_done_nil (s0 : RasterizerVulkan) :
  binding_count (vertex_layout (pipeline_info s0)) = 0 ->
  length (attributes (vertex_layout (pipeline_info s0))) = 16%nat ->
  length (bindings (vertex_layout (pipeline_info s0))) = 16%nat ->
  length (enable_attributes s0) = 16%nat ->
  length (binding_offsets s0) = 16%nat ->
  loaders_done [] s0 s0.
Proof.
  intros Hbc Hla Hlb Hle Hlo. unfold loaders_done. cbn [existsb].
  repeat split; auto. intros k loader Hk. rewrite lookup_nil in Hk. discriminate.
Qed.

Lemma loaders_done_snoc (array_offset : Z) (done : list PipelineRegs.AttributeLoader)
    (loader : PipelineRegs.AttributeLoader) (s0 : RasterizerVulkan)
    (acc : Z * RasterizerVulkan) :
  registers_in_range ->
  (length (done ++ [loader]) <= 16)%nat ->
  loaders_done done s0 (snd acc) ->
  loaders_done (done ++ [loader]) s0 (snd (setup_loader array_offset acc loader)).
Proof.
  intros Hreg Hlen (Hbc & Hac & Hla & Hlb & Hle & Hlo & Hpica & Hattr & Hbind).
  rewrite length_app in Hlen. cbn in Hlen.
  assert (Hlift : forall k x, done !! k = Some x ->
            (done ++ [loader]) !! k = Some x
            /\ take k (done ++ [loader]) = take k done).
  { intros k x Hk. split.
    - apply lookup_app_l_Some. exact Hk.
    - apply take_app_le. apply lookup_lt_Some in Hk. lia. }
  destruct (loader_skipped loader) eqn:Hskip.
  - (* the loader is skipped *)
    rewrite setup_loader_skipped by exact Hskip.
    unfold loaders_done. rewrite active_count_app, active_count_single, Hskip.
    rewrite Z.add_0_r.
    do 7 (split; [assumption |]). split.
    + intros loc Hloc. specialize (Hattr loc Hloc).
      rewrite existsb_app. cbn [existsb]. rewrite Hskip. cbn [negb andb orb].
      rewrite orb_false_r.
      destruct (existsb _ done); [| exact Hattr].
      destruct Hattr as (He & a & k & x & Ha & Hl & Hk & Hx & Hp & Hb).
      split; [exact He |]. exists a, k, x.
      destruct (Hlift k x Hk) as (Hk' & Ht). rewrite Ht. auto 10.
    + intros k x Hk Hx. apply lookup_app_Some in Hk as [Hk | [_ Hk]].
      * destruct (Hlift k x Hk) as (_ & Ht). rewrite Ht. apply Hbind; assumption.
      * destruct (k - length done)%nat; cbn in Hk; [| discriminate].
        injection Hk as <-. congruence.
  - (* the loader is active *)
    destruct acc as [buffer_offset s]. cbn [snd] in *.
    destruct (loader_components_fold loader
                (seqZ 0 (Z.min (PipelineRegs.component_count loader) 12)) Hreg 0
                (vertex_layout (pipeline_info s)) (enable_attributes s) Hla Hle)
      as (o1 & layout1 & enable1 & Hcomps & Hbc1 & Hac1 & Hb1 & Hla1 & Hle1 & Hstep).
    destruct (setup_loader_active array_offset buffer_offset s loader o1 layout1
                enable1 Hskip Hcomps) as (Hlayout & Henable & Hoffsets & Hpica').
    pose proof (active_count_nonneg done) as Hcount.
    unfold loaders_done. rewrite Hlayout, Henable, Hoffsets, Hpica'.
    cbn [binding_count attribute_count bindings attributes set_binding_count set_binding].
    rewrite active_count_app, active_count_single, Hskip, !length_insert.
    split; [lia |]. split; [congruence |]. split; [assumption |].
    split; [congruence |]. do 3 (split; [assumption |]). split.
    + intros loc Hloc. specialize (Hattr loc Hloc). specialize (Hstep loc Hloc).
      rewrite existsb_app. cbn [existsb]. rewrite Hskip. cbn [negb andb].
      rewrite orb_false_r. fold (loader_provides loader loc) in Hstep.
      destruct (loader_provides loader loc) eqn:Hprov.
      * rewrite orb_true_r. destruct Hstep as (He & a & Ha & Hl & Hb).
        split; [exact He |]. exists a, (length done), loader.
        rewrite take_app_length.
        repeat split; try assumption; try congruence.
        rewrite lookup_app_r by lia. rewrite Nat.sub_diag. reflexivity.
      * rewrite orb_false_r. destruct Hstep as (He & Ha).
        destruct (existsb _ done).
        -- destruct Hattr as (He0 & a & k & x & Ha0 & Hl & Hk & Hx & Hp & Hb).
           split; [congruence |]. exists a, k, x.
           destruct (Hlift k x Hk) as (Hk' & Ht). rewrite Ht.
           repeat split; try assumption; congruence.
        -- congruence.
    + intros k x Hk Hx. apply lookup_app_Some in Hk as [Hk | [Hge Hk]].
      * destruct (Hlift k x Hk) as (_ & Ht). rewrite Ht.
        pose proof (active_count_take_lt done k x Hk Hx) as Hlt.
        rewrite list_lookup_insert_ne by lia.
        rewrite Hb1. apply Hbind; assumption.
      * destruct (k - length done)%nat eqn:Ek; cbn in Hk; [| discriminate].
        injection Hk as <-.
        replace k with (length done) by lia. rewrite take_app_length.
        rewrite Hbc1, Hbc. apply list_lookup_insert_eq. rewrite Hb1, Hlb. lia.
Qed.

Lemma loaders_loop (array_offset buffer_offset : Z) (s0 : RasterizerVulkan)
    (loaders : list PipelineRegs.AttributeLoader) :
  registers_in_range ->
  (length loaders <= 16)%nat ->
  loaders_done [] s0 s0 ->
  loaders_done loaders s0
    (snd (fold_left (setup_loader array_offset) loaders (buffer_offset, s0))).
Proof.
  intros Hreg. induction loaders as [| loader done IH] using rev_ind; intros Hlen H0.
  - exact H0.
  - rewrite fold_left_app. cbn [fold_left].
    apply loaders_done_snoc; [exact Hreg | exact Hlen |].
    apply IH; [| exact H0]. rewrite length_app in Hlen. cbn in Hlen. lia.
Qed.

(** [enable_attributes[loc]] *)
Definition enabled_at (enable : list bool) (loc : Z) : bool :=
  default false (enable !! Z.to_nat loc).

Lemma enabled_at_insert (enable : list bool) (r loc : Z) :
  0 <= r < 16 -> 0 <= loc -> length enable = 16%nat ->
  enabled_at (<[Z.to_nat r := true]> enable) loc
  = (r =? loc) || enabled_at enable loc.
Proof.
  intros Hr Hloc Hlen. unfold enabled_at. rewrite lookup_insert_Z by lia.
  rewrite Hlen. replace (Z.to_nat r <? 16)%nat with true
    by (symmetry; apply Nat.ltb_lt; lia).
  rewrite andb_true_r. destruct (r =? loc); reflexivity.
Qed.

Lemma marked_default_below_succ (m loc : Z) :
  0 <= m ->
  marked_default_below (m + 1) loc
  = marked_default_below m loc
    || (PipelineRegs.IsDefaultAttribute vertex_attributes_regs m
        && (vs_GetRegisterForAttribute regs m =? loc)).
Proof.
  intros Hm. unfold marked_default_below.
  rewrite seqZ_app by lia. rewrite existsb_app.
  rewrite (seqZ_cons (0 + m) 1), (seqZ_nil (Z.succ (0 + m))) by lia.
  cbn [existsb]. rewrite orb_false_r, Z.add_0_l. reflexivity.
Qed.

(** The attribute the first loop of [SetupFixedAttribs] writes for a
    default value stored at [o]. *)
Definition fixed_attribute (binding loc o : Z) : VertexAttribute :=
  {| va_binding := binding; va_location := loc; va_type := PipelineRegs.FLOAT;
     va_size := 4; va_offset := o |}.

(** The state of the first loop of [SetupFixedAttribs] after the guest
    attributes below [m], started from the layout and enable flags the
    loaders left. *)
Definition fixed_done (pica_core : PicaCore) (fixed_ptr : Z)
    (layoutA : VertexLayout) (enableA : list bool) (m : Z)
    (offset : Z) (data : Bytes) (layout : VertexLayout) (enable : list bool) : Prop :=
  binding_count layout = binding_count layoutA
  /\ attribute_count layout = attribute_count layoutA
  /\ bindings layout = bindings layoutA
  /\ length (attributes layout) = 16%nat
  /\ length enable = 16%nat
  /\ 16 <= offset <= 16 + 16 * m
  /\ (forall j, 0 <= j < 16 -> data (fixed_ptr + j) = AsArray default_attrib j)
  /\ forall loc, 0 <= loc < 16 ->
       if enabled_at enableA loc then
         enabled_at enable loc = true
         /\ attributes layout !! Z.to_nat loc = attributes layoutA !! Z.to_nat loc
       else if marked_default_below m loc then
         enabled_at enable loc = true
         /\ exists i o,
              0 <= i < m
              /\ PipelineRegs.IsDefaultAttribute vertex_attributes_regs i = true
              /\ vs_GetRegisterForAttribute regs i = loc
              /\ attributes layout !! Z.to_nat loc
                 = Some (fixed_attribute (binding_count layoutA) loc o)
              /\ 16 <= o /\ o + 16 <= offset
              /\ forall j, 0 <= j < 16 ->
                   data (fixed_ptr + o + j)
                   = AsArray (input_default_attributes pica_core i) j
       else
         enabled_at enable loc = false
         /\ attributes layout !! Z.to_nat loc = attributes layoutA !! Z.to_nat loc.

Lemma fixed_done_step (pica_core : PicaCore) (fixed_ptr : Z)
    (layoutA : VertexLayout) (enableA : list bool) (m : Z)
    (offset : Z) (data : Bytes) (layout : VertexLayout) (enable : list bool) :
  registers_in_range -> 0 <= m < 16 ->
  fixed_done pica_core fixed_ptr layoutA enableA m offset data layout enable ->
  exists offset' data' layout' enable',
    fixed_attrib pica_core fixed_ptr (offset, data, layout, enable) m
    = (offset', data', layout', enable')
    /\ fixed_done pica_core fixed_ptr layoutA enableA (m + 1)
         offset' data' layout' enable'.
Proof.
  intros Hreg Hm (Hbc & Hac & Hb & Hla & Hle & Ho & Hdef & Hloc).
  unfold fixed_attrib.
  set (reg := vs_GetRegisterForAttribute regs m).
  pose proof (Hreg m) as Hr. fold reg in Hr.
  destruct (PipelineRegs.IsDefaultAttribute vertex_attributes_regs m) eqn:Hdefault.
  2: { (* the attribute is not marked default *)
    do 4 eexists. split; [reflexivity |].
    unfold fixed_done. do 5 (split; [assumption |]). split; [lia |].
    split; [assumption |].
    intros loc Hl. specialize (Hloc loc Hl).
    rewrite marked_default_below_succ, Hdefault by lia. cbn [andb].
    rewrite orb_false_r.
    destruct (enabled_at enableA loc); [exact Hloc |].
    destruct (marked_default_below m loc); [| exact Hloc].
    destruct Hloc as (He & i & o & Hi & Hrest). split; [exact He |].
    exists i, o. split; [lia | exact Hrest]. }
  fold (enabled_at enable reg).
  destruct (enabled_at enable reg) eqn:Hen; cbn [negb].
  - (* its register already has an attribute *)
    do 4 eexists. split; [reflexivity |].
    unfold fixed_done. do 5 (split; [assumption |]). split; [lia |].
    split; [assumption |].
    intros loc Hl. pose proof (Hloc loc Hl) as Hthis.
    rewrite marked_default_below_succ, Hdefault by lia. cbn [andb].
    fold reg.
    destruct (enabled_at enableA loc); [exact Hthis |].
    destruct (marked_default_below m loc) eqn:Hmarked.
    + cbn [orb]. destruct Hthis as (He & i & o & Hi & Hrest). split; [exact He |].
      exists i, o. split; [lia | exact Hrest].
    + cbn [orb]. destruct (Z.eqb_spec reg loc) as [E | E]; [| exact Hthis].
      subst loc. destruct Hthis as (He & _). congruence.
  - (* the default value is stored and its register points at it *)
    do 4 eexists. split; [reflexivity |].
    assert (Hu : u32 (offset + sizeof_float * 4) = offset + 16).
    { unfold sizeof_float. rewrite u32_small; lia. }
    rewrite Hu. unfold fixed_done.
    cbn [binding_count attribute_count bindings attributes set_attribute].
    rewrite !length_insert.
    do 5 (split; [assumption |]). split; [lia |]. split.
    { intros j Hj. rewrite memcpy_outside by (unfold sizeof_float; lia).
      apply Hdef. exact Hj. }
    intros loc Hl. pose proof (Hloc loc Hl) as Hthis.
    rewrite marked_default_below_succ, Hdefault by lia. cbn [andb]. fold reg.
    rewrite enabled_at_insert by (try assumption; lia).
    rewrite lookup_insert_Z by lia. rewrite Hla.
    replace (Z.to_nat reg <? 16)%nat with true by (symmetry; apply Nat.ltb_lt; lia).
    rewrite andb_true_r.
    destruct (Z.eqb_spec reg loc) as [E | E].
    + subst loc. cbn [orb]. rewrite orb_true_r.
      destruct (enabled_at enableA reg).
      { destruct Hthis as (He & _). congruence. }
      split; [reflexivity |]. exists m, offset.
      split; [lia |]. split; [exact Hdefault |]. split; [reflexivity |].
      split; [rewrite Hbc; reflexivity |]. split; [lia |]. split; [lia |].
      intros j Hj. rewrite memcpy_inside by (unfold sizeof_float; lia).
      f_equal. lia.
    + cbn [orb]. rewrite orb_false_r.
      destruct (enabled_at enableA loc); [exact Hthis |].
      destruct (marked_default_below m loc); [| exact Hthis].
      destruct Hthis as (He & i & o & Hi & Hdf & Hri & Ha & Ho1 & Ho2 & Hbytes).
      split; [exact He |]. exists i, o.
      split; [lia |]. do 3 (split; [assumption |]). split; [lia |]. split; [lia |].
      intros j Hj. rewrite memcpy_outside by (unfold sizeof_float; lia).
      apply Hbytes. exact Hj.
Qed.

Lemma fixed_loop (pica_core : PicaCore) (fixed_ptr : Z)
    (layoutA : VertexLayout) (enableA : list bool) (n : nat)
    (offset : Z) (data : Bytes) :
  registers_in_range -> (n <= 16)%nat ->
  fixed_done pica_core fixed_ptr layoutA enableA 0 offset data layoutA enableA ->
  exists offset' data' layout' enable',
    fold_left (fixed_attrib pica_core fixed_ptr) (seqZ 0 (Z.of_nat n))
      (offset, data, layoutA, enableA)
    = (offset', data', layout', enable')
    /\ fixed_done pica_core fixed_ptr layoutA enableA (Z.of_nat n)
         offset' data' layout' enable'.
Proof.
  intros Hreg Hn H0. induction n as [| n IH].
  - do 4 eexists. split; [reflexivity | exact H0].
  - destruct IH as (o1 & d1 & l1 & e1 & Hrun & Hdone); [lia |].
    rewrite seqZ_S, fold_left_app, Hrun. cbn [fold_left]. rewrite Z.add_0_l.
    destruct (fixed_done_step pica_core fixed_ptr layoutA enableA (Z.of_nat n)
                o1 d1 l1 e1 Hreg ltac:(lia) Hdone)
      as (o2 & d2 & l2 & e2 & Hstep & Hdone').
    do 4 eexists. split; [exact Hstep |].
    replace (Z.of_nat (S n)) with (Z.of_nat n + 1) by lia. exact Hdone'.
Qed.

Lemma fixed_done_start (pica_core : PicaCore) (fixed_ptr : Z)
    (layoutA : VertexLayout) (enableA : list bool) (content : Bytes) :
  length (attributes layoutA) = 16%nat -> length enableA = 16%nat ->
  fixed_done pica_core fixed_ptr layoutA enableA 0 sizeof_Vec4f
    (memcpy content fixed_ptr (AsArray default_attrib) 0 sizeof_Vec4f)
    layoutA enableA.
Proof.
  intros Hla Hle. unfold fixed_done, sizeof_Vec4f.
  do 5 (split; [first [reflexivity | assumption] |]). split; [lia |]. split.
  - intros j Hj. rewrite memcpy_inside by lia. f_equal. lia.
  - intros loc Hloc. unfold marked_default_below. rewrite seqZ_nil by lia.
    cbn [existsb]. destruct (enabled_at enableA loc) eqn:E; auto.
Qed.

(** The second loop of [SetupFixedAttribs] after the locations below
    [n]. *)
Lemma unused_loop (enable : list bool) (layout : VertexLayout) (n : nat) :
  length (attributes layout) = 16%nat -> (n <= 16)%nat ->
  let layout' := fold_left (unused_attrib enable) (seqZ 0 (Z.of_nat n)) layout in
  binding_count layout' = binding_count layout
  /\ attribute_count layout' = attribute_count layout
  /\ bindings layout' = bindings layout
  /\ length (attributes layout') = 16%nat
  /\ forall loc, 0 <= loc < 16 ->
       attributes layout' !! Z.to_nat loc
       = if (loc <? Z.of_nat n) && negb (enabled_at enable loc)
         then Some (fixed_attribute (binding_count layout) loc 0)
         else attributes layout !! Z.to_nat loc.
Proof.
  intros Hla Hn. induction n as [| n IH]; cbv zeta.
  - change (Z.of_nat 0) with 0. rewrite seqZ_nil by lia. cbn [fold_left].
    repeat split; try assumption. intros loc Hloc.
    destruct (Z.ltb_spec loc 0); [lia | reflexivity].
  - destruct IH as (Hbc & Hac & Hb & Hla' & Hattr); [lia |].
    rewrite seqZ_S, fold_left_app. cbn [fold_left]. rewrite Z.add_0_l.
    set (prev := fold_left (unused_attrib enable) (seqZ 0 (Z.of_nat n)) layout) in *.
    assert (Hstep : unused_attrib enable prev (Z.of_nat n)
                    = if enabled_at enable (Z.of_nat n) then prev
                      else set_attribute (Z.of_nat n)
                             (fixed_attribute (binding_count prev) (Z.of_nat n) 0) prev).
    { unfold unused_attrib, enabled_at.
      destruct (default false (enable !! Z.to_nat (Z.of_nat n))); reflexivity. }
    rewrite Hstep.
    destruct (enabled_at enable (Z.of_nat n)) eqn:Hen.
    + do 4 (split; [assumption |]). intros loc Hloc. rewrite Hattr by exact Hloc.
      destruct (Z.ltb_spec loc (Z.of_nat n)); destruct (Z.ltb_spec loc (Z.of_nat (S n)));
        try lia; try reflexivity.
      assert (loc = Z.of_nat n) by lia. subst loc. rewrite Hen. reflexivity.
    + cbn [binding_count attribute_count bindings attributes set_attribute].
      rewrite length_insert. do 4 (split; [assumption |]).
      intros loc Hloc. rewrite lookup_insert_Z by lia. rewrite Hla'.
      replace (Z.to_nat (Z.of_nat n) <? 16)%nat with true
        by (symmetry; apply Nat.ltb_lt; lia).
      rewrite andb_true_r, Hattr by exact Hloc.
      destruct (Z.eqb_spec (Z.of_nat n) loc) as [E | E].
      * subst loc. rewrite Hen. cbn [negb].
        destruct (Z.ltb_spec (Z.of_nat n) (Z.of_nat (S n))); [| lia].
        cbn [andb]. rewrite Hbc. reflexivity.
      * destruct (Z.ltb_spec loc (Z.of_nat n)); destruct (Z.ltb_spec loc (Z.of_nat (S n)));
          try lia; reflexivity.
Qed.

(** What [SetupFixedAttribs] leaves, from a state with the arrays at
    their sizes. *)
Lemma SetupFixedAttribs_spec (s : RasterizerVulkan) :
  let layoutA := vertex_layout (pipeline_info s) in
  let enableA := enable_attributes s in
  let nb := binding_count layoutA in
  let fixed_ptr :=
    fst (fst (sb_Map (sb_state (stream_buffer s)) (16 * sizeof_Vec4f) 0)) in
  let s' := snd (SetupFixedAttribs s) in
  let layout' := vertex_layout (pipeline_info s') in
  registers_in_range ->
  length (attributes layoutA) = 16%nat -> length (bindings layoutA) = 16%nat ->
  length enableA = 16%nat -> length (binding_offsets s) = 16%nat ->
  0 <= nb < 16 ->
  binding_count layout' = nb + 1
  /\ attribute_count layout' = attribute_count layoutA
  /\ length (attributes layout') = 16%nat
  /\ binding_offsets s' !! Z.to_nat nb = Some (u32 fixed_ptr)
  /\ (exists stride,
        bindings layout' !! Z.to_nat nb
        = Some {| vb_binding := nb; vb_fixed := 1; vb_stride := stride |})
  /\ (forall k, 0 <= k -> k <> nb ->
        bindings layout' !! Z.to_nat k = bindings layoutA !! Z.to_nat k)
  /\ (forall j, 0 <= j < 16 ->
        sb_content (stream_buffer s') (fixed_ptr + j) = AsArray default_attrib j)
  /\ forall loc, 0 <= loc < 16 ->
       if enabled_at enableA loc then
         attributes layout' !! Z.to_nat loc = attributes layoutA !! Z.to_nat loc
       else if marked_default loc then
         exists i o,
           0 <= i < 16
           /\ PipelineRegs.IsDefaultAttribute vertex_attributes_regs i = true
           /\ vs_GetRegisterForAttribute regs i = loc
           /\ attributes layout' !! Z.to_nat loc = Some (fixed_attribute nb loc o)
           /\ forall j, 0 <= j < 16 ->
                sb_content (stream_buffer s') (fixed_ptr + o + j)
                = AsArray (input_default_attributes (pica s) i) j
       else
         attributes layout' !! Z.to_nat loc = Some (fixed_attribute nb loc 0).
Proof.
  intros layoutA enableA nb fixed_ptr s' layout' Hreg Hla Hlb Hle Hlo Hnb.
  subst layout' s' fixed_ptr. unfold SetupFixedAttribs.
  destruct (sb_Map (sb_state (stream_buffer s)) (16 * sizeof_Vec4f) 0)
    as [[fixed_offset invalidate] st].
  cbn [fst snd]. fold layoutA enableA.
  destruct (fixed_loop (pica s) fixed_offset layoutA enableA 16 sizeof_Vec4f
              (memcpy (sb_content (stream_buffer s)) fixed_offset
                 (AsArray default_attrib) 0 sizeof_Vec4f) Hreg ltac:(lia)
              (fixed_done_start (pica s) fixed_offset layoutA enableA _ Hla Hle))
    as (offset & data & layoutB & enableB & Hrun
        & (Hbc & Hac & Hb & HlaB & HleB & Ho & Hdef & Hloc)).
  change (Z.of_nat 16) with 16 in *.
  cbn [pica enable_attributes set_binding_offsets]. fold enableA.
  rewrite Hrun.
  destruct (unused_loop enableB layoutB 16 HlaB ltac:(lia))
    as (HbcC & HacC & HbC & HlaC & HattrC).
  change (Z.of_nat 16) with 16 in *.
  set (layoutC := fold_left (unused_attrib enableB) (seqZ 0 16) layoutB) in *.
  cbn. fold nb in Hbc.
  rewrite HbcC, Hbc, HacC, Hac, HbC, Hb.
  split; [reflexivity |]. split; [reflexivity |]. split; [exact HlaC |].
  split; [apply list_lookup_insert_eq; lia |].
  split; [eexists; apply list_lookup_insert_eq; lia |].
  split; [intros k Hk Hne; apply list_lookup_insert_ne; lia |].
  split; [exact Hdef |].
  intros loc Hl. specialize (Hloc loc Hl). rewrite (HattrC loc Hl).
  destruct (Z.ltb_spec loc 16); [| lia]. cbn [andb]. rewrite Hbc.
  destruct (enabled_at enableA loc).
  - destruct Hloc as (-> & Ha). exact Ha.
  - unfold marked_default. destruct (marked_default_below 16 loc).
    + destruct Hloc as (-> & i & o & Hi & Hd & Hr & Ha & _ & _ & Hbytes).
      cbn [negb]. exists i, o. auto.
    + destruct Hloc as (-> & _). reflexivity.
Qed.

(** The object representation of the constant (0.f, 0.f, 0.f, 1.f): three
    zero words and the IEEE-754 single 1.0, [0x3F800000], little-endian. *)
Lemma default_attrib_bytes (j : Z) :
  0 <= j < 16 ->
  AsArray default_attrib j
  = nth (Z.to_nat j) [0; 0; 0; 0; 0; 0; 0; 0; 0; 0; 0; 0; 0; 0; 0x80; 0x3F] 0.
Proof.
  intros Hj.
  assert (Hcases : j = 0 \/ j = 1 \/ j = 2 \/ j = 3 \/ j = 4 \/ j = 5 \/ j = 6
                   \/ j = 7 \/ j = 8 \/ j = 9 \/ j = 10 \/ j = 11 \/ j = 12
                   \/ j = 13 \/ j = 14 \/ j = 15) by lia.
  repeat (destruct Hcases as [-> | Hcases]; [reflexivity |]).
  subst j. reflexivity.
Qed.

(** C9: after [SetupVertexArray] (with its fixed/default pass) every shader
    input location below 16 has its one entry in the layout, the one at its
    own index: a location some loader resolves points at the binding of
    such a loader; an unresolved location fed by a guest attribute marked
    default points, in the shared fixed binding, at the 16 bytes of that
    attribute's four-float default value (component [j / 4], byte
    [j mod 4], little-endian); every other location points at offset 0 of
    the same fixed binding, where the constant (0, 0, 0, 1) is staged:
    twelve zero bytes and [00 00 80 3F], the single-precision 1.0. *)
Theorem C9_one_attribute_per_location (s : RasterizerVulkan) :
  let loaders := PipelineRegs.attribute_loaders vertex_attributes_regs in
  let s' := snd (SetupVertexArray s) in
  let layout' := vertex_layout (pipeline_info s') in
  let staged := sb_content (stream_buffer s') in
  let fixed := binding_count layout' - 1 in
  registers_in_range ->
  (length loaders <= 12)%nat ->
  length (attributes (vertex_layout (pipeline_info s))) = 16%nat ->
  length (bindings (vertex_layout (pipeline_info s))) = 16%nat ->
  length (binding_offsets s) = 16%nat ->
  attribute_count layout' = 16
  /\ length (attributes layout') = 16%nat
  /\ fixed = active_count loaders
  /\ exists fixed_ptr stride,
       binding_offsets s' !! Z.to_nat fixed = Some (u32 fixed_ptr)
       /\ bindings layout' !! Z.to_nat fixed
          = Some {| vb_binding := fixed; vb_fixed := 1; vb_stride := stride |}
       /\ forall loc, 0 <= loc < 16 ->
            exists a,
              attributes layout' !! Z.to_nat loc = Some a
              /\ va_location a = loc
              /\ if resolved_by_loader loc then
                   exists k loader,
                     loaders !! k = Some loader
                     /\ loader_skipped loader = false
                     /\ loader_provides loader loc = true
                     /\ va_binding a = active_count (take k loaders)
                     /\ bindings layout' !! Z.to_nat (va_binding a)
                        = Some {| vb_binding := va_binding a; vb_fixed := 0;
                                  vb_stride :=
                                    AlignUp (u32 (PipelineRegs.byte_count loader))
                                      (GetMinVertexStrideAlignment instance) |}
                 else if marked_default loc then
                   exists i,
                     0 <= i < 16
                     /\ PipelineRegs.IsDefaultAttribute vertex_attributes_regs i = true
                     /\ vs_GetRegisterForAttribute regs i = loc
                     /\ va_binding a = fixed
                     /\ va_type a = PipelineRegs.FLOAT
                     /\ va_size a = 4
                     /\ forall j, 0 <= j < 16 ->
                          let value := input_default_attributes (pica s) i in
                          let component :=
                            match j / 4 with
                            | 0 => x value
                            | 1 => y value
                            | 2 => z value
                            | _ => w value
                            end in
                          staged (fixed_ptr + va_offset a + j)
                          = (component / 2 ^ (8 * (j mod 4))) mod 256
                 else
                   va_binding a = fixed
                   /\ va_type a = PipelineRegs.FLOAT
                   /\ va_size a = 4
                   /\ va_offset a = 0
                   /\ forall j, 0 <= j < 16 ->
                        staged (fixed_ptr + j)
                        = nth (Z.to_nat j)
                            [0; 0; 0; 0; 0; 0; 0; 0; 0; 0; 0; 0; 0; 0; 0x80; 0x3F] 0.
Proof.
  intros loaders s' layout' staged fixed Hreg Hlen Hla Hlb Hlo.
  subst fixed staged layout' s'. unfold SetupVertexArray.
  destruct (sb_Map (sb_state (stream_buffer s)) (vs_input_size (vertex_info s)) 16)
    as [[array_offset invalidate] st].
  match goal with
  | |- context [fold_left (setup_loader array_offset) _ (0, ?init)] =>
      set (s0 := init)
  end.
  fold loaders.
  assert (H0 : loaders_done [] s0 s0).
  { apply loaders_done_nil; subst s0; cbn; auto using length_replicate. }
  pose proof (loaders_loop array_offset 0 s0 loaders Hreg ltac:(lia) H0) as HA.
  destruct (fold_left (setup_loader array_offset) loaders (0, s0))
    as [buffer_offset sA].
  cbn [snd] in HA.
  destruct HA as (Hbc & Hac & HlaA & HlbA & HleA & HloA & Hpica & Hattr & Hbind).
  pose proof (active_count_nonneg loaders) as Hcount.
  match goal with
  | |- context [SetupFixedAttribs ?t] => set (s1 := t)
  end.
  pose proof (SetupFixedAttribs_spec s1) as HB. cbv zeta in HB.
  change (vertex_layout (pipeline_info s1)) with (vertex_layout (pipeline_info sA)) in HB.
  change (enable_attributes s1) with (enable_attributes sA) in HB.
  change (binding_offsets s1) with (binding_offsets sA) in HB.
  change (pica s1) with (pica sA) in HB.
  rewrite Hbc in HB.
  destruct HB as (Hbc' & Hac' & Hla' & Hoff & (stride & Hfixed) & Hother & Hdefault & Hloc);
    try assumption; [lia |].
  set (fixed_ptr := fst (fst (sb_Map (sb_state (stream_buffer s1)) (16 * sizeof_Vec4f) 0)))
    in *.
  rewrite Hbc'. replace (active_count loaders + 1 - 1) with (active_count loaders) by lia.
  split; [rewrite Hac', Hac; reflexivity |]. split; [exact Hla' |].
  split; [reflexivity |].
  exists fixed_ptr, stride. split; [exact Hoff |]. split; [exact Hfixed |].
  intros loc Hl. specialize (Hattr loc Hl). specialize (Hloc loc Hl).
  fold (resolved_by_loader loc) in Hattr. fold loaders in Hattr.
  unfold resolved_by_loader. fold loaders.
  destruct (existsb _ loaders).
  - (* resolved by a loader *)
    destruct Hattr as (He & a & k & loader & Ha & Hlc & Hk & Hact & Hprov & Hb).
    unfold enabled_at in Hloc. rewrite He in Hloc. cbn in Hloc.
    exists a. split; [congruence |]. split; [exact Hlc |].
    exists k, loader. do 4 (split; [assumption |]).
    pose proof (active_count_take_lt loaders k loader Hk Hact) as Hlt.
    rewrite Hb, Hother by lia. apply Hbind; assumption.
  - (* not resolved: the fixed pass decides *)
    assert (He : enabled_at (enable_attributes sA) loc = false).
    { unfold enabled_at. rewrite Hattr.
      change (enable_attributes s0) with (replicate 16 false).
      rewrite lookup_replicate_2 by lia. reflexivity. }
    assert (Hp : pica sA = pica s) by (rewrite Hpica; reflexivity).
    rewrite He, Hp in Hloc.
    destruct (marked_default loc).
    + destruct Hloc as (i & o & Hi & Hd & Hr & Ha & Hbytes).
      eexists. split; [exact Ha |]. split; [reflexivity |].
      exists i. cbn [va_binding va_type va_size va_offset fixed_attribute].
      do 6 (split; [auto |]).
      intros j Hj. exact (Hbytes j Hj).
    + eexists. split; [exact Hloc |]. split; [reflexivity |].
      cbn [va_binding va_type va_size va_offset fixed_attribute].
      do 4 (split; [auto |]).
      intros j Hj. rewrite <- (default_attrib_bytes j Hj). apply Hdefault. exact Hj.
Qed.

(** * Further properties *)

(** ** The masks and the depth state of the descriptor *)

(** X1: the colour write mask [SyncDrawState] leaves in the descriptor is
    a four-bit value; it is 0 whenever the framebuffer registers disallow
    colour writes, whatever the blend state, the logic op and the device;
    and when it is not 0 it is bits 8 to 11 of [depth_color_mask]. *)
Theorem SyncDrawState_color_write_mask (s : RasterizerVulkan) :
  let fb := FramebufferRegs.framebuffer (framebuffer regs) in
  let om := FramebufferRegs.output_merger (framebuffer regs) in
  let mask := color_write_mask (blending (pipeline_info (snd (SyncDrawState s)))) in
  0 <= mask < 16
  /\ (FramebufferRegs.allow_color_write fb = 0 -> mask = 0)
  /\ (mask <> 0 -> mask = (FramebufferRegs.depth_color_mask om / 2 ^ 8) mod 2 ^ 4).
Proof.
  intros fb om mask. subst mask.
  rewrite SyncDrawState_pipeline_info. unfold SyncDrawState_info. cbn.
  fold fb om.
  assert (Hbits : Z.land (Z.shiftr (FramebufferRegs.depth_color_mask om) 8) 15
                  = (FramebufferRegs.depth_color_mask om / 2 ^ 8) mod 2 ^ 4).
  { change 15 with (Z.ones 4). rewrite Z.land_ones, Z.shiftr_div_pow2 by lia.
    reflexivity. }
  rewrite Hbits.
  pose proof (Z.mod_pos_bound (FramebufferRegs.depth_color_mask om / 2 ^ 8) (2 ^ 4)
                ltac:(lia)) as Hm.
  destruct (NeedsLogicOpEmulation instance
            && negb (truthy (FramebufferRegs.alphablend_enable om))
            && FramebufferRegs.LogicOp_eqb (FramebufferRegs.logic_op om)
                 FramebufferRegs.NoOp).
  { repeat split; try lia. }
  unfold truthy. destruct (Z.eqb_spec (FramebufferRegs.allow_color_write fb) 0);
    cbn [negb]; repeat split; try lia; try congruence.
Qed.

(** X2: with the depth test disabled in the registers the descriptor's
    compare op is Always; the descriptor's depth test is then still
    enabled exactly when depth writes are enabled, so that the write goes
    through an always-passing test. *)
Theorem SyncDrawState_depth_write_without_test (s : RasterizerVulkan) :
  let om := FramebufferRegs.output_merger (framebuffer regs) in
  let ds := depth_stencil (pipeline_info (snd (SyncDrawState s))) in
  FramebufferRegs.depth_test_enable om <> 1 ->
  depth_compare_op ds = FramebufferRegs.Always
  /\ (depth_test_enable ds = true <-> FramebufferRegs.depth_write_enable om = 1).
Proof.
  intros om ds Hoff. subst ds.
  rewrite SyncDrawState_pipeline_info. unfold SyncDrawState_info. cbn.
  fold om.
  destruct (Z.eqb_spec (FramebufferRegs.depth_test_enable om) 1); [contradiction |].
  cbn [orb]. rewrite Z.eqb_eq. split; reflexivity.
Qed.

(** X3: when the framebuffer registers disallow depth and stencil
    writes, the descriptor writes neither: its depth write enable is off
    and its stencil write mask is 0, whatever the output merger asks
    for. *)
Theorem SyncDrawState_depth_stencil_write_disallowed (s : RasterizerVulkan) :
  let fb := FramebufferRegs.framebuffer (framebuffer regs) in
  let info := pipeline_info (snd (SyncDrawState s)) in
  FramebufferRegs.allow_depth_stencil_write fb = 0 ->
  depth_write_enable (depth_stencil info) = false
  /\ stencil_write_mask (dynamic info) = 0.
Proof.
  intros fb info Hoff. subst info.
  rewrite SyncDrawState_pipeline_info. unfold SyncDrawState_info. cbn.
  fold fb. rewrite Hoff. split; reflexivity.
Qed.

(** ** Index arrays the device takes as they are *)

(** X4: with 16-bit guest indices, or 8-bit ones on a device with a
    native 8-bit index type, [SetupIndexArray] stages the guest index
    bytes unchanged: [num_vertices] times the index size of them, at the
    mapped offset, nothing outside that range, committed with that size and
    bound with the matching index type. *)
Theorem SetupIndexArray_verbatim (s : RasterizerVulkan) :
  let p := pipeline regs in
  let native_u8 :=
    (PipelineRegs.format (PipelineRegs.index_array p) =? 0)
    && IsIndexTypeUint8Supported instance in
  let size := PipelineRegs.num_vertices p * (if native_u8 then 1 else 2) in
  let index_data :=
    memory_GetPhysicalPointer
      (u32 (PipelineRegs.GetPhysicalBaseAddress vertex_attributes_regs
            + PipelineRegs.offset (PipelineRegs.index_array p))) in
  let mapped := sb_Map (sb_state (stream_buffer s)) size 2 in
  let index_offset := fst (fst mapped) in
  let s' := snd (SetupIndexArray s) in
  PipelineRegs.format (PipelineRegs.index_array p) <> 0
  \/ IsIndexTypeUint8Supported instance = true ->
  0 <= size < 2 ^ 32 ->
  (forall k, 0 <= k < size ->
     sb_content (stream_buffer s') (index_offset + k) = index_data k)
  /\ (forall k, k < index_offset \/ index_offset + size <= k ->
        sb_content (stream_buffer s') k = sb_content (stream_buffer s) k)
  /\ sb_state (stream_buffer s') = sb_Commit (snd mapped) size
  /\ events_since s s'
     = [scheduler_Record
          [bindIndexBuffer index_offset (if native_u8 then eUint8EXT else eUint16)]].
Proof.
  intros p native_u8 size index_data mapped index_offset s' Hfmt Hsize.
  assert (Hcopy : (PipelineRegs.format (PipelineRegs.index_array p) =? 0)
                  && negb native_u8 = false).
  { subst native_u8.
    destruct (Z.eqb_spec (PipelineRegs.format (PipelineRegs.index_array p)) 0);
      [| reflexivity].
    destruct Hfmt as [Hfmt | Hfmt]; [contradiction |]. rewrite Hfmt. reflexivity. }
  subst s'. unfold SetupIndexArray. fold p. fold native_u8. rewrite Hcopy.
  fold size. rewrite (u32_small size) by exact Hsize. fold index_data mapped.
  subst index_offset. destruct mapped as [[index_offset invalidate] st]. cbn.
  split; [| split; [| split]].
  - intros k Hk. rewrite memcpy_inside by lia. f_equal. lia.
  - intros k Hk. apply memcpy_outside. exact Hk.
  - reflexivity.
  - apply events_since_app. reflexivity.
Qed.

(** ** The commands of an accelerated draw *)

(** What [AccelerateDrawBatchInternal] does, in terms of the state it is
    called in. *)
Lemma AccelerateDrawBatchInternal_run (is_indexed : bool) (s : RasterizerVulkan) :
  let n := PipelineRegs.num_vertices (pipeline regs) in
  let wait_built := negb async_shaders || (n <=? 6) in
  let s0 := if is_indexed then snd (SetupIndexArray s) else s in
  let cmds :=
    [bindVertexBuffers 0 (binding_count (vertex_layout (pipeline_info s)))
       (binding_offsets s);
     if is_indexed
     then drawIndexed n 1 0 (s32 (- s32 (vs_input_index_min (vertex_info s)))) 0
     else draw n 1 0 0] in
  AccelerateDrawBatchInternal is_indexed s
  = (true,
     emits (pipeline_cache_BindPipeline (pipeline_info s) wait_built
            :: (if BindPipeline (pipeline_info s) wait_built
                then [scheduler_Record cmds] else [])) s0).
Proof.
  intros n wait_built s0 cmds.
  assert (Hpre : (if is_indexed then SetupIndexArray else ret tt) s = (tt, s0)
                 /\ pipeline_info s0 = pipeline_info s
                 /\ vertex_info s0 = vertex_info s
                 /\ binding_offsets s0 = binding_offsets s).
  { subst s0. destruct is_indexed.
    - destruct (SetupIndexArray_frame s) as (Hi & Hv & Hb & _).
      destruct (SetupIndexArray s) as [[] s0]. cbn in *. auto.
    - cbn. auto. }
  destruct Hpre as (Hrun & Hinfo & Hvi & Hbo).
  unfold AccelerateDrawBatchInternal, bind. rewrite Hrun. cbv beta iota zeta.
  fold n. fold wait_built. unfold emit, emits, set_trace.
  cbn [pipeline_info vertex_info binding_offsets trace].
  rewrite Hinfo, Hvi, Hbo.
  destruct (BindPipeline (pipeline_info s) wait_built); cbn [negb].
  - rewrite <- app_assoc. reflexivity.
  - reflexivity.
Qed.

Lemma s32_neg (m : Z) : 0 <= m < 2 ^ 31 -> s32 (- s32 m) = - m.
Proof.
  intros Hm. unfold s32 at 2. rewrite u32_small by lia.
  destruct (Z.ltb_spec m (2 ^ 31)); [| lia].
  unfold s32, u32. destruct (Z.eq_dec m 0) as [-> | Hne]; [reflexivity |].
  replace (- m) with (2 ^ 32 - m + (-1) * 2 ^ 32) by lia.
  rewrite Z.mod_add, Z.mod_small by lia.
  destruct (Z.ltb_spec (2 ^ 32 - m) (2 ^ 31)); lia.
Qed.

(** X5: when the pipeline cache binds the pipeline, an accelerated draw
    records, after the bind, one closure that binds the vertex buffers of
    the layout's [binding_count] bindings at the offsets the vertex setup
    kept and then draws [num_vertices] vertices in one instance.  An
    indexed draw binds its index buffer before the pipeline and draws with
    the vertex offset [- vs_input_index_min], so that the lowest index used
    reads vertex 0 of the staged range. *)
Theorem AccelerateDrawBatchInternal_commands (is_indexed : bool)
    (s : RasterizerVulkan) :
  let p := pipeline regs in
  let n := PipelineRegs.num_vertices p in
  let wait_built := negb async_shaders || (n <=? 6) in
  let index_min := vs_input_index_min (vertex_info s) in
  let new := events_since s (snd (AccelerateDrawBatchInternal is_indexed s)) in
  BindPipeline (pipeline_info s) wait_built = true ->
  0 <= index_min < 2 ^ 31 ->
  exists index_binds,
    new = index_binds
          ++ [pipeline_cache_BindPipeline (pipeline_info s) wait_built;
              scheduler_Record
                [bindVertexBuffers 0 (binding_count (vertex_layout (pipeline_info s)))
                   (binding_offsets s);
                 if is_indexed then drawIndexed n 1 0 (- index_min) 0
                 else draw n 1 0 0]]
    /\ if is_indexed
       then exists offset index_type,
              index_binds = [scheduler_Record [bindIndexBuffer offset index_type]]
       else index_binds = [].
Proof.
  intros p n wait_built index_min new Hbound Hmin. subst new.
  rewrite AccelerateDrawBatchInternal_run. fold p n wait_built index_min.
  rewrite Hbound, (s32_neg index_min) by exact Hmin. cbn [snd].
  destruct is_indexed.
  - destruct (SetupIndexArray_frame s) as (_ & _ & _ & offset & index_type & Ht).
    exists [scheduler_Record [bindIndexBuffer offset index_type]]. split; [| eauto].
    apply events_since_app. cbn. rewrite Ht, <- app_assoc. reflexivity.
  - exists []. split; [| reflexivity]. apply events_since_app. reflexivity.
Qed.


(** ** What a draw binds and records *)

(** The closures handed to the scheduler among some events. *)
Definition scheduler_records (tr : list Event) : list (list Command) :=
  omap (fun e =>
          match e with
          | scheduler_Record cmds => Some cmds
          | _ => None
          end) tr.

(** Events among which no pipeline is bound and nothing is recorded. *)
Definition passive (tr : list Event) : Prop :=
  pipeline_binds tr = [] /\ scheduler_records tr = [].

Lemma passive_nil : passive [].
Proof. split; reflexivity. Qed.

Lemma passive_app (l1 l2 : list Event) :
  passive l1 -> passive l2 -> passive (l1 ++ l2).
Proof.
  intros [Hb1 Hr1] [Hb2 Hr2]. unfold passive, pipeline_binds, scheduler_records in *.
  rewrite !omap_app, Hb1, Hb2, Hr1, Hr2. auto.
Qed.

(** The members the drawing commands are built from. *)
Definition draw_inputs (s : RasterizerVulkan) :=
  (pipeline_info s, vertex_info s, binding_offsets s, vertex_batch s, stream_buffer s).

(** [s'] comes from [s] by passive calls and by changes to the other
    members. *)
Definition kept (s s' : RasterizerVulkan) : Prop :=
  draw_inputs s' = draw_inputs s
  /\ exists l, trace s' = trace s ++ l /\ passive l.

Lemma kept_refl (s : RasterizerVulkan) : kept s s.
Proof. split; [reflexivity |]. exists []. rewrite app_nil_r. auto using passive_nil. Qed.

Lemma kept_trans (s1 s2 s3 : RasterizerVulkan) :
  kept s1 s2 -> kept s2 s3 -> kept s1 s3.
Proof.
  intros [Hi1 (l1 & Ht1 & Hp1)] [Hi2 (l2 & Ht2 & Hp2)]. split; [congruence |].
  exists (l1 ++ l2). rewrite Ht2, Ht1, app_assoc. auto using passive_app.
Qed.

Lemma kept_emits (l : list Event) (s : RasterizerVulkan) :
  passive l -> kept s (emits l s).
Proof. intros Hp. split; [reflexivity |]. exists l. auto. Qed.

(** A change that leaves the drawing members and the trace alone. *)
Lemma kept_silent (s s' : RasterizerVulkan) :
  draw_inputs s' = draw_inputs s -> trace s' = trace s -> kept s s'.
Proof.
  intros Hi Ht. split; [exact Hi |]. exists []. rewrite app_nil_r.
  auto using passive_nil.
Qed.

(** What [BindShadowCube] looks up for one face. *)
Definition cube_face_info (texture : TexturingRegs.FullTextureConfig)
    (face : TexturingRegs.CubeFace) : TextureInfo :=
  {| info_config := TexturingRegs.config texture;
     info_format := TexturingRegs.format texture;
     physical_address := TexturingRegs.GetCubePhysicalAddress (texturing regs) face |}.

(** The image-sampler bindings the loop body makes for its own unit. *)
Definition unit_bindings (fb : Framebuffer) (texture_set texture_index : Z)
    (texture : TexturingRegs.FullTextureConfig) : list (Z * Z * Z * Z) :=
  let cfg := TexturingRegs.config texture in
  let surface := GetTextureSurface texture in
  let plain :=
    [(texture_set, 0,
      if ImageView_Color fb =? ImageView surface
      then CopyImageView surface else ImageView surface,
      GetSampler cfg)] in
  if negb (TexturingRegs.enabled texture) then
    [(texture_set, 0, ImageView null_surface, null_sampler)]
  else if texture_index =? 0 then
    match TexturingRegs.type cfg with
    | TexturingRegs.Shadow2D =>
        [(texture_set, 0, StorageView surface, GetSampler cfg)]
    | TexturingRegs.ShadowCube =>
        map (fun face =>
               (texture_set, TexturingRegs.CubeFace_index face,
                StorageView (GetTextureSurface_info (cube_face_info texture face)),
                GetSampler cfg))
          cube_faces
    | TexturingRegs.TextureCube =>
        [(texture_set, 0, ImageView (GetTextureCube (texture_cube_config texture)),
          GetSampler cfg)]
    | _ => plain
    end
  else plain.

(** The surfaces tagged as shadow maps among some events. *)
Definition shadow_maps (tr : list Event) : list Surface :=
  omap (fun e =>
          match e with
          | surface_flags_ShadowMap surface => Some surface
          | _ => None
          end) tr.

(** The surfaces the loop body tags for its unit. *)
Definition unit_shadow_maps (texture_index : Z)
    (texture : TexturingRegs.FullTextureConfig) : list Surface :=
  if TexturingRegs.enabled texture && (texture_index =? 0) then
    match TexturingRegs.type (TexturingRegs.config texture) with
    | TexturingRegs.Shadow2D => [GetTextureSurface texture]
    | TexturingRegs.ShadowCube =>
        map (fun face => GetTextureSurface_info (cube_face_info texture face)) cube_faces
    | _ => []
    end
  else [].

Lemma shadow_maps_app (l1 l2 : list Event) :
  shadow_maps (l1 ++ l2) = shadow_maps l1 ++ shadow_maps l2.
Proof. apply omap_app. Qed.

Ltac unit_events_done :=
  eexists; rewrite ?emit_emits, ?emits_emits;
  split; [reflexivity |];
  split; [split; reflexivity |];
  split; [reflexivity |];
  cbn; rewrite ?Z.eqb_refl;
  split; [reflexivity |];
  let j := fresh "j" in
  let Hj := fresh "Hj" in
  intros j Hj;
  repeat match goal with
         | |- context [?a =? j] => destruct (Z.eqb_spec a j); [congruence |]
         end;
  first [reflexivity | destruct j; first [congruence | reflexivity]].

(** One round of the loop over the texture units: its calls are passive,
    and its image-sampler bindings are those of its own unit. *)
Lemma sync_texture_unit_events (fb : Framebuffer) (texture_set texture_index : Z)
    (texture : TexturingRegs.FullTextureConfig) (s : RasterizerVulkan) :
  exists l,
    sync_texture_unit fb texture_set texture_index texture s = (tt, emits l s)
    /\ passive l
    /\ shadow_maps l = unit_shadow_maps texture_index texture
    /\ image_sampler_bindings texture_index l
       = unit_bindings fb texture_set texture_index texture
    /\ forall j, j <> texture_index -> image_sampler_bindings j l = [].
Proof.
  unfold sync_texture_unit, unit_bindings, unit_shadow_maps, cube_face_info.
  destruct (TexturingRegs.enabled texture); cbn [negb andb].
  2: { unfold modify. unit_events_done. }
  destruct (Z.eqb_spec texture_index 0) as [-> | Hne]; [| unit_events_done].
  destruct (TexturingRegs.type (TexturingRegs.config texture));
    try unit_events_done.
  - rewrite BindTextureCube_events. unit_events_done.
  - unfold BindShadowCube. cbn [fold_left cube_faces]. unit_events_done.
Qed.

Lemma unit_shadow_maps_other (k : Z) (texture : TexturingRegs.FullTextureConfig) :
  k <> 0 -> unit_shadow_maps k texture = [].
Proof.
  intros Hk. unfold unit_shadow_maps.
  destruct (Z.eqb_spec k 0); [contradiction |]. rewrite andb_false_r. reflexivity.
Qed.

Lemma sync_texture_units_events (fb : Framebuffer) (texture_set : Z)
    (textures : list TexturingRegs.FullTextureConfig) :
  forall (k : Z) (s : RasterizerVulkan),
    0 <= k ->
    exists l,
      sync_texture_units fb texture_set k textures s = (tt, emits l s)
      /\ passive l
      /\ shadow_maps l
         = match textures with
           | texture :: _ => unit_shadow_maps k texture
           | [] => []
           end
      /\ (forall (i : nat) texture,
            textures !! i = Some texture ->
            image_sampler_bindings (k + Z.of_nat i) l
            = unit_bindings fb texture_set (k + Z.of_nat i) texture)
      /\ forall j, j < k \/ k + Z.of_nat (length textures) <= j ->
           image_sampler_bindings j l = [].
Proof.
  induction textures as [| texture rest IH]; intros k s Hk.
  - exists []. cbn. rewrite emits_nil. split; [reflexivity |].
    split; [apply passive_nil |]. split; [reflexivity |]. split; [| reflexivity].
    intros i texture Hi. discriminate.
  - cbn [sync_texture_units]. unfold bind.
    destruct (sync_texture_unit_events fb texture_set k texture s)
      as (l1 & -> & Hp1 & Hsm1 & Hown & Hother).
    destruct (IH (k + 1) (emits l1 s)) as (l2 & -> & Hp2 & Hsm2 & Hrest & Hout);
      [lia |].
    exists (l1 ++ l2). rewrite emits_emits. split; [reflexivity |].
    split; [apply passive_app; assumption |]. split; [| split].
    + rewrite shadow_maps_app, Hsm1, Hsm2.
      destruct rest; [apply app_nil_r |].
      rewrite (unit_shadow_maps_other (k + 1)) by lia. apply app_nil_r.
    + intros i t Hi. rewrite image_sampler_bindings_app. destruct i as [| i].
      * cbn in Hi. injection Hi as <-. rewrite Z.add_0_r, Hown.
        rewrite Hout by lia. apply app_nil_r.
      * cbn [lookup list_lookup] in Hi.
        rewrite Hother by lia.
        replace (k + Z.of_nat (S i)) with (k + 1 + Z.of_nat i) by lia.
        apply (Hrest i t Hi).
    + intros j Hj. cbn [length] in Hj. rewrite image_sampler_bindings_app.
      rewrite Hother by lia. rewrite Hout by lia. reflexivity.
Qed.

(** All of [SyncTextureUnits]. *)
Lemma SyncTextureUnits_events (fb : Framebuffer) (s : RasterizerVulkan) :
  let textures := TexturingRegs.GetTextures (texturing regs) in
  exists l,
    SyncTextureUnits fb s = (tt, emits l s)
    /\ passive l
    /\ shadow_maps l
       = match textures with
         | texture :: _ => unit_shadow_maps 0 texture
         | [] => []
         end
    /\ (forall (i : nat) texture,
          textures !! i = Some texture ->
          image_sampler_bindings (Z.of_nat i) l
          = unit_bindings fb (Acquire Texture) (Z.of_nat i) texture)
    /\ forall j, j < 0 \/ Z.of_nat (length textures) <= j ->
         image_sampler_bindings j l = [].
Proof.
  intros textures. unfold SyncTextureUnits. fold textures.
  replace (if use_cube_heap textures then Texture else Texture)
    with Texture by (destruct (use_cube_heap textures); reflexivity).
  unfold bind, modify.
  destruct (sync_texture_units_events fb (Acquire Texture) textures 0
              (emit (pipeline_cache_Acquire Texture) s) ltac:(lia))
    as (l & -> & Hp & Hsm & Hown & Hout).
  exists (pipeline_cache_Acquire Texture :: l).
  rewrite emit_emits, emits_emits. split; [reflexivity |].
  split; [apply (passive_app [_] l); [split; reflexivity | exact Hp] |].
  split; [exact Hsm |]. split.
  - intros i t Hi. specialize (Hown i t Hi). rewrite Z.add_0_l in Hown. exact Hown.
  - intros j Hj. apply Hout. lia.
Qed.

Lemma SyncTextureUnits_kept (fb : Framebuffer) (s : RasterizerVulkan) :
  kept s (snd (SyncTextureUnits fb s)).
Proof.
  destruct (SyncTextureUnits_events fb s) as (l & -> & Hp & _).
  apply kept_emits. exact Hp.
Qed.

Lemma SyncUtilityTextures_kept (fb : Framebuffer) (s : RasterizerVulkan) :
  kept s (snd (SyncUtilityTextures fb s)).
Proof.
  unfold SyncUtilityTextures.
  destruct (FramebufferRegs.IsShadowRendering (framebuffer regs)); cbn [negb].
  - unfold bind, modify. cbn [snd]. rewrite !emit_emits, emits_emits.
    apply kept_emits. split; reflexivity.
  - apply kept_refl.
Qed.

(** The uploads change neither the drawing members nor, but for the
    binding-range updates of [UploadUniforms], the trace. *)
Lemma while_lut_dirty_silent (offset : Z) (fuel : nat) :
  forall acc : Z * RasterizerVulkan,
    let s' := snd (while_lut_dirty fuel offset acc) in
    draw_inputs s' = draw_inputs (snd acc) /\ trace s' = trace (snd acc).
Proof.
  induction fuel as [| fuel IH]; intros acc; cbn [while_lut_dirty]; [auto |].
  destruct (truthy (lighting_lut_dirty (pica (snd acc)))); [| auto].
  destruct (IH (sync_lighting_lut offset acc)) as (Hi & Ht).
  destruct acc as [bytes_used s]. split; [rewrite Hi | rewrite Ht]; reflexivity.
Qed.

Lemma SyncAndUploadLUTsLF_kept (s : RasterizerVulkan) :
  kept s (snd (SyncAndUploadLUTsLF s)).
Proof.
  unfold SyncAndUploadLUTsLF.
  destruct (negb (truthy (lighting_lut_dirty (pica s))) && negb (fog_lut_dirty (pica s)));
    [apply kept_refl |].
  destruct (sb_Map _ _ _) as [[offset invalidate] st].
  match goal with
  | |- context [while_lut_dirty 32 offset (0, ?t)] =>
      assert (H1 : draw_inputs t = draw_inputs s /\ trace t = trace s)
        by (destruct invalidate; split; reflexivity);
        pose proof (while_lut_dirty_silent offset 32 (0, t)) as H2;
        destruct (while_lut_dirty 32 offset (0, t)) as [bytes_used s2]
  end.
  cbn [snd] in H2. destruct H1 as (Hi1 & Ht1), H2 as (Hi2 & Ht2).
  apply kept_silent.
  - rewrite <- Hi1, <- Hi2. destruct (fog_lut_dirty (pica s2)); reflexivity.
  - rewrite <- Ht1, <- Ht2. destruct (fog_lut_dirty (pica s2)); reflexivity.
Qed.

Lemma sync_proctex_table_kept (is_dirty : ProcTexDirty -> bool) (offset : Z)
    (block : Block) (set_offset : Z -> FSUniformData -> FSUniformData)
    (elem entries : Z) (acc : Z * RasterizerVulkan) :
  kept (snd acc)
    (snd (sync_proctex_table is_dirty offset block set_offset elem entries acc)).
Proof.
  unfold sync_proctex_table. destruct acc as [bytes_used s].
  destruct (is_dirty (proctex_dirty (pica s))); [| apply kept_refl].
  apply kept_silent; reflexivity.
Qed.

Lemma SyncAndUploadLUTs_kept (s : RasterizerVulkan) :
  kept s (snd (SyncAndUploadLUTs s)).
Proof.
  unfold SyncAndUploadLUTs.
  destruct (negb (lut_dirty (proctex_dirty (pica s)))); [apply kept_refl |].
  destruct (sb_Map _ _ _) as [[offset invalidate] st].
  match goal with
  | |- context [sync_proctex_table _ offset _ _ _ _ (0, ?t)] =>
      assert (K0 : kept s t) by (destruct invalidate; apply kept_silent; reflexivity)
  end.
  repeat match goal with
  | |- context [sync_proctex_table ?d offset ?b ?f ?e ?n ?acc] =>
      lazymatch acc with
      | context [sync_proctex_table] => fail
      | _ =>
          let K := fresh "K" in
          pose proof (sync_proctex_table_kept d offset b f e n acc) as K;
          let u := fresh "used" in
          let t := fresh "t" in
          destruct (sync_proctex_table d offset b f e n acc) as [u t];
          cbn [snd] in K
      end
  end.
  do 6 (eapply kept_trans; [eassumption |]).
  apply kept_silent; reflexivity.
Qed.

Lemma upload_block_kept (cond : RasterizerVulkan -> bool) (offset : Z)
    (block : Block) (binding size_aligned : Z)
    (clear : RasterizerVulkan -> RasterizerVulkan) (acc : Z * RasterizerVulkan) :
  (forall t, draw_inputs (clear t) = draw_inputs t /\ trace (clear t) = trace t) ->
  kept (snd acc)
    (snd (upload_block cond offset block binding size_aligned clear acc)).
Proof.
  intros Hclear. unfold upload_block. destruct acc as [used_bytes s].
  destruct (cond s); [| apply kept_refl]. cbn [snd].
  match goal with
  | |- kept _ (clear ?t) => destruct (Hclear t) as (Hi & Ht)
  end.
  split; [rewrite Hi; reflexivity |].
  exists [pipeline_cache_UpdateRange binding (offset + used_bytes)].
  split; [rewrite Ht; reflexivity | split; reflexivity].
Qed.

Lemma UploadUniforms_kept (accelerate_draw : bool) (s : RasterizerVulkan) :
  kept s (snd (UploadUniforms accelerate_draw s)).
Proof.
  unfold UploadUniforms.
  destruct (negb (accelerate_draw && vs_setup_uniforms_dirty (pica s))
            && negb (vs_data_dirty s) && negb (fs_data_dirty s));
    [apply kept_refl |].
  destruct (sb_Map _ _ _) as [[offset invalidate] st].
  match goal with
  | |- context [upload_block ?c1 offset ?b1 ?n1 ?z1 ?f1 (0, ?t)] =>
      assert (K0 : kept s t) by (apply kept_silent; reflexivity);
        pose proof (upload_block_kept c1 offset b1 n1 z1 f1 (0, t)
                      ltac:(intros; split; reflexivity)) as K1;
        destruct (upload_block c1 offset b1 n1 z1 f1 (0, t)) as [u1 t1]
  end.
  match goal with
  | |- context [upload_block ?c offset ?b ?n ?z ?f (u1, t1)] =>
      pose proof (upload_block_kept c offset b n z f (u1, t1)
                    ltac:(intros; split; reflexivity)) as K2;
        destruct (upload_block c offset b n z f (u1, t1)) as [u2 t2]
  end.
  match goal with
  | |- context [upload_block ?c offset ?b ?n ?z ?f (u2, t2)] =>
      pose proof (upload_block_kept c offset b n z f (u2, t2)
                    ltac:(intros; split; reflexivity)) as K3;
        destruct (upload_block c offset b n z f (u2, t2)) as [u3 t3]
  end.
  cbn [snd] in *.
  refine (kept_trans _ _ _ (kept_trans _ _ _ (kept_trans _ _ _ (kept_trans _ _ _ K0 K1) K2) K3) _).
  apply kept_silent; reflexivity.
Qed.


Lemma SyncDrawState_members (s : RasterizerVulkan) :
  let s' := snd (SyncDrawState s) in
  vertex_info s' = vertex_info s
  /\ binding_offsets s' = binding_offsets s
  /\ vertex_batch s' = vertex_batch s
  /\ stream_buffer s' = stream_buffer s
  /\ trace s' = trace s.
Proof.
  unfold SyncDrawState.
  destruct (SyncDrawUniforms _) as [[fs vs_dirty] fs_dirty]. repeat split.
Qed.

(** The descriptor [Draw] binds: the one [SyncDrawState] leaves, with the
    attachment formats of the framebuffer and the viewport and scissor of
    the framebuffer helper. *)
Definition draw_descriptor (fb_helper : FramebufferHelper) (info : PipelineInfo)
  : PipelineInfo :=
  let fb := Framebuffer_ fb_helper in
  let vp := Viewport fb_helper in
  set_viewport_scissor
    {| left := vp_x vp; top := vp_y vp;
       right := s32 (vp_x vp + vp_width vp);
       bottom := s32 (vp_y vp + vp_height vp) |}
    (DrawRect fb_helper)
    (set_attachments
       {| color := Format_Color fb; depth := Format_Depth fb |} info).

(** [Draw] on a null framebuffer. *)
Lemma Draw_null_run (accelerate is_indexed : bool) (s : RasterizerVulkan) :
  let info := SyncDrawState_info (pipeline_info s) in
  let uc := using_color_fb info in
  let ud := using_depth_fb info in
  Handle (Framebuffer_ (GetFramebufferSurfaces uc ud)) = 0 ->
  Draw accelerate is_indexed s
  = (true, emit (res_cache_GetFramebufferSurfaces uc ud) (snd (SyncDrawState s))).
Proof.
  intros info uc ud Hnull. unfold Draw, bind.
  pose proof (SyncDrawState_pipeline_info s) as Hinfo.
  destruct (SyncDrawState s) as [[] s1]. cbn [snd] in *.
  rewrite Hinfo. fold info. fold uc ud. rewrite Hnull. reflexivity.
Qed.

(** [Draw] on a live framebuffer, up to the point where the vertex batch
    is drawn: the state [s_mid] there has the descriptor of the draw, the
    drawing members of [s], and a trace that grew by the framebuffer
    resolution, passive calls and [BeginRendering]. *)
Lemma Draw_run (accelerate is_indexed : bool) (s : RasterizerVulkan) :
  let info := SyncDrawState_info (pipeline_info s) in
  let uc := using_color_fb info in
  let ud := using_depth_fb info in
  let fb_helper := GetFramebufferSurfaces uc ud in
  let fb := Framebuffer_ fb_helper in
  Handle fb <> 0 ->
  exists s_mid pre,
    Draw accelerate is_indexed s
    = (let '(r, s2) :=
         (if accelerate then AccelerateDrawBatchInternal is_indexed
          else do draw_vertex_batch then ret true) s_mid in
       (r, set_vertex_batch [] s2))
    /\ pipeline_info s_mid = draw_descriptor fb_helper info
    /\ vertex_info s_mid = vertex_info s
    /\ binding_offsets s_mid = binding_offsets s
    /\ vertex_batch s_mid = vertex_batch s
    /\ stream_buffer s_mid = stream_buffer s
    /\ trace s_mid
       = trace s
           ++ res_cache_GetFramebufferSurfaces uc ud
              :: pre ++ [renderpass_cache_BeginRendering fb (DrawRect fb_helper)]
    /\ passive pre.
Proof.
  intros info uc ud fb_helper fb Hlive. unfold Draw, bind.
  pose proof (SyncDrawState_pipeline_info s) as Hinfo.
  destruct (SyncDrawState_members s) as (Hvi & Hbo & Hvb & Hsb & Htr).
  destruct (SyncDrawState s) as [[] s1]. cbn [snd] in *.
  rewrite Hinfo. fold info. fold uc ud. fold fb_helper. fold fb.
  replace (negb (truthy (Handle fb))) with false
    by (symmetry; apply negb_false_iff, truthy_true; exact Hlive).
  destruct (Scissor fb_helper) as [[[x1 y2] x2] y1].
  match goal with
  | |- context [SyncTextureUnits fb ?t] => set (sA := t)
  end.
  assert (HA : pipeline_info sA
               = set_attachments
                   {| color := Format_Color fb; depth := Format_Depth fb |} info
               /\ vertex_info sA = vertex_info s
               /\ binding_offsets sA = binding_offsets s
               /\ vertex_batch sA = vertex_batch s
               /\ stream_buffer sA = stream_buffer s
               /\ trace sA = trace s ++ [res_cache_GetFramebufferSurfaces uc ud]).
  { subst sA.
    destruct (negb (scissor_x1 _ =? x1) || negb (scissor_x2 _ =? x2)
              || negb (scissor_y1 _ =? y1) || negb (scissor_y2 _ =? y2));
      cbn; rewrite Hinfo, Hvi, Hbo, Hvb, Hsb, Htr; repeat split. }
  clearbody sA.
  pose proof (SyncTextureUnits_kept fb sA) as K1.
  destruct (SyncTextureUnits fb sA) as [[] s2].
  pose proof (SyncUtilityTextures_kept fb s2) as K2.
  destruct (SyncUtilityTextures fb s2) as [[] s3].
  unfold modify at 1.
  assert (K3 : kept s3 (emit pipeline_cache_UseFragmentShader s3))
    by (rewrite emit_emits; apply kept_emits; split; reflexivity).
  set (s3' := emit pipeline_cache_UseFragmentShader s3) in *. clearbody s3'.
  pose proof (SyncAndUploadLUTs_kept s3') as K4.
  destruct (SyncAndUploadLUTs s3') as [[] s4].
  pose proof (SyncAndUploadLUTsLF_kept s4) as K5.
  destruct (SyncAndUploadLUTsLF s4) as [[] s5].
  pose proof (UploadUniforms_kept accelerate s5) as K6.
  destruct (UploadUniforms accelerate s5) as [[] s6].
  cbn [snd] in *.
  assert (K : kept sA s6) by (repeat (eapply kept_trans; [eassumption |]); apply kept_refl).
  destruct K as (Hin & pre & Hpre & Hpassive).
  unfold draw_inputs in Hin. injection Hin as Hpi Hvi6 Hbo6 Hvb6 Hsb6.
  destruct HA as (HpiA & HviA & HboA & HvbA & HsbA & HtrA).
  unfold modify, ret.
  eexists
    (set_pipeline_info
       (set_viewport_scissor
          {| left := vp_x (Viewport fb_helper); top := vp_y (Viewport fb_helper);
             right := s32 (vp_x (Viewport fb_helper) + vp_width (Viewport fb_helper));
             bottom := s32 (vp_y (Viewport fb_helper) + vp_height (Viewport fb_helper)) |}
          (DrawRect fb_helper)
          (pipeline_info
             (emit (renderpass_cache_BeginRendering fb (DrawRect fb_helper)) s6)))
       (emit (renderpass_cache_BeginRendering fb (DrawRect fb_helper)) s6)), pre.
  split.
  { destruct accelerate.
    - match goal with
      | |- context [AccelerateDrawBatchInternal is_indexed ?t] =>
          destruct (AccelerateDrawBatchInternal is_indexed t) as [r s7]
      end.
      reflexivity.
    - unfold bind.
      match goal with
      | |- context [draw_vertex_batch ?t] => destruct (draw_vertex_batch t) as [[] s7]
      end.
      reflexivity. }
  cbn. unfold draw_descriptor. rewrite Hpi, HpiA, Hvi6, Hbo6, Hvb6, Hsb6, Hpre, HtrA.
  rewrite <- !app_assoc. split; [reflexivity |].
  do 4 (split; [assumption |]). split; [reflexivity | assumption].
Qed.


(** [Draw] on a live framebuffer, as a whole. *)
Lemma Draw_live_trace (accelerate is_indexed : bool) (s : RasterizerVulkan) :
  let info := SyncDrawState_info (pipeline_info s) in
  let fb_helper := GetFramebufferSurfaces (using_color_fb info) (using_depth_fb info) in
  let fb := Framebuffer_ fb_helper in
  let wait_built :=
    if accelerate
    then negb async_shaders || (PipelineRegs.num_vertices (pipeline regs) <=? 6)
    else true in
  let s' := snd (Draw accelerate is_indexed s) in
  Handle fb <> 0 ->
  exists pre post,
    trace s'
    = trace s ++ pre ++ renderpass_cache_BeginRendering fb (DrawRect fb_helper) :: post
    /\ passive pre
    /\ pipeline_binds post = [(draw_descriptor fb_helper info, wait_built)]
    /\ pipeline_info s' = draw_descriptor fb_helper info
    /\ vertex_batch s' = [].
Proof.
  intros info fb_helper fb wait_built s' Hlive.
  destruct (Draw_run accelerate is_indexed s Hlive)
    as (s_mid & pre & Hrun & Hpi & _ & _ & _ & _ & Htr & Hpassive).
  fold info fb_helper fb in Hrun, Hpi, Htr.
  exists (res_cache_GetFramebufferSurfaces (using_color_fb info) (using_depth_fb info)
          :: pre).
  subst s'. rewrite Hrun. subst wait_built. destruct accelerate.
  - rewrite AccelerateDrawBatchInternal_run. cbn [snd].
    assert (Hidx : exists idx,
               pipeline_info (if is_indexed then snd (SetupIndexArray s_mid) else s_mid)
               = pipeline_info s_mid
               /\ trace (if is_indexed then snd (SetupIndexArray s_mid) else s_mid)
                  = trace s_mid ++ idx
               /\ pipeline_binds idx = []).
    { destruct is_indexed.
      - destruct (SetupIndexArray_frame s_mid) as (Hi & _ & _ & o & ty & Ht).
        exists [scheduler_Record [bindIndexBuffer o ty]]. auto.
      - exists []. rewrite app_nil_r. auto. }
    destruct Hidx as (idx & Hpi0 & Htr0 & Hbinds).
    eexists (idx ++ _ :: _). split; [| split; [| split; [| split]]].
    + cbn. rewrite Htr0, Htr.
      rewrite <- !app_assoc. cbn. rewrite <- !app_assoc. reflexivity.
    + apply (passive_app [_] pre); [split; reflexivity | exact Hpassive].
    + unfold pipeline_binds in *. rewrite omap_app, Hbinds. cbn.
      rewrite Hpi. destruct (BindPipeline _ _); reflexivity.
    + cbn. rewrite Hpi0. exact Hpi.
    + reflexivity.
  - unfold bind, draw_vertex_batch.
    destruct (sb_Map _ _ _) as [[offset invalidate] st]. cbn.
    eexists [_; _]. split; [| split; [| split; [| split]]].
    + rewrite Htr, <- !app_assoc. cbn.
      rewrite <- !app_assoc. reflexivity.
    + apply (passive_app [_] pre); [split; reflexivity | exact Hpassive].
    + cbn. rewrite Hpi. reflexivity.
    + exact Hpi.
    + reflexivity.
Qed.

(** X6: on a live framebuffer [Draw] binds exactly one pipeline, and it
    does so after [BeginRendering]; before rendering begins, which is
    after every texture, lookup-table and uniform update, nothing is bound
    and nothing is recorded on the scheduler.  The descriptor bound, which
    is also the one [Draw] leaves behind, is the one [SyncDrawState]
    computes, completed with the attachment formats of the framebuffer and
    the viewport and scissor of the framebuffer helper.  The software path
    always waits for the pipeline to be built. *)
Theorem Draw_binds_after_begin (accelerate is_indexed : bool)
    (s : RasterizerVulkan) :
  let info := SyncDrawState_info (pipeline_info s) in
  let fb_helper := GetFramebufferSurfaces (using_color_fb info) (using_depth_fb info) in
  let fb := Framebuffer_ fb_helper in
  let vp := Viewport fb_helper in
  let wait_built :=
    if accelerate
    then negb async_shaders || (PipelineRegs.num_vertices (pipeline regs) <=? 6)
    else true in
  let r := Draw accelerate is_indexed s in
  let new := events_since s (snd r) in
  Handle fb <> 0 ->
  exists pre post bound,
    new = pre ++ renderpass_cache_BeginRendering fb (DrawRect fb_helper) :: post
    /\ passive pre
    /\ pipeline_binds post = [(bound, wait_built)]
    /\ pipeline_info (snd r) = bound
    /\ attachments bound
       = {| color := Format_Color fb; depth := Format_Depth fb |}
    /\ viewport (dynamic bound)
       = {| left := vp_x vp; top := vp_y vp;
            right := s32 (vp_x vp + vp_width vp);
            bottom := s32 (vp_y vp + vp_height vp) |}
    /\ scissor (dynamic bound) = DrawRect fb_helper
    /\ blending bound = blending info
    /\ depth_stencil bound = depth_stencil info
    /\ rasterization bound = rasterization info
    /\ vertex_layout bound = vertex_layout (pipeline_info s).
Proof.
  intros info fb_helper fb vp wait_built r new Hlive.
  destruct (Draw_live_trace accelerate is_indexed s Hlive)
    as (pre & post & Htr & Hpassive & Hbinds & Hpi & _).
  exists pre, post, (draw_descriptor fb_helper info).
  split; [apply events_since_app; exact Htr |].
  do 3 (split; [assumption |]). repeat split.
Qed.

(** Byte [j] of vertex [v] in a batch of vertices of [n] bytes each. *)
Lemma nth_concat_uniform (l : list (list Z)) (n : nat) :
  Forall (fun vertex => length vertex = n) l ->
  forall (v j : nat) (vertex : list Z),
    l !! v = Some vertex -> (j < n)%nat ->
    nth (v * n + j) (concat l) 0 = nth j vertex 0.
Proof.
  induction 1 as [| x l Hx Hl IH]; intros v j vertex Hv Hj; [discriminate |].
  cbn [concat]. destruct v as [| v].
  - cbn in Hv. injection Hv as <-. cbn. apply app_nth1. lia.
  - cbn [lookup list_lookup] in Hv.
    replace (S v * n + j)%nat with (length x + (v * n + j))%nat by lia.
    rewrite app_nth2_plus. apply IH; assumption.
Qed.

(** X7: the software path stages the whole vertex batch in one copy and
    draws it unindexed: on a live framebuffer, with vertices of
    [sizeof (HardwareVertex)] bytes, byte [j] of the batched vertex [v] is
    staged at [v * sizeof (HardwareVertex) + j] from the mapped offset, the
    region is committed with the size of the batch, and the one closure
    recorded binds that offset as vertex buffer 0 and draws as many
    vertices as the batch holds, in one instance; the batch is empty
    afterwards. *)
Theorem Draw_software_path (is_indexed : bool) (s : RasterizerVulkan) :
  let info := SyncDrawState_info (pipeline_info s) in
  let fb_helper := GetFramebufferSurfaces (using_color_fb info) (using_depth_fb info) in
  let count := Z.of_nat (length (vertex_batch s)) in
  let size := count * sizeof_HardwareVertex in
  let mapped := sb_Map (sb_state (stream_buffer s)) size sizeof_HardwareVertex in
  let offset := fst (fst mapped) in
  let s' := snd (Draw false is_indexed s) in
  Handle (Framebuffer_ fb_helper) <> 0 ->
  0 < sizeof_HardwareVertex -> size < 2 ^ 32 ->
  Forall (fun vertex => Z.of_nat (length vertex) = sizeof_HardwareVertex)
    (vertex_batch s) ->
  scheduler_records (events_since s s')
  = [[bindVertexBuffers 0 1 [offset]; draw count 1 0 0]]
  /\ (forall (v : nat) (j : Z) (vertex : list Z),
        vertex_batch s !! v = Some vertex -> 0 <= j < sizeof_HardwareVertex ->
        sb_content (stream_buffer s') (offset + Z.of_nat v * sizeof_HardwareVertex + j)
        = nth (Z.to_nat j) vertex 0)
  /\ sb_state (stream_buffer s') = sb_Commit (snd mapped) size
  /\ vertex_batch s' = [].
Proof.
  intros info fb_helper count size mapped offset s' Hlive Hsz Hfit Hbatch.
  destruct (Draw_run false is_indexed s Hlive)
    as (s_mid & pre & Hrun & _ & _ & _ & Hvb & Hsb & Htr & Hpassive).
  fold info fb_helper in Htr.
  assert (Hcount : 0 <= count < 2 ^ 32) by (subst size; nia).
  subst s'. rewrite Hrun. unfold bind, draw_vertex_batch. cbv beta zeta.
  cbn [vertex_batch stream_buffer emit set_trace].
  rewrite Hvb, Hsb. fold count. rewrite (u32_small count) by exact Hcount.
  fold size. rewrite (u32_small size) by lia. fold mapped. subst offset.
  destruct mapped as [[offset invalidate] st]. cbn [fst snd ret].
  split; [| split; [| split]].
  - rewrite (events_since_app s _
               (res_cache_GetFramebufferSurfaces (using_color_fb info)
                  (using_depth_fb info)
                :: pre
                ++ [renderpass_cache_BeginRendering (Framebuffer_ fb_helper)
                      (DrawRect fb_helper);
                    pipeline_cache_BindPipeline (pipeline_info s_mid) true;
                    scheduler_Record
                      [bindVertexBuffers 0 1 [offset]; draw count 1 0 0]])).
    + destruct Hpassive as [_ Hrec]. unfold scheduler_records in *.
      cbn [omap list_omap]. rewrite omap_app, Hrec. reflexivity.
    + cbn. rewrite Htr, <- !app_assoc. cbn. rewrite <- !app_assoc. reflexivity.
  - intros v j vertex Hv Hj. cbn.
    pose proof (lookup_lt_Some _ _ _ Hv) as Hlt.
    rewrite memcpy_inside by (subst size count; nia).
    replace (Z.to_nat (0 + (offset + Z.of_nat v * sizeof_HardwareVertex + j - offset)))
      with (v * Z.to_nat sizeof_HardwareVertex + Z.to_nat j)%nat by nia.
    apply nth_concat_uniform; [| exact Hv | lia].
    eapply Forall_impl; [exact Hbatch |]. cbn. intros x Hx. lia.
  - reflexivity.
  - reflexivity.
Qed.

(** X8: [Draw] has no failing path, and it empties the vertex batch
    exactly when the surface cache gave it a framebuffer: after the early
    return on a null framebuffer the batch is still the one it was. *)
Theorem Draw_result_and_batch (accelerate is_indexed : bool) (s : RasterizerVulkan) :
  let info := SyncDrawState_info (pipeline_info s) in
  let fb_helper := GetFramebufferSurfaces (using_color_fb info) (using_depth_fb info) in
  let r := Draw accelerate is_indexed s in
  fst r = true
  /\ vertex_batch (snd r)
     = if Handle (Framebuffer_ fb_helper) =? 0 then vertex_batch s else [].
Proof.
  intros info fb_helper r. split; [apply Draw_result |]. subst r.
  destruct (Z.eqb_spec (Handle (Framebuffer_ fb_helper)) 0) as [Hnull | Hlive].
  - rewrite (Draw_null_run accelerate is_indexed s Hnull). cbn.
    apply SyncDrawState_members.
  - destruct (Draw_run accelerate is_indexed s Hlive) as (s_mid & pre & -> & _).
    destruct ((if accelerate then AccelerateDrawBatchInternal is_indexed
               else do draw_vertex_batch then ret true) s_mid) as [r s2].
    reflexivity.
Qed.

(** X9: the attachments [Draw] asks the surface cache for, which is its
    first call.  The colour attachment is never asked for at colour
    address 0, nor the depth attachment at depth address 0; shadow
    rendering asks for the colour attachment whenever its address is not
    0, and never for the depth attachment; outside shadow rendering, a
    framebuffer that disallows colour writes does not ask for the colour
    attachment. *)
Theorem Draw_attachments_asked (accelerate is_indexed : bool) (s : RasterizerVulkan) :
  let fbregs := framebuffer regs in
  let cfg := FramebufferRegs.framebuffer fbregs in
  let new := events_since s (snd (Draw accelerate is_indexed s)) in
  exists uc ud rest,
    new = res_cache_GetFramebufferSurfaces uc ud :: rest
    /\ (FramebufferRegs.GetColorBufferPhysicalAddress cfg = 0 -> uc = false)
    /\ (FramebufferRegs.GetDepthBufferPhysicalAddress cfg = 0 -> ud = false)
    /\ (FramebufferRegs.IsShadowRendering fbregs = true ->
        ud = false
        /\ uc = negb (FramebufferRegs.GetColorBufferPhysicalAddress cfg =? 0))
    /\ (FramebufferRegs.IsShadowRendering fbregs = false ->
        FramebufferRegs.allow_color_write cfg = 0 -> uc = false).
Proof.
  intros fbregs cfg new.
  set (info := SyncDrawState_info (pipeline_info s)).
  exists (using_color_fb info), (using_depth_fb info).
  assert (Hfirst : exists rest,
             new = res_cache_GetFramebufferSurfaces (using_color_fb info)
                     (using_depth_fb info) :: rest).
  { subst new.
    destruct (Z.eq_dec
                (Handle (Framebuffer_ (GetFramebufferSurfaces (using_color_fb info)
                                         (using_depth_fb info)))) 0)
      as [Hnull | Hlive].
    - rewrite (Draw_null_run accelerate is_indexed s Hnull). fold info.
      exists []. apply events_since_app. cbn.
      destruct (SyncDrawState_members s) as (_ & _ & _ & _ & ->). reflexivity.
    - destruct (Draw_run accelerate is_indexed s Hlive)
        as (s_mid & pre & -> & _ & _ & _ & _ & _ & Htr & _).
      fold info in Htr.
      assert (Hgrow : forall t, exists l, trace (snd (
                  (if accelerate then AccelerateDrawBatchInternal is_indexed
                   else do draw_vertex_batch then ret true) t)) = trace t ++ l).
      { intros t. destruct accelerate.
        - rewrite AccelerateDrawBatchInternal_run. cbn [snd].
          destruct is_indexed.
          + destruct (SetupIndexArray_frame t) as (_ & _ & _ & o & ty & Ht).
            eexists. cbn. rewrite Ht, <- app_assoc. reflexivity.
          + eexists. reflexivity.
        - unfold bind, draw_vertex_batch.
          destruct (sb_Map _ _ _) as [[offset invalidate] st]. cbn.
          eexists. rewrite <- app_assoc. reflexivity. }
      destruct (Hgrow s_mid) as (l & Hl).
      destruct ((if accelerate then AccelerateDrawBatchInternal is_indexed
                 else do draw_vertex_batch then ret true) s_mid) as [r s2].
      cbn [snd] in *. eexists. apply events_since_app. cbn.
      rewrite Hl, Htr, <- app_assoc. reflexivity. }
  destruct Hfirst as (rest & Hnew). exists rest. split; [exact Hnew |].
  unfold using_color_fb, using_depth_fb. fold fbregs cfg.
  split; [intros ->; reflexivity |].
  split; [intros ->; rewrite andb_false_r; reflexivity |].
  split.
  - intros ->. cbn. rewrite andb_true_r. auto.
  - intros -> Hoff. cbn [orb].
    replace (color_write_mask (blending info)) with 0;
      [apply andb_false_r |].
    subst info. unfold SyncDrawState_info. cbn. fold fbregs. fold cfg.
    rewrite Hoff. cbn. destruct (_ && _); reflexivity.
Qed.

(** [MakeSoftwareVertexLayout] declares one binding and eight
    attributes. *)
Lemma software_layout_counts :
  binding_count software_layout = 1 /\ attribute_count software_layout = 8.
Proof. split; reflexivity. Qed.

(** [DrawTriangles] has nothing to do on an empty batch. *)
Lemma DrawTriangles_empty (s : RasterizerVulkan) :
  vertex_batch s = [] -> DrawTriangles s = (tt, s).
Proof. intros H. unfold DrawTriangles. rewrite H. reflexivity. Qed.

(** X10: on a batch with vertices and a live framebuffer [DrawTriangles]
    selects the trivial vertex and geometry shaders and then binds one
    pipeline, waiting for it to be built, whose descriptor has the list
    topology and the software vertex layout of one binding and eight
    attributes, whatever topology and layout an accelerated draw left
    behind; it leaves the batch empty. *)
Theorem DrawTriangles_draws_batch (s : RasterizerVulkan) :
  let info0 :=
    set_vertex_layout software_layout
      (set_topology PipelineRegs.List (pipeline_info s)) in
  let info := SyncDrawState_info info0 in
  let fb_helper := GetFramebufferSurfaces (using_color_fb info) (using_depth_fb info) in
  let s' := snd (DrawTriangles s) in
  vertex_batch s <> [] ->
  Handle (Framebuffer_ fb_helper) <> 0 ->
  exists bound rest,
    events_since s s'
    = pipeline_cache_UseTrivialVertexShader
        :: pipeline_cache_UseTrivialGeometryShader :: rest
    /\ pipeline_binds rest = [(bound, true)]
    /\ topology (rasterization bound) = PipelineRegs.List
    /\ vertex_layout bound = software_layout
    /\ binding_count (vertex_layout bound) = 1
    /\ attribute_count (vertex_layout bound) = 8
    /\ vertex_batch s' = [].
Proof.
  intros info0 info fb_helper s' Hbatch Hlive. subst s'. unfold DrawTriangles.
  destruct (vertex_batch s) as [| v0 batch] eqn:Eb; [contradiction |].
  match goal with
  | |- context [Draw false false ?t] => set (t0 := t)
  end.
  assert (Ht0 : pipeline_info t0 = info0
                /\ trace t0 = trace s ++ [pipeline_cache_UseTrivialVertexShader;
                                          pipeline_cache_UseTrivialGeometryShader])
    by (subst t0; cbn; rewrite <- app_assoc; auto).
  destruct Ht0 as (Hinfo0 & Htrace0).
  pose proof (Draw_live_trace false false t0) as Hdraw. cbv zeta in Hdraw.
  rewrite Hinfo0 in Hdraw. fold info fb_helper in Hdraw. specialize (Hdraw Hlive).
  destruct Hdraw as (pre & post & Htr & Hpassive & Hbinds & Hpi & Hvb).
  destruct (Draw false false t0) as [r t1]. cbn [snd] in *.
  exists (draw_descriptor fb_helper info). eexists (pre ++ _ :: post).
  split; [apply events_since_app; rewrite Htr, Htrace0, <- app_assoc; reflexivity |].
  split.
  { destruct Hpassive as [Hb _]. unfold pipeline_binds in *.
    rewrite omap_app, Hb. cbn. exact Hbinds. }
  repeat split. exact Hvb.
Qed.

(** ** The calls of the vertex setup *)

(** The guest ranges flushed among some events, each as (address,
    size). *)
Definition flushes (tr : list Event) : list (Z * Z) :=
  omap (fun e =>
          match e with
          | res_cache_FlushRegion addr size => Some (addr, size)
          | _ => None
          end) tr.

(** A flush of the surface cache, or the report of a source range that
    does not fit. *)
Definition is_flush_or_report (e : Event) : bool :=
  match e with
  | res_cache_FlushRegion _ _ | LOG_ERROR_vertex_buffer_size _ _ _ => true
  | _ => false
  end.

Lemma flush_or_report_passive (l : list Event) :
  forallb is_flush_or_report l = true -> passive l.
Proof.
  induction l as [| e l IH]; intros H; [apply passive_nil |].
  cbn in H. apply andb_true_iff in H as [He Hl].
  apply (passive_app [e] l); [| apply IH; exact Hl].
  destruct e; try discriminate; split; reflexivity.
Qed.

(** One round of the loader loop, seen from outside. *)
Lemma setup_loader_trace (array_offset : Z) (acc : Z * RasterizerVulkan)
    (loader : PipelineRegs.AttributeLoader) :
  let s := snd acc in
  let s' := snd (setup_loader array_offset acc loader) in
  vertex_info s' = vertex_info s
  /\ vertex_batch s' = vertex_batch s
  /\ exists l,
       trace s' = trace s ++ l
       /\ forallb is_flush_or_report l = true
       /\ flushes l
          = if loader_skipped loader then []
            else [(loader_data_addr (vertex_info s) loader,
                   loader_data_size (vertex_info s) loader)].
Proof.
  destruct acc as [buffer_offset s]. unfold setup_loader, loader_skipped. cbn [snd].
  destruct ((PipelineRegs.component_count loader =? 0)
            || (PipelineRegs.byte_count loader =? 0)).
  { cbn [snd]. repeat split. exists []. rewrite app_nil_r. auto. }
  destruct (loader_components _ _ _) as [[o layout] enable].
  destruct (GetSize _ <? _); cbn; repeat split;
    eexists; rewrite <- ?app_assoc; (split; [reflexivity |]); auto.
Qed.

Lemma setup_loaders_trace (array_offset : Z)
    (loaders : list PipelineRegs.AttributeLoader) :
  forall acc : Z * RasterizerVulkan,
    let s := snd acc in
    let s' := snd (fold_left (setup_loader array_offset) loaders acc) in
    vertex_info s' = vertex_info s
    /\ vertex_batch s' = vertex_batch s
    /\ exists l,
         trace s' = trace s ++ l
         /\ forallb is_flush_or_report l = true
         /\ flushes l
            = map (fun loader =>
                     (loader_data_addr (vertex_info s) loader,
                      loader_data_size (vertex_info s) loader))
                (List.filter (fun loader => negb (loader_skipped loader)) loaders).
Proof.
  induction loaders as [| loader rest IH]; intros acc s s'.
  - subst s s'. cbn. repeat split. exists []. rewrite app_nil_r. auto.
  - subst s s'. cbn [fold_left].
    destruct (setup_loader_trace array_offset acc loader)
      as (Hvi & Hvb & l1 & Ht1 & Hf1 & Hfl1).
    destruct (IH (setup_loader array_offset acc loader))
      as (Hvi2 & Hvb2 & l2 & Ht2 & Hf2 & Hfl2).
    split; [congruence |]. split; [congruence |].
    exists (l1 ++ l2). split; [rewrite Ht2, Ht1, app_assoc; reflexivity |].
    split; [rewrite forallb_app, Hf1, Hf2; reflexivity |].
    unfold flushes in *. rewrite omap_app, Hfl1, Hfl2, Hvi.
    cbn [List.filter]. destruct (loader_skipped loader); reflexivity.
Qed.

Lemma SetupFixedAttribs_silent (s : RasterizerVulkan) :
  let s' := snd (SetupFixedAttribs s) in
  trace s' = trace s /\ vertex_info s' = vertex_info s
  /\ vertex_batch s' = vertex_batch s.
Proof.
  unfold SetupFixedAttribs.
  destruct (sb_Map _ _ _) as [[fixed_offset invalidate] st].
  destruct (fold_left (fixed_attrib _ _) _ _) as [[[offset data] layout] enable].
  repeat split.
Qed.

Lemma SetupVertexArray_trace (s : RasterizerVulkan) :
  let s' := snd (SetupVertexArray s) in
  vertex_batch s' = vertex_batch s
  /\ exists l,
       trace s' = trace s ++ l
       /\ forallb is_flush_or_report l = true
       /\ flushes l
          = map (fun loader =>
                   (loader_data_addr (vertex_info s) loader,
                    loader_data_size (vertex_info s) loader))
              (List.filter (fun loader => negb (loader_skipped loader))
                 (PipelineRegs.attribute_loaders vertex_attributes_regs)).
Proof.
  unfold SetupVertexArray.
  destruct (sb_Map _ _ _) as [[array_offset invalidate] st].
  match goal with
  | |- context [fold_left (setup_loader array_offset) ?ls (0, ?t)] =>
      destruct (setup_loaders_trace array_offset ls (0, t))
        as (Hvi & Hvb & l & Ht & Hf & Hfl);
        destruct (fold_left (setup_loader array_offset) ls (0, t)) as [buffer_offset s1]
  end.
  cbn [snd] in *.
  match goal with
  | |- context [SetupFixedAttribs ?t] =>
      destruct (SetupFixedAttribs_silent t) as (Ht2 & _ & Hvb2)
  end.
  rewrite Ht2, Hvb2. cbn. split; [exact Hvb |]. exists l. auto.
Qed.

(** X11: [SetupVertexArray] flushes the surface cache once for every
    attribute loader that is not skipped, in loader order, each over that
    loader's source range: from [base + data_offset + index_min *
    byte_count], for [byte_count] bytes per vertex of the index range.
    Apart from these flushes it only reports source ranges that do not
    fit. *)
Theorem SetupVertexArray_flushes (s : RasterizerVulkan) :
  let vi := vertex_info s in
  let base := PipelineRegs.GetPhysicalBaseAddress vertex_attributes_regs in
  let new := events_since s (snd (SetupVertexArray s)) in
  flushes new
  = map (fun loader =>
           (u32 (base + PipelineRegs.data_offset loader
                 + vs_input_index_min vi * PipelineRegs.byte_count loader),
            u32 (PipelineRegs.byte_count loader
                 * u32 (vs_input_index_max vi - vs_input_index_min vi + 1))))
      (List.filter
         (fun loader =>
            negb ((PipelineRegs.component_count loader =? 0)
                  || (PipelineRegs.byte_count loader =? 0)))
         (PipelineRegs.attribute_loaders vertex_attributes_regs))
  /\ forallb is_flush_or_report new = true.
Proof.
  intros vi base new.
  destruct (SetupVertexArray_trace s) as (_ & l & Ht & Hf & Hfl).
  subst new. rewrite (events_since_app _ _ l Ht). split; [exact Hfl | exact Hf].
Qed.

(** ** Accelerated draws that are turned down *)

(** [AccelerateDrawBatch], branch by branch. *)
Lemma AccelerateDrawBatch_cases (is_indexed : bool) (s : RasterizerVulkan) :
  let p := pipeline regs in
  let s0 :=
    set_pipeline_info
      (set_topology (PipelineRegs.triangle_topology p) (pipeline_info s)) s in
  let s1 :=
    snd (SetupVertexArray
           (set_vertex_info
              (AnalyzeVertexArray is_indexed (GetMinVertexStrideAlignment instance))
              s0)) in
  let layout := vertex_layout (pipeline_info s1) in
  let s2 := emit (pipeline_cache_UseProgrammableVertexShader layout) s1 in
  AccelerateDrawBatch is_indexed s
  = if match PipelineRegs.use_gs p with
       | PipelineRegs.No => false
       | PipelineRegs.Yes =>
           match PipelineRegs.gs_config_mode p with
           | PipelineRegs.Point =>
               negb (PipelineRegs.TriangleTopology_eqb
                       (PipelineRegs.triangle_topology p) PipelineRegs.Shader)
           | _ => true
           end
       end
    then (false, s)
    else if PipelineRegs.TriangleTopology_eqb (PipelineRegs.triangle_topology p)
              PipelineRegs.Fan
            && negb (IsTriangleFanSupported instance)
    then (false, emit LOG_DEBUG_triangle_fan s0)
    else if negb (UseProgrammableVertexShader layout) then (false, s2)
    else
      match PipelineRegs.use_gs p with
      | PipelineRegs.Yes => (false, emit LOG_ERROR_geometry_shader s2)
      | PipelineRegs.No =>
          if lighting_disable regs || IsFragmentShaderBarycentricSupported instance
          then Draw true is_indexed (emit pipeline_cache_UseTrivialGeometryShader s2)
          else if UseFixedGeometryShader
               then Draw true is_indexed (emit pipeline_cache_UseFixedGeometryShader s2)
               else (false, emit pipeline_cache_UseFixedGeometryShader s2)
      end.
Proof.
  intros p s0 s1 layout s2. unfold AccelerateDrawBatch. fold p.
  destruct (match PipelineRegs.use_gs p with
            | PipelineRegs.No => false
            | PipelineRegs.Yes => _
            end); [reflexivity |].
  unfold bind at 1. unfold modify at 1. fold s0.
  destruct (PipelineRegs.TriangleTopology_eqb _ _ && negb _); [reflexivity |].
  unfold bind at 1. unfold modify at 1. unfold bind at 1.
  subst s2 layout s1.
  destruct (SetupVertexArray _) as [[] s1]. cbn [snd].
  unfold bind at 1. unfold SetupVertexShader at 1.
  destruct (UseProgrammableVertexShader (vertex_layout (pipeline_info s1)));
    cbn [negb]; [| reflexivity].
  unfold SetupGeometryShader. fold p.
  destruct (PipelineRegs.use_gs p); [| reflexivity].
  destruct (lighting_disable regs || IsFragmentShaderBarycentricSupported instance);
    [reflexivity |].
  unfold bind, modify, ret. destruct UseFixedGeometryShader; reflexivity.
Qed.

(** X12: [AccelerateDrawBatch] returns true exactly when no geometry
    shader is in use, the topology is not a triangle fan the device lacks,
    the pipeline cache accepts the vertex layout the vertex setup produced,
    and either the trivial geometry shader is used (lighting disabled or
    barycentric support) or the cache provides the fixed one.  In
    particular a draw with a geometry shader is never accelerated, even
    in point mode with shader topology: the vertex setup then runs and the
    draw is turned down afterwards. *)
Theorem AccelerateDrawBatch_result (is_indexed : bool) (s : RasterizerVulkan) :
  let p := pipeline regs in
  let s0 :=
    set_vertex_info
      (AnalyzeVertexArray is_indexed (GetMinVertexStrideAlignment instance))
      (set_pipeline_info
         (set_topology (PipelineRegs.triangle_topology p) (pipeline_info s)) s) in
  let layout := vertex_layout (pipeline_info (snd (SetupVertexArray s0))) in
  fst (AccelerateDrawBatch is_indexed s) = true
  <-> PipelineRegs.use_gs p = PipelineRegs.No
      /\ ~ (PipelineRegs.triangle_topology p = PipelineRegs.Fan
            /\ IsTriangleFanSupported instance = false)
      /\ UseProgrammableVertexShader layout = true
      /\ (lighting_disable regs = true
          \/ IsFragmentShaderBarycentricSupported instance = true
          \/ UseFixedGeometryShader = true).
Proof.
  intros p s0 layout. rewrite AccelerateDrawBatch_cases. fold p. fold s0. fold layout.
  assert (Hfan : PipelineRegs.TriangleTopology_eqb (PipelineRegs.triangle_topology p)
                   PipelineRegs.Fan = true
                 <-> PipelineRegs.triangle_topology p = PipelineRegs.Fan)
    by (destruct (PipelineRegs.triangle_topology p); cbn; split; congruence).
  destruct (PipelineRegs.use_gs p) eqn:Egs.
  - destruct (PipelineRegs.TriangleTopology_eqb _ _ && negb _) eqn:Efan.
    { cbn [fst]. apply andb_true_iff in Efan as [Et Es].
      apply Hfan in Et. apply negb_true_iff in Es.
      split; [discriminate | intros (_ & H & _); exfalso; apply H; split; assumption]. }
    assert (Hnofan : ~ (PipelineRegs.triangle_topology p = PipelineRegs.Fan
                        /\ IsTriangleFanSupported instance = false)).
    { intros [Ht Hs]. apply Hfan in Ht. rewrite Ht, Hs in Efan. discriminate. }
    destruct (UseProgrammableVertexShader layout); cbn [negb fst].
    2: { split; [discriminate | intros (_ & _ & H & _); discriminate]. }
    destruct (lighting_disable regs); cbn [orb].
    { rewrite Draw_result.
      split; [intros _; split; [reflexivity | split; [exact Hnofan | split; auto]]
             | reflexivity]. }
    destruct (IsFragmentShaderBarycentricSupported instance).
    { rewrite Draw_result.
      split; [intros _; split; [reflexivity | split; [exact Hnofan | split; auto]]
             | reflexivity]. }
    destruct UseFixedGeometryShader.
    { rewrite Draw_result.
      split; [intros _; split; [reflexivity | split; [exact Hnofan | split; auto]]
             | reflexivity]. }
    cbn [fst]. split; [discriminate |].
    intros (_ & _ & _ & [H | [H | H]]); discriminate.
  - assert (Hfalse : forall (b : bool) (x y z w : bool * RasterizerVulkan),
              fst x = false -> fst y = false -> fst z = false -> fst w = false ->
              forall c d : bool,
                fst (if b then x else if c then y else if d then z else w) = false).
    { intros b x y z w Hx Hy Hz Hw c d. destruct b, c, d; assumption. }
    rewrite Hfalse by reflexivity. split; [discriminate | intros [H _]; discriminate].
Qed.

(** X13: when [AccelerateDrawBatch] returns false it has bound no
    pipeline and recorded nothing on the scheduler, and the vertex batch is
    the one it was: the caller can fall back to the software path without
    anything having been drawn. *)
Theorem AccelerateDrawBatch_failure_is_passive (is_indexed : bool)
    (s : RasterizerVulkan) :
  let r := AccelerateDrawBatch is_indexed s in
  fst r = false ->
  passive (events_since s (snd r)) /\ vertex_batch (snd r) = vertex_batch s.
Proof.
  intros r. subst r. rewrite AccelerateDrawBatch_cases.
  match goal with
  | |- context [SetupVertexArray ?t] =>
      destruct (SetupVertexArray_trace t) as (Hvb & l & Ht & Hf & _);
        set (s1 := snd (SetupVertexArray t)) in *
  end.
  cbn [trace vertex_batch set_vertex_info set_pipeline_info] in Ht, Hvb.
  apply flush_or_report_passive in Hf.
  assert (Hafter : forall e,
             passive [e] ->
             passive (events_since s
                        (emit e
                           (emit (pipeline_cache_UseProgrammableVertexShader
                                    (vertex_layout (pipeline_info s1))) s1)))
             /\ vertex_batch
                  (emit e
                     (emit (pipeline_cache_UseProgrammableVertexShader
                              (vertex_layout (pipeline_info s1))) s1))
                = vertex_batch s).
  { intros e He. split; [| exact Hvb].
    rewrite (events_since_app s _ (l ++ [pipeline_cache_UseProgrammableVertexShader
                                           (vertex_layout (pipeline_info s1))] ++ [e])).
    - apply passive_app; [exact Hf |]. apply passive_app; [split; reflexivity | exact He].
    - cbn. rewrite Ht, <- !app_assoc. reflexivity. }
  destruct (match PipelineRegs.use_gs (pipeline regs) with
            | PipelineRegs.No => false
            | PipelineRegs.Yes => _
            end).
  { intros _. cbn [snd]. unfold events_since. rewrite drop_all. auto using passive_nil. }
  destruct (PipelineRegs.TriangleTopology_eqb _ _ && negb _).
  { intros _. cbn [snd]. split; [| reflexivity].
    rewrite (events_since_app s _ [LOG_DEBUG_triangle_fan]) by reflexivity.
    split; reflexivity. }
  destruct (negb (UseProgrammableVertexShader _)).
  { intros _. cbn [snd]. split; [| exact Hvb].
    rewrite (events_since_app s _ (l ++ [pipeline_cache_UseProgrammableVertexShader
                                           (vertex_layout (pipeline_info s1))])).
    - apply passive_app; [exact Hf | split; reflexivity].
    - cbn. rewrite Ht, <- !app_assoc. reflexivity. }
  destruct (PipelineRegs.use_gs (pipeline regs)).
  - destruct (lighting_disable regs || IsFragmentShaderBarycentricSupported instance).
    { rewrite Draw_result. discriminate. }
    destruct UseFixedGeometryShader.
    { rewrite Draw_result. discriminate. }
    intros _. cbn [snd]. apply Hafter. split; reflexivity.
  - intros _. cbn [snd]. apply Hafter. split; reflexivity.
Qed.


(** ** The bindings of the texture units *)

(** X14: every draw refreshes the binding of every texture unit.  For
    each unit of the texturing registers [SyncTextureUnits] makes exactly
    one image-sampler binding at the unit's binding point, except for an
    enabled shadow cube on unit 0, which gets six, one per face; and it
    binds nothing at a binding point beyond the units. *)
Theorem SyncTextureUnits_binds_every_unit (fb : Framebuffer) (s : RasterizerVulkan)
    (i : nat) (texture : TexturingRegs.FullTextureConfig) :
  let textures := TexturingRegs.GetTextures (texturing regs) in
  let new := events_since s (snd (SyncTextureUnits fb s)) in
  let shadow_cube :=
    Nat.eqb i 0 && TexturingRegs.enabled texture
    && match TexturingRegs.type (TexturingRegs.config texture) with
       | TexturingRegs.ShadowCube => true
       | _ => false
       end in
  textures !! i = Some texture ->
  length (image_sampler_bindings (Z.of_nat i) new) = (if shadow_cube then 6 else 1)%nat
  /\ forall j, Z.of_nat (length textures) <= j -> image_sampler_bindings j new = [].
Proof.
  intros textures new shadow_cube Hi.
  destruct (SyncTextureUnits_events fb s) as (l & Hrun & _ & _ & Hown & Hout).
  subst new. rewrite Hrun. cbn [snd]. rewrite events_since_emits. split.
  - rewrite (Hown i texture Hi). subst shadow_cube. unfold unit_bindings.
    destruct (TexturingRegs.enabled texture); cbn [negb andb];
      [| rewrite andb_false_r; reflexivity].
    destruct i as [| i].
    + cbn [Z.of_nat Z.eqb Nat.eqb andb].
      destruct (TexturingRegs.type (TexturingRegs.config texture)); reflexivity.
    + destruct (Z.eqb_spec (Z.of_nat (S i)) 0); [lia | reflexivity].
  - intros j Hj. apply Hout. right. exact Hj.
Qed.

(** X15: the view a plain texture unit is bound to.  A disabled unit is
    bound to the null surface and the null sampler.  An enabled unit that
    is not one of the special configurations of unit 0 is bound, with the
    sampler of its configuration, to the image view of the surface the
    cache resolves for it, unless that view is the colour view of the
    framebuffer being rendered to: then it is bound to the surface's copy
    view, so that the draw never samples the view it renders into. *)
Theorem SyncTextureUnits_plain_unit (fb : Framebuffer) (s : RasterizerVulkan)
    (i : nat) (texture : TexturingRegs.FullTextureConfig) :
  let cfg := TexturingRegs.config texture in
  let surface := GetTextureSurface texture in
  let new := events_since s (snd (SyncTextureUnits fb s)) in
  let bound := image_sampler_bindings (Z.of_nat i) new in
  TexturingRegs.GetTextures (texturing regs) !! i = Some texture ->
  (TexturingRegs.enabled texture = false ->
   bound = [(Acquire Texture, 0, ImageView null_surface, null_sampler)])
  /\ (TexturingRegs.enabled texture = true ->
      i <> 0%nat
      \/ TexturingRegs.type cfg = TexturingRegs.Texture2D
      \/ TexturingRegs.type cfg = TexturingRegs.Projection2D
      \/ TexturingRegs.type cfg = TexturingRegs.Disabled ->
      exists view,
        bound = [(Acquire Texture, 0, view, GetSampler cfg)]
        /\ (ImageView_Color fb = ImageView surface -> view = CopyImageView surface)
        /\ (ImageView_Color fb <> ImageView surface -> view = ImageView surface)
        /\ (CopyImageView surface <> ImageView_Color fb ->
            view <> ImageView_Color fb)).
Proof.
  intros cfg surface new bound Hi.
  destruct (SyncTextureUnits_events fb s) as (l & Hrun & _ & _ & Hown & _).
  subst bound new. rewrite Hrun. cbn [snd]. rewrite events_since_emits.
  rewrite (Hown i texture Hi). unfold unit_bindings. fold cfg surface. split.
  - intros ->. reflexivity.
  - intros -> Hplain. cbn [negb].
    exists (if ImageView_Color fb =? ImageView surface
            then CopyImageView surface else ImageView surface).
    split.
    + destruct (Z.eqb_spec (Z.of_nat i) 0) as [E | E]; [| reflexivity].
      destruct Hplain as [H | [H | [H | H]]]; [lia | | |]; rewrite H; reflexivity.
    + destruct (Z.eqb_spec (ImageView_Color fb) (ImageView surface));
        repeat split; intros; congruence.
Qed.

(** X16: the shadow configurations of texture unit 0.  An enabled
    Shadow2D unit is bound to the storage view of its surface, and that
    surface is tagged as a shadow map.  An enabled ShadowCube unit is bound
    six times with one sampler: array index [f] of binding 0 takes the
    storage view of the surface resolved at the physical address of face
    [f], in the order +X, -X, +Y, -Y, +Z, -Z, and these six surfaces are
    the ones tagged.  No other configuration tags a surface. *)
Theorem SyncTextureUnits_shadow_unit (fb : Framebuffer) (s : RasterizerVulkan)
    (texture : TexturingRegs.FullTextureConfig)
    (rest : list TexturingRegs.FullTextureConfig) :
  let cfg := TexturingRegs.config texture in
  let face_surface face :=
    GetTextureSurface_info
      {| info_config := cfg;
         info_format := TexturingRegs.format texture;
         physical_address :=
           TexturingRegs.GetCubePhysicalAddress (texturing regs) face |} in
  let new := events_since s (snd (SyncTextureUnits fb s)) in
  TexturingRegs.GetTextures (texturing regs) = texture :: rest ->
  (TexturingRegs.enabled texture = true ->
   TexturingRegs.type cfg = TexturingRegs.Shadow2D ->
   image_sampler_bindings 0 new
   = [(Acquire Texture, 0, StorageView (GetTextureSurface texture), GetSampler cfg)]
   /\ shadow_maps new = [GetTextureSurface texture])
  /\ (TexturingRegs.enabled texture = true ->
      TexturingRegs.type cfg = TexturingRegs.ShadowCube ->
      image_sampler_bindings 0 new
      = map (fun face =>
               (Acquire Texture, TexturingRegs.CubeFace_index face,
                StorageView (face_surface face), GetSampler cfg))
          [TexturingRegs.PositiveX; TexturingRegs.NegativeX; TexturingRegs.PositiveY;
           TexturingRegs.NegativeY; TexturingRegs.PositiveZ; TexturingRegs.NegativeZ]
      /\ shadow_maps new
         = map face_surface
             [TexturingRegs.PositiveX; TexturingRegs.NegativeX;
              TexturingRegs.PositiveY; TexturingRegs.NegativeY;
              TexturingRegs.PositiveZ; TexturingRegs.NegativeZ])
  /\ (TexturingRegs.enabled texture = false
      \/ (TexturingRegs.type cfg <> TexturingRegs.Shadow2D
          /\ TexturingRegs.type cfg <> TexturingRegs.ShadowCube) ->
      shadow_maps new = []).
Proof.
  intros cfg face_surface new Htex.
  destruct (SyncTextureUnits_events fb s) as (l & Hrun & _ & Hsm & Hown & _).
  rewrite Htex in Hsm, Hown. specialize (Hown 0%nat texture eq_refl).
  subst new. rewrite Hrun. cbn [snd]. rewrite events_since_emits.
  change (Z.of_nat 0) with 0 in Hown. rewrite Hown, Hsm.
  unfold unit_bindings, unit_shadow_maps. fold cfg. cbn [Z.eqb].
  split; [| split].
  - intros -> ->. split; reflexivity.
  - intros -> ->. split; reflexivity.
  - intros [-> | [H1 H2]]; [reflexivity |].
    rewrite andb_true_r. destruct (TexturingRegs.enabled texture); [| reflexivity].
    destruct (TexturingRegs.type cfg); congruence.
Qed.


(** ** How the uploads fill their buffers *)

(** The bytes a block takes in its buffer: the aligned size of a uniform
    block, a table's entries times the size of one. *)
Definition block_size (b : Block) : Z :=
  match b with
  | VSPicaUniformData_block => uniform_size_aligned_vs_pica
  | VSUniformData_block => uniform_size_aligned_vs
  | FSUniformData_block _ => uniform_size_aligned_fs
  | lighting_lut _ => lighting_lut_size * sizeof_Vec2f
  | fog_lut => fog_lut_size * sizeof_Vec2f
  | proctex_noise_table | proctex_color_map_table | proctex_alpha_map_table =>
      proctex_value_lut_size * sizeof_Vec2f
  | proctex_color_table | proctex_color_diff_table =>
      proctex_color_table_size * sizeof_Vec4f
  end.

(** Blocks stored back to back from byte [at_] on. *)
Fixpoint packed (at_ : Z) (blocks : list Block) : list (Z * Block) :=
  match blocks with
  | [] => []
  | b :: rest => (at_, b) :: packed (at_ + block_size b) rest
  end.

Fixpoint packed_size (blocks : list Block) : Z :=
  match blocks with
  | [] => 0
  | b :: rest => block_size b + packed_size rest
  end.

Lemma packed_app (at_ : Z) (l1 l2 : list Block) :
  packed at_ (l1 ++ l2) = packed at_ l1 ++ packed (at_ + packed_size l1) l2.
Proof.
  revert at_. induction l1 as [| b l1 IH]; intros at_; cbn.
  - rewrite Z.add_0_r. reflexivity.
  - rewrite IH. do 3 f_equal. lia.
Qed.

Lemma packed_size_app (l1 l2 : list Block) :
  packed_size (l1 ++ l2) = packed_size l1 + packed_size l2.
Proof. induction l1 as [| b l1 IH]; cbn; [reflexivity | rewrite IH; lia]. Qed.

Lemma packed_size_lighting (bits : list Z) :
  packed_size (map lighting_lut bits) = 2048 * Z.of_nat (length bits).
Proof.
  induction bits as [| c bits IH]; [reflexivity |].
  cbn [map packed_size length block_size]. rewrite IH.
  unfold lighting_lut_size, sizeof_Vec2f. lia.
Qed.

(** The dirty bits from [lo] on lie in [[lo, 32)]. *)
Lemma dirty_bits_from_range (lo d k : Z) :
  In k (dirty_bits_from lo d) -> lo <= k < 32 /\ Z.testbit d k = true.
Proof.
  unfold dirty_bits_from. intros H. apply List.filter_In in H as [H Hbit].
  apply list_elem_of_In, elem_of_seqZ in H. split; [lia | exact Hbit].
Qed.

(** A word below [2 ^ n] has at most [n] dirty bits. *)
Lemma dirty_bits_count (n d : Z) :
  0 <= n <= 32 -> 0 <= d < 2 ^ n ->
  Z.of_nat (length (dirty_bits_from 0 d)) <= n.
Proof.
  intros Hn Hd. unfold dirty_bits_from.
  replace (32 - 0) with (n + (32 - n)) by lia.
  rewrite seqZ_app, List.filter_app by lia.
  replace (List.filter (Z.testbit d) (seqZ (0 + n) (32 - n))) with (@nil Z).
  - rewrite app_nil_r.
    pose proof (List.filter_length_le (Z.testbit d) (seqZ 0 n)) as Hle.
    rewrite length_seqZ in Hle. lia.
  - symmetry. apply filter_none. intros k Hk.
    apply list_elem_of_In, elem_of_seqZ in Hk.
    rewrite <- (Z.mod_small d (2 ^ n)) by lia.
    apply Z.mod_pow2_bits_high. lia.
Qed.

(** The [while] loop of [SyncAndUploadLUTsLF] in full: it stores the
    dirty tables back to back, lowest index first, records for each the
    texel offset it was stored at, and leaves no table dirty. *)
Lemma while_lut_dirty_layout (offset : Z) (fuel : nat) :
  forall (lo : Z) (acc : Z * RasterizerVulkan),
    let d := lighting_lut_dirty (pica (snd acc)) in
    let bits := dirty_bits_from lo d in
    let arr := lighting_lut_offset (fs_data (snd acc)) in
    let r := while_lut_dirty fuel offset acc in
    let arr' := lighting_lut_offset (fs_data (snd r)) in
    0 <= lo -> bits_within lo d -> 32 - lo <= Z.of_nat fuel ->
    sb_content (texture_lf_buffer (snd r))
    = sb_content (texture_lf_buffer (snd acc))
        ++ packed (offset + fst acc) (map lighting_lut bits)
    /\ fst r = fst acc + packed_size (map lighting_lut bits)
    /\ fs_data_dirty (snd r)
       = match bits with [] => fs_data_dirty (snd acc) | _ => true end
    /\ fog_lut_offset (fs_data (snd r)) = fog_lut_offset (fs_data (snd acc))
    /\ length arr' = length arr
    /\ (forall pos i,
          In (pos, lighting_lut i) (packed (offset + fst acc) (map lighting_lut bits)) ->
          (Z.to_nat i < length arr)%nat ->
          arr' !! Z.to_nat i = Some (pos / sizeof_Vec2f))
    /\ (forall i, 0 <= i -> ~ In i bits -> arr' !! Z.to_nat i = arr !! Z.to_nat i).
Proof.
  induction fuel as [| fuel IH]; intros lo acc d bits arr r arr' Hlo Hin Hfuel.
  - assert (Hd : d = 0) by (apply (bits_within_zero lo); [lia | exact Hin]).
    subst arr' r bits. cbn [while_lut_dirty]. fold d. rewrite Hd, dirty_bits_from_zero.
    cbn. rewrite app_nil_r, Z.add_0_r.
    repeat split; first [reflexivity | intros ? ? [] | (intros; reflexivity)].
  - subst arr' r. cbn [while_lut_dirty]. fold d.
    destruct (Z.eq_dec d 0) as [Hd | Hd].
    + subst bits. rewrite Hd, dirty_bits_from_zero. cbn.
      rewrite app_nil_r, Z.add_0_r.
    repeat split; first [reflexivity | intros ? ? [] | (intros; reflexivity)].
    + unfold truthy. destruct (Z.eqb_spec d 0) as [E | _]; [contradiction |].
      cbn [negb].
      destruct (bits_within_step lo d Hin Hd) as (Hc & _ & _ & Hin').
      assert (Hbits : bits
                      = countr_zero d
                          :: dirty_bits_from (countr_zero d + 1)
                               (Z.land d (Z.lnot (Z.shiftl 1 (countr_zero d)))))
        by (apply dirty_bits_from_step; assumption).
      set (c := countr_zero d) in *.
      set (d' := Z.land d (Z.lnot (Z.shiftl 1 c))) in *.
      destruct acc as [bytes_used s]. cbn [fst snd] in *.
      assert (Hidx : Z.to_nat (4 * (c / 4) + c mod 4) = Z.to_nat c)
        by (f_equal; pose proof (Z.div_mod c 4); lia).
      assert (Hstep :
                let acc1 := sync_lighting_lut offset (bytes_used, s) in
                lighting_lut_dirty (pica (snd acc1)) = d'
                /\ fst acc1 = bytes_used + block_size (lighting_lut c)
                /\ sb_content (texture_lf_buffer (snd acc1))
                   = sb_content (texture_lf_buffer s)
                       ++ [(offset + bytes_used, lighting_lut c)]
                /\ fs_data_dirty (snd acc1) = true
                /\ fog_lut_offset (fs_data (snd acc1)) = fog_lut_offset (fs_data s)
                /\ lighting_lut_offset (fs_data (snd acc1))
                   = <[Z.to_nat c := (offset + bytes_used) / sizeof_Vec2f]>
                       (lighting_lut_offset (fs_data s))).
      { cbn. fold d c. rewrite Hidx. repeat split. }
      specialize (IH (c + 1) (sync_lighting_lut offset (bytes_used, s))).
      cbv zeta in IH, Hstep.
      destruct (sync_lighting_lut offset (bytes_used, s)) as [b1 s1].
      cbn [fst snd] in *.
      destruct Hstep as (Hd1 & Hb1 & Hc1 & Hdirty1 & Hfog1 & Harr1).
      subst b1. rewrite Hd1, Hc1, Hdirty1, Hfog1, Harr1 in IH.
      destruct IH as (Hcontent & Hfst & Hdirty & Hfog & Hlen & Hrec & Hkeep);
        [lia | exact Hin' | lia |].
      rewrite length_insert in *.
      subst bits. rewrite Hbits. cbn [map packed packed_size].
      split; [rewrite Hcontent, <- app_assoc, Z.add_assoc; reflexivity |].
      split; [rewrite Hfst; lia |].
      split; [destruct (dirty_bits_from (c + 1) d'); assumption |].
      split; [exact Hfog |]. split; [exact Hlen |]. split.
      * intros pos i [Hhead | Htail] Hi.
        -- injection Hhead as <- <-.
           rewrite Hkeep.
           ++ apply list_lookup_insert_eq. exact Hi.
           ++ lia.
           ++ intros Hmem. apply dirty_bits_from_range in Hmem. lia.
        -- apply Hrec; [| exact Hi]. rewrite Z.add_assoc. exact Htail.
      * intros i Hi Hnot. rewrite Hkeep.
        -- apply list_lookup_insert_ne. intros E. apply Hnot. left. lia.
        -- exact Hi.
        -- intros Hmem. apply Hnot. right. exact Hmem.
Qed.


Lemma packed_In (at_ : Z) (blocks : list Block) (pos : Z) (b : Block) :
  In (pos, b) (packed at_ blocks) -> In b blocks.
Proof.
  revert at_. induction blocks as [| b0 blocks IH]; intros at_ H; [exact H |].
  cbn in H. destruct H as [H | H].
  - injection H as _ <-. left. reflexivity.
  - right. apply (IH _ H).
Qed.

(** [SyncAndUploadLUTsLF] past its early return. *)
Lemma SyncAndUploadLUTsLF_layout (s : RasterizerVulkan) :
  let mapped := sb_Map (sb_state (texture_lf_buffer s)) LUTsLF_max_size sizeof_Vec4f in
  let offset := fst (fst mapped) in
  let invalidate := snd (fst mapped) in
  let d := if invalidate then LutAllDirty else lighting_lut_dirty (pica s) in
  let fog := invalidate || fog_lut_dirty (pica s) in
  let tables :=
    map lighting_lut (dirty_bits_from 0 d) ++ (if fog then [fog_lut] else []) in
  let s' := snd (SyncAndUploadLUTsLF s) in
  truthy (lighting_lut_dirty (pica s)) || fog_lut_dirty (pica s) = true ->
  0 <= NumLightingSampler <= 32 ->
  0 <= lighting_lut_dirty (pica s) < 2 ^ NumLightingSampler ->
  sb_content (texture_lf_buffer s')
  = sb_content (texture_lf_buffer s) ++ packed offset tables
  /\ sb_state (texture_lf_buffer s') = sb_Commit (snd mapped) (packed_size tables)
  /\ 0 < packed_size tables <= LUTsLF_max_size
  /\ lighting_lut_dirty (pica s') = 0
  /\ fog_lut_dirty (pica s') = false
  /\ fs_data_dirty s' = true
  /\ (forall pos i,
        In (pos, lighting_lut i) (packed offset tables) ->
        (Z.to_nat i < length (lighting_lut_offset (fs_data s)))%nat ->
        lighting_lut_offset (fs_data s') !! Z.to_nat i = Some (pos / sizeof_Vec2f))
  /\ (forall pos,
        In (pos, fog_lut) (packed offset tables) ->
        fog_lut_offset (fs_data s') = pos / sizeof_Vec2f).
Proof.
  intros mapped offset invalidate d fog tables s' Hgate HN Hd.
  assert (Hpow : 2 ^ NumLightingSampler <= 2 ^ 32) by (apply Z.pow_le_mono_r; lia).
  assert (Hwithin : bits_within 0 d).
  { subst d. destruct invalidate; [apply LutAllDirty_bits; exact HN |].
    apply bits_within_u32. lia. }
  assert (Hcount : Z.of_nat (length (dirty_bits_from 0 d)) <= NumLightingSampler).
  { subst d. destruct invalidate.
    - unfold LutAllDirty. rewrite dirty_bits_ones, length_seqZ by exact HN. lia.
    - apply dirty_bits_count; assumption. }
  assert (Hsome : fog = false -> dirty_bits_from 0 d <> []).
  { subst fog d. intros Hfog. apply orb_false_iff in Hfog as [-> Hfog].
    rewrite Hfog, orb_false_r in Hgate. apply truthy_true in Hgate.
    rewrite (dirty_bits_from_step 0) by (try assumption; lia). discriminate. }
  subst s'. unfold SyncAndUploadLUTsLF.
  replace (negb (truthy (lighting_lut_dirty (pica s))) && negb (fog_lut_dirty (pica s)))
    with false
    by (rewrite <- negb_orb, Hgate; reflexivity).
  fold mapped. subst tables fog d offset invalidate.
  destruct mapped as [[offset invalidate] st]. cbn [fst snd] in *.
  match goal with
  | |- context [while_lut_dirty 32 offset (0, ?t)] => set (s1 := t)
  end.
  assert (H1 : lighting_lut_dirty (pica s1)
               = (if invalidate then LutAllDirty else lighting_lut_dirty (pica s))
               /\ fog_lut_dirty (pica s1) = invalidate || fog_lut_dirty (pica s)
               /\ sb_content (texture_lf_buffer s1) = sb_content (texture_lf_buffer s)
               /\ sb_state (texture_lf_buffer s1) = st
               /\ fs_data s1 = fs_data s)
    by (subst s1; destruct invalidate; repeat split).
  destruct H1 as (Hd1 & Hfog1 & Hc1 & Hst1 & Hfs1).
  pose proof (while_lut_dirty_spec offset 32 0 (0, s1)) as Hspec.
  pose proof (while_lut_dirty_layout offset 32 0 (0, s1)) as Hlay.
  cbv zeta in Hspec, Hlay. cbn [fst snd] in Hspec, Hlay.
  rewrite Hd1 in Hspec, Hlay.
  destruct Hspec as (Hzero & Hfog2 & Hst2 & _); [lia | exact Hwithin | lia |].
  destruct Hlay as (Hcontent & Hbytes & Hdirty & Hfogo & Hlen & Hrec & _);
    [lia | exact Hwithin | lia |].
  rewrite Hfs1 in Hlen, Hrec. rewrite Hc1 in Hcontent. rewrite Hst1 in Hst2.
  rewrite Hfog1 in Hfog2. rewrite Z.add_0_r in Hcontent, Hrec.
  rewrite Z.add_0_l, packed_size_lighting in Hbytes.
  clearbody s1.
  destruct (while_lut_dirty 32 offset (0, s1)) as [bytes_used s2]. cbn [fst snd] in *.
  set (bits := dirty_bits_from 0
                 (if invalidate then LutAllDirty else lighting_lut_dirty (pica s))) in *.
  rewrite Hfog2, packed_app, packed_size_app, packed_size_lighting.
  unfold LUTsLF_max_size, sizeof_Vec2f in *.
  destruct (invalidate || fog_lut_dirty (pica s)) eqn:Efog.
  - cbn [packed packed_size block_size]. unfold fog_lut_size, sizeof_Vec2f.
    cbn [snd texture_lf_buffer set_texture_lf_buffer sb_content sb_state store_block
           set_pica set_fs_data_dirty set_fs_data pica fs_data fs_data_dirty
           lighting_lut_dirty fog_lut_dirty set_fog_lut_dirty lighting_lut_offset
           fog_lut_offset set_fog_lut_offset].
    assert (Hu : 0 <= bytes_used + 128 * 8 < 2 ^ 32)
      by (clear - Hbytes Hcount HN; lia).
    rewrite u32_small by exact Hu. rewrite Hcontent, Hst2, <- app_assoc, Hbytes.
    split; [reflexivity |]. split; [f_equal; clear; lia |].
    split; [clear - Hcount HN; lia |].
    split; [exact Hzero |]. do 2 (split; [reflexivity |]). split.
    + intros pos i Hin Hi. apply in_app_or in Hin as [Hin | Hin].
      * apply Hrec; assumption.
      * cbn in Hin. destruct Hin as [Hin | []]. discriminate.
    + intros pos Hin. apply in_app_or in Hin as [Hin | Hin].
      * apply packed_In, in_map_iff in Hin as (x & Hx & _). discriminate.
      * cbn in Hin. destruct Hin as [Hin | []]. injection Hin as <-. reflexivity.
  - cbn [packed packed_size].
    cbn [snd texture_lf_buffer set_texture_lf_buffer sb_content sb_state
           pica fs_data fs_data_dirty].
    assert (Hu : 0 <= bytes_used < 2 ^ 32) by (clear - Hbytes Hcount HN; lia).
    rewrite u32_small by exact Hu. rewrite Hcontent, Hst2, app_nil_r, Hbytes, Z.add_0_r.
    specialize (Hsome eq_refl).
    split; [reflexivity |]. split; [reflexivity |].
    split; [destruct bits; [contradiction | cbn [length] in *; clear - Hcount HN; lia] |].
    split; [exact Hzero |]. split; [exact Hfog2 |].
    split; [rewrite Hdirty; destruct bits; [contradiction | reflexivity] |]. split.
    + intros pos i Hin Hi. apply Hrec; assumption.
    + intros pos Hin.
      apply packed_In, in_map_iff in Hin as (x & Hx & _). discriminate.
Qed.

(** X17: past its early return and with dirty bits of existing tables
    only, [SyncAndUploadLUTsLF] stores the dirty lighting tables back to
    back from the mapped offset, lowest index first and 2048 bytes each,
    and the fog table, 1024 bytes, after them if it is dirty; after a wrap
    these are all the tables.  It commits exactly the bytes it stored,
    which are more than none and never more than the
    [NumLightingSampler * 2048 + 1024] bytes it mapped, and it leaves no
    table dirty. *)
Theorem SyncAndUploadLUTsLF_packs (s : RasterizerVulkan) :
  let mapped := sb_Map (sb_state (texture_lf_buffer s)) LUTsLF_max_size sizeof_Vec4f in
  let offset := fst (fst mapped) in
  let invalidate := snd (fst mapped) in
  let d := if invalidate then LutAllDirty else lighting_lut_dirty (pica s) in
  let fog := invalidate || fog_lut_dirty (pica s) in
  let tables :=
    map lighting_lut (dirty_bits_from 0 d) ++ (if fog then [fog_lut] else []) in
  let s' := snd (SyncAndUploadLUTsLF s) in
  truthy (lighting_lut_dirty (pica s)) || fog_lut_dirty (pica s) = true ->
  0 <= NumLightingSampler <= 32 ->
  0 <= lighting_lut_dirty (pica s) < 2 ^ NumLightingSampler ->
  sb_content (texture_lf_buffer s')
  = sb_content (texture_lf_buffer s) ++ packed offset tables
  /\ sb_state (texture_lf_buffer s') = sb_Commit (snd mapped) (packed_size tables)
  /\ 0 < packed_size tables <= NumLightingSampler * 2048 + 1024
  /\ lighting_lut_dirty (pica s') = 0
  /\ fog_lut_dirty (pica s') = false.
Proof.
  intros mapped offset invalidate d fog tables s' Hgate HN Hd.
  destruct (SyncAndUploadLUTsLF_layout s Hgate HN Hd)
    as (Hcontent & Hstate & Hsize & Hzero & Hfog & _).
  assert (Hmax : LUTsLF_max_size = NumLightingSampler * 2048 + 1024)
    by (unfold LUTsLF_max_size, sizeof_Vec2f; clear; lia).
  split; [exact Hcontent |]. split; [exact Hstate |].
  split; [| split; assumption].
  destruct Hsize as [Hlo Hhi]. split; [exact Hlo | rewrite <- Hmax; exact Hhi].
Qed.

(** X18: every table [SyncAndUploadLUTsLF] stores is recorded for the
    fragment shader at the texel offset it was stored at: the entry of a
    lighting table in [lighting_lut_offset], and [fog_lut_offset] for the
    fog table, hold the byte position divided by the size of a two-float
    texel; and the fragment uniforms are flagged dirty, so that the
    following [UploadUniforms] sends the new offsets. *)
Theorem SyncAndUploadLUTsLF_records_offsets (s : RasterizerVulkan) :
  let s' := snd (SyncAndUploadLUTsLF s) in
  let stores :=
    drop (length (sb_content (texture_lf_buffer s))) (sb_content (texture_lf_buffer s')) in
  truthy (lighting_lut_dirty (pica s)) || fog_lut_dirty (pica s) = true ->
  0 <= NumLightingSampler <= 32 ->
  0 <= lighting_lut_dirty (pica s) < 2 ^ NumLightingSampler ->
  fs_data_dirty s' = true
  /\ (forall pos i,
        In (pos, lighting_lut i) stores ->
        (Z.to_nat i < length (lighting_lut_offset (fs_data s)))%nat ->
        lighting_lut_offset (fs_data s') !! Z.to_nat i = Some (pos / 8))
  /\ (forall pos, In (pos, fog_lut) stores -> fog_lut_offset (fs_data s') = pos / 8).
Proof.
  intros s' stores Hgate HN Hd.
  destruct (SyncAndUploadLUTsLF_layout s Hgate HN Hd)
    as (Hcontent & _ & _ & _ & _ & Hdirty & Hrec & Hfog).
  subst stores s'. rewrite Hcontent, drop_app_length.
  split; [exact Hdirty |]. split; assumption.
Qed.


(** One table of [SyncAndUploadLUTs], field by field. *)
Lemma sync_proctex_table_step (is_dirty : ProcTexDirty -> bool) (offset : Z)
    (block : Block) (set_offset : Z -> FSUniformData -> FSUniformData)
    (elem entries bytes_used : Z) (s : RasterizerVulkan) :
  let r := sync_proctex_table is_dirty offset block set_offset elem entries
             (bytes_used, s) in
  let dirty := is_dirty (proctex_dirty (pica s)) in
  fst r = bytes_used + (if dirty then entries * elem else 0)
  /\ proctex_dirty (pica (snd r)) = proctex_dirty (pica s)
  /\ sb_state (texture_buffer (snd r)) = sb_state (texture_buffer s)
  /\ sb_content (texture_buffer (snd r))
     = sb_content (texture_buffer s)
         ++ (if dirty then [(offset + bytes_used, block)] else [])
  /\ fs_data (snd r)
     = (if dirty then set_offset ((offset + bytes_used) / elem) (fs_data s)
        else fs_data s)
  /\ fs_data_dirty (snd r) = dirty || fs_data_dirty s.
Proof.
  unfold sync_proctex_table. cbv zeta.
  destruct (is_dirty (proctex_dirty (pica s))); cbn.
  - repeat split.
  - rewrite Z.add_0_r, app_nil_r. repeat split.
Qed.

(** X19: past its early return [SyncAndUploadLUTs] stores the dirty
    procedural-texture tables back to back from the mapped offset, in the
    order noise, colour map, alpha map (1024 bytes each), colour table,
    colour difference table (4096 bytes each); after a wrap these are all
    five.  The colour table is always among them.  It commits exactly the
    bytes it stored, never more than the 11264 it mapped, records for
    every table stored the texel offset it was stored at (in two-float
    texels for the first three, four-float texels for the colour tables),
    flags the fragment uniforms dirty and leaves no table dirty. *)
Theorem SyncAndUploadLUTs_packs (s : RasterizerVulkan) :
  let mapped := sb_Map (sb_state (texture_buffer s)) LUTs_max_size sizeof_Vec4f in
  let offset := fst (fst mapped) in
  let invalidate := snd (fst mapped) in
  let d := if invalidate then TableAllDirty else proctex_dirty (pica s) in
  let tables :=
    (if noise_lut_dirty d then [proctex_noise_table] else [])
    ++ (if color_map_dirty d then [proctex_color_map_table] else [])
    ++ (if alpha_map_dirty d then [proctex_alpha_map_table] else [])
    ++ [proctex_color_table]
    ++ (if diff_lut_dirty d then [proctex_color_diff_table] else []) in
  let stores := packed offset tables in
  let s' := snd (SyncAndUploadLUTs s) in
  let fs' := fs_data s' in
  lut_dirty (proctex_dirty (pica s)) = true ->
  sb_content (texture_buffer s') = sb_content (texture_buffer s) ++ stores
  /\ sb_state (texture_buffer s') = sb_Commit (snd mapped) (packed_size tables)
  /\ 4096 <= packed_size tables <= 11264
  /\ proctex_dirty (pica s') = TableNoneDirty
  /\ fs_data_dirty s' = true
  /\ (forall pos, In (pos, proctex_noise_table) stores ->
        proctex_noise_lut_offset fs' = pos / 8)
  /\ (forall pos, In (pos, proctex_color_map_table) stores ->
        proctex_color_map_offset fs' = pos / 8)
  /\ (forall pos, In (pos, proctex_alpha_map_table) stores ->
        proctex_alpha_map_offset fs' = pos / 8)
  /\ (forall pos, In (pos, proctex_color_table) stores ->
        proctex_lut_offset fs' = pos / 16)
  /\ (forall pos, In (pos, proctex_color_diff_table) stores ->
        proctex_diff_lut_offset fs' = pos / 16).
Proof.
  intros mapped offset invalidate d tables stores s' fs' Hdirty.
  subst fs' s'. unfold SyncAndUploadLUTs. rewrite Hdirty. cbn [negb].
  fold mapped. subst stores tables d offset invalidate.
  destruct mapped as [[offset invalidate] st]. cbn [fst snd].
  match goal with
  | |- context [sync_proctex_table _ offset _ _ _ _ (0, ?t)] => set (s0 := t)
  end.
  assert (H0 : exists n c a df,
             (if invalidate then TableAllDirty else proctex_dirty (pica s))
             = {| noise_lut_dirty := n; color_map_dirty := c; alpha_map_dirty := a;
                  lut_dirty := true; diff_lut_dirty := df |}
             /\ proctex_dirty (pica s0)
                = {| noise_lut_dirty := n; color_map_dirty := c; alpha_map_dirty := a;
                     lut_dirty := true; diff_lut_dirty := df |}
             /\ sb_content (texture_buffer s0) = sb_content (texture_buffer s)
             /\ sb_state (texture_buffer s0) = st).
  { subst s0. destruct invalidate.
    - exists true, true, true, true. repeat split.
    - destruct (proctex_dirty (pica s)) as [n c a l df] eqn:E. cbn in Hdirty. subst l.
      exists n, c, a, df. cbn. rewrite E. repeat split. }
  destruct H0 as (n & c & a & df & -> & Hpd0 & Hc0 & Hst0). clearbody s0.
  cbn [noise_lut_dirty color_map_dirty alpha_map_dirty lut_dirty diff_lut_dirty].
  pose proof (sync_proctex_table_step noise_lut_dirty offset proctex_noise_table
                set_proctex_noise_lut_offset sizeof_Vec2f proctex_value_lut_size 0 s0)
    as H1.
  cbv zeta in H1.
  destruct (sync_proctex_table noise_lut_dirty offset proctex_noise_table
              set_proctex_noise_lut_offset sizeof_Vec2f proctex_value_lut_size (0, s0))
    as [b1 s1].
  cbn [fst snd] in H1. destruct H1 as (Hb1 & Hp1 & Hs1 & Hc1 & Hf1 & Hd1).
  rewrite Hpd0 in Hb1, Hp1, Hc1, Hf1, Hd1.
  pose proof (sync_proctex_table_step color_map_dirty offset proctex_color_map_table
                set_proctex_color_map_offset sizeof_Vec2f proctex_value_lut_size b1 s1)
    as H2.
  cbv zeta in H2.
  destruct (sync_proctex_table color_map_dirty offset proctex_color_map_table
              set_proctex_color_map_offset sizeof_Vec2f proctex_value_lut_size (b1, s1))
    as [b2 s2].
  cbn [fst snd] in H2. destruct H2 as (Hb2 & Hp2 & Hs2 & Hc2 & Hf2 & Hd2).
  rewrite Hp1 in Hb2, Hp2, Hc2, Hf2, Hd2.
  pose proof (sync_proctex_table_step alpha_map_dirty offset proctex_alpha_map_table
                set_proctex_alpha_map_offset sizeof_Vec2f proctex_value_lut_size b2 s2)
    as H3.
  cbv zeta in H3.
  destruct (sync_proctex_table alpha_map_dirty offset proctex_alpha_map_table
              set_proctex_alpha_map_offset sizeof_Vec2f proctex_value_lut_size (b2, s2))
    as [b3 s3].
  cbn [fst snd] in H3. destruct H3 as (Hb3 & Hp3 & Hs3 & Hc3 & Hf3 & Hd3).
  rewrite Hp2 in Hb3, Hp3, Hc3, Hf3, Hd3.
  pose proof (sync_proctex_table_step lut_dirty offset proctex_color_table
                set_proctex_lut_offset sizeof_Vec4f proctex_color_table_size b3 s3)
    as H4.
  cbv zeta in H4.
  destruct (sync_proctex_table lut_dirty offset proctex_color_table
              set_proctex_lut_offset sizeof_Vec4f proctex_color_table_size (b3, s3))
    as [b4 s4].
  cbn [fst snd] in H4. destruct H4 as (Hb4 & Hp4 & Hs4 & Hc4 & Hf4 & Hd4).
  rewrite Hp3 in Hb4, Hp4, Hc4, Hf4, Hd4.
  pose proof (sync_proctex_table_step diff_lut_dirty offset proctex_color_diff_table
                set_proctex_diff_lut_offset sizeof_Vec4f proctex_color_table_size b4 s4)
    as H5.
  cbv zeta in H5.
  destruct (sync_proctex_table diff_lut_dirty offset proctex_color_diff_table
              set_proctex_diff_lut_offset sizeof_Vec4f proctex_color_table_size (b4, s4))
    as [b5 s5].
  cbn [fst snd] in H5. destruct H5 as (Hb5 & Hp5 & Hs5 & Hc5 & Hf5 & Hd5).
  rewrite Hp4 in Hb5, Hp5, Hc5, Hf5, Hd5.
  cbn [noise_lut_dirty color_map_dirty alpha_map_dirty lut_dirty diff_lut_dirty] in *.
  cbn [snd texture_buffer set_texture_buffer sb_content sb_state pica set_pica
         proctex_dirty set_proctex_dirty fs_data fs_data_dirty].
  rewrite Hc5, Hc4, Hc3, Hc2, Hc1, Hc0, Hs5, Hs4, Hs3, Hs2, Hs1, Hst0.
  rewrite Hd5, Hd4, orb_true_r, Hf5, Hf4, Hf3, Hf2, Hf1.
  unfold sizeof_Vec2f, sizeof_Vec4f, proctex_value_lut_size, proctex_color_table_size
    in *.
  subst b5 b4 b3 b2 b1.
  clear Hs1 Hs2 Hs3 Hs4 Hs5 Hc1 Hc2 Hc3 Hc4 Hc5 Hf1 Hf2 Hf3 Hf4 Hf5 Hd1 Hd2 Hd3 Hd4 Hd5
        Hp1 Hp2 Hp3 Hp4 Hp5 Hpd0 Hc0 Hst0 Hdirty.
  destruct n, c, a, df;
    cbn [app packed packed_size block_size
           proctex_noise_lut_offset proctex_color_map_offset proctex_alpha_map_offset
           proctex_lut_offset proctex_diff_lut_offset
           set_proctex_noise_lut_offset set_proctex_color_map_offset
           set_proctex_alpha_map_offset set_proctex_lut_offset
           set_proctex_diff_lut_offset];
    unfold sizeof_Vec2f, sizeof_Vec4f, proctex_value_lut_size, proctex_color_table_size;
    rewrite <- ?app_assoc;
    (split; [cbn [app]; rewrite ?Z.add_0_l, ?Z.add_0_r, ?Z.add_assoc; reflexivity |]);
    (split; [f_equal; rewrite u32_small by lia; lia |]);
    (split; [lia |]);
    (split; [reflexivity |]);
    (split; [reflexivity |]);
    repeat split; intros pos Hin; cbn [In] in Hin;
    repeat match goal with
           | H : _ \/ _ |- _ => destruct H as [H | H]
           | H : False |- _ => destruct H
           | H : (_, _) = (_, _) |- _ => first [discriminate H | injection H as <-]
           end;
    f_equal; lia.
Qed.


(** The binding ranges refreshed among some events, each as (binding
    point, offset). *)
Definition update_ranges (tr : list Event) : list (Z * Z) :=
  omap (fun e =>
          match e with
          | pipeline_cache_UpdateRange binding offset => Some (binding, offset)
          | _ => None
          end) tr.

(** The binding point [UploadUniforms] refreshes for a uniform block (the
    tables are not stored in the uniform buffer). *)
Definition uniform_binding (b : Block) : Z :=
  match b with
  | VSUniformData_block => 1
  | FSUniformData_block _ => 2
  | _ => 0
  end.

(** The three blocks of [UploadUniforms], field by field. *)
Lemma upload_vs_step (offset : Z) (invalidate : bool) (used_bytes : Z)
    (s : RasterizerVulkan) :
  let r := upload_block (fun s => vs_data_dirty s || invalidate) offset
             VSUniformData_block 1 uniform_size_aligned_vs
             (set_vs_data_dirty false) (used_bytes, s) in
  let c := vs_data_dirty s || invalidate in
  fst r = (if c then u32 (used_bytes + uniform_size_aligned_vs) else used_bytes)
  /\ sb_content (uniform_buffer (snd r))
     = sb_content (uniform_buffer s)
         ++ (if c then [(offset + used_bytes, VSUniformData_block)] else [])
  /\ sb_state (uniform_buffer (snd r)) = sb_state (uniform_buffer s)
  /\ trace (snd r)
     = trace s
         ++ (if c then [pipeline_cache_UpdateRange 1 (offset + used_bytes)] else [])
  /\ vs_data_dirty (snd r) = false
  /\ fs_data_dirty (snd r) = fs_data_dirty s
  /\ pica (snd r) = pica s.
Proof.
  unfold upload_block. cbv beta zeta.
  destruct (vs_data_dirty s) eqn:E; destruct invalidate; cbn [orb];
    cbn [fst snd uniform_buffer set_uniform_buffer set_vs_data_dirty emit set_trace
           store_block sb_content sb_state trace vs_data_dirty fs_data_dirty pica];
    rewrite ?app_nil_r; repeat split; exact E.
Qed.

Lemma upload_fs_step (offset : Z) (invalidate : bool) (block : Block)
    (used_bytes : Z) (s : RasterizerVulkan) :
  let r := upload_block (fun s => fs_data_dirty s || invalidate) offset
             block 2 uniform_size_aligned_fs
             (set_fs_data_dirty false) (used_bytes, s) in
  let c := fs_data_dirty s || invalidate in
  fst r = (if c then u32 (used_bytes + uniform_size_aligned_fs) else used_bytes)
  /\ sb_content (uniform_buffer (snd r))
     = sb_content (uniform_buffer s)
         ++ (if c then [(offset + used_bytes, block)] else [])
  /\ sb_state (uniform_buffer (snd r)) = sb_state (uniform_buffer s)
  /\ trace (snd r)
     = trace s
         ++ (if c then [pipeline_cache_UpdateRange 2 (offset + used_bytes)] else [])
  /\ vs_data_dirty (snd r) = vs_data_dirty s
  /\ fs_data_dirty (snd r) = false
  /\ pica (snd r) = pica s.
Proof.
  unfold upload_block. cbv beta zeta.
  destruct (fs_data_dirty s) eqn:E; destruct invalidate; cbn [orb];
    cbn [fst snd uniform_buffer set_uniform_buffer set_fs_data_dirty emit set_trace
           store_block sb_content sb_state trace vs_data_dirty fs_data_dirty pica];
    rewrite ?app_nil_r; repeat split; exact E.
Qed.

Lemma upload_vs_pica_step (offset : Z) (c : bool) (used_bytes : Z)
    (s : RasterizerVulkan) :
  let r := upload_block (fun _ => c) offset
             VSPicaUniformData_block 0 uniform_size_aligned_vs_pica
             (fun s => set_pica (set_vs_setup_uniforms_dirty false (pica s)) s)
             (used_bytes, s) in
  fst r = (if c then u32 (used_bytes + uniform_size_aligned_vs_pica) else used_bytes)
  /\ sb_content (uniform_buffer (snd r))
     = sb_content (uniform_buffer s)
         ++ (if c then [(offset + used_bytes, VSPicaUniformData_block)] else [])
  /\ sb_state (uniform_buffer (snd r)) = sb_state (uniform_buffer s)
  /\ trace (snd r)
     = trace s
         ++ (if c then [pipeline_cache_UpdateRange 0 (offset + used_bytes)] else [])
  /\ vs_data_dirty (snd r) = vs_data_dirty s
  /\ fs_data_dirty (snd r) = fs_data_dirty s
  /\ vs_setup_uniforms_dirty (pica (snd r))
     = negb c && vs_setup_uniforms_dirty (pica s).
Proof.
  unfold upload_block. cbv beta zeta.
  destruct c;
    cbn [fst snd uniform_buffer set_uniform_buffer set_pica emit set_trace
           store_block sb_content sb_state trace vs_data_dirty fs_data_dirty pica
           vs_setup_uniforms_dirty set_vs_setup_uniforms_dirty negb andb];
    rewrite ?app_nil_r; repeat split.
Qed.

(** X20: past its early return [UploadUniforms] stores the dirty uniform
    blocks back to back from the mapped offset, each taking its aligned
    size, in the order vertex-shader uniforms, fragment-shader uniforms,
    PICA vertex-shader uniforms; after a wrap these are all three.  It
    points the binding of every block stored (1, 2 and 0) at the position
    the block was stored at, commits exactly the bytes it stored, never
    more than it mapped, and clears the dirty flags of the vertex and
    fragment uniforms.  The PICA uniforms stay dirty only on a software
    draw without wrap. *)
Theorem UploadUniforms_packs (accelerate_draw : bool) (s : RasterizerVulkan) :
  let mapped :=
    sb_Map (sb_state (uniform_buffer s)) uniform_size uniform_buffer_alignment in
  let offset := fst (fst mapped) in
  let invalidate := snd (fst mapped) in
  let sync_vs_pica := accelerate_draw && vs_setup_uniforms_dirty (pica s) in
  let blocks :=
    (if vs_data_dirty s || invalidate then [VSUniformData_block] else [])
    ++ (if fs_data_dirty s || invalidate then [FSUniformData_block (fs_data s)] else [])
    ++ (if sync_vs_pica || invalidate then [VSPicaUniformData_block] else []) in
  let s' := snd (UploadUniforms accelerate_draw s) in
  sync_vs_pica || vs_data_dirty s || fs_data_dirty s = true ->
  0 <= uniform_size_aligned_vs_pica ->
  0 <= uniform_size_aligned_vs ->
  0 <= uniform_size_aligned_fs ->
  uniform_size_aligned_vs_pica + uniform_size_aligned_vs + uniform_size_aligned_fs
  < 2 ^ 32 ->
  sb_content (uniform_buffer s') = sb_content (uniform_buffer s) ++ packed offset blocks
  /\ sb_state (uniform_buffer s') = sb_Commit (snd mapped) (packed_size blocks)
  /\ packed_size blocks <= uniform_size
  /\ update_ranges (events_since s s')
     = map (fun '(pos, b) => (uniform_binding b, pos)) (packed offset blocks)
  /\ vs_data_dirty s' = false
  /\ fs_data_dirty s' = false
  /\ vs_setup_uniforms_dirty (pica s')
     = negb (accelerate_draw || invalidate) && vs_setup_uniforms_dirty (pica s).
Proof.
  intros mapped offset invalidate sync_vs_pica blocks s' Hgate Hp Hv Hf Hfit.
  assert (Hsize : uniform_size
                  = uniform_size_aligned_vs_pica + uniform_size_aligned_vs
                    + uniform_size_aligned_fs)
    by (unfold uniform_size; apply u32_small; lia).
  subst s'. unfold UploadUniforms. fold sync_vs_pica.
  replace (negb sync_vs_pica && negb (vs_data_dirty s) && negb (fs_data_dirty s))
    with false
    by (rewrite <- !negb_orb, Hgate; reflexivity).
  fold mapped. subst blocks offset invalidate.
  destruct mapped as [[offset invalidate] st]. cbn [fst snd].
  rewrite Hsize. clear Hsize.
  match goal with
  | |- context [upload_block _ offset VSUniformData_block _ _ _ (0, ?t)] =>
      set (s0 := t)
  end.
  assert (H0 : sb_content (uniform_buffer s0) = sb_content (uniform_buffer s)
               /\ sb_state (uniform_buffer s0) = st
               /\ trace s0 = trace s
               /\ vs_data_dirty s0 = vs_data_dirty s
               /\ fs_data_dirty s0 = fs_data_dirty s
               /\ pica s0 = pica s
               /\ fs_data s0 = fs_data s) by (subst s0; repeat split).
  destruct H0 as (Hc0 & Hst0 & Ht0 & Hvs0 & Hfs0 & Hpica0 & Hfsd0). clearbody s0.
  pose proof (upload_vs_step offset invalidate 0 s0) as H1. cbv zeta in H1.
  destruct (upload_block _ offset VSUniformData_block 1 _ _ (0, s0)) as [u1 s1].
  cbn [fst snd] in H1. destruct H1 as (Hu1 & Hc1 & Hs1 & Ht1 & Hvs1 & Hfs1 & Hp1).
  pose proof (upload_fs_step offset invalidate (FSUniformData_block (fs_data s0)) u1 s1)
    as H2.
  cbv zeta in H2. rewrite Hfsd0 in H2 |- *.
  destruct (upload_block _ offset (FSUniformData_block (fs_data s)) 2 _ _ (u1, s1))
    as [u2 s2].
  cbn [fst snd] in H2. destruct H2 as (Hu2 & Hc2 & Hs2 & Ht2 & Hvs2 & Hfs2 & Hp2).
  pose proof (upload_vs_pica_step offset (sync_vs_pica || invalidate) u2 s2) as H3.
  cbv zeta in H3.
  destruct (upload_block _ offset VSPicaUniformData_block 0 _ _ (u2, s2)) as [u3 s3].
  cbn [fst snd] in H3. destruct H3 as (Hu3 & Hc3 & Hs3 & Ht3 & Hvs3 & Hfs3 & Hp3).
  cbn [snd uniform_buffer set_uniform_buffer sb_content sb_state vs_data_dirty
         fs_data_dirty pica].
  rewrite (events_since_app s _
             ((if vs_data_dirty s || invalidate
               then [pipeline_cache_UpdateRange 1 (offset + 0)] else [])
              ++ (if fs_data_dirty s || invalidate
                  then [pipeline_cache_UpdateRange 2 (offset + u1)] else [])
              ++ (if sync_vs_pica || invalidate
                  then [pipeline_cache_UpdateRange 0 (offset + u2)] else [])))
    by (cbn [trace set_uniform_buffer];
        rewrite Ht3, Ht2, Ht1, Ht0, Hfs1, Hvs0, Hfs0, <- !app_assoc; reflexivity).
  rewrite Hc3, Hc2, Hc1, Hc0, Hs3, Hs2, Hs1, Hst0, Hvs3, Hvs2, Hvs1, Hfs3, Hfs2, Hp3,
    Hp2, Hp1, Hpica0, Hu3.
  rewrite Hfs1, Hvs0, Hfs0 in *.
  clear Hc3 Hc2 Hc1 Hc0 Hs3 Hs2 Hs1 Hst0 Hvs3 Hvs2 Hvs1 Hfs3 Hfs2 Hfs1 Hp3 Hp2 Hp1
        Hpica0 Hu3 Ht3 Ht2 Ht1 Ht0 Hvs0 Hfs0 Hfsd0.
  subst sync_vs_pica.
  destruct (vs_data_dirty s), (fs_data_dirty s), invalidate, accelerate_draw,
    (vs_setup_uniforms_dirty (pica s));
    try discriminate Hgate; clear Hgate;
    cbn [orb andb negb] in *; subst u2 u1;
    repeat match goal with
           | |- context [u32 ?x] =>
               lazymatch x with
               | context [u32] => fail
               | _ => rewrite (u32_small x) by lia
               end
           end;
    cbn [app packed packed_size block_size map uniform_binding update_ranges
           omap list_omap];
    rewrite <- ?app_assoc, ?app_nil_r;
    cbn [app];
    rewrite ?Z.add_0_l, ?Z.add_0_r, ?Z.add_assoc;
    (split; [reflexivity |]);
    (split; [f_equal; lia |]);
    (split; [lia |]);
    repeat split.
Qed.

(** ** The size of the fixed binding *)

(** Guest attribute [i] is marked default and is the first such
    attribute to feed its shader input location, which no loader
    resolved: the one [SetupFixedAttribs] stores a default value for. *)
Definition first_default (enableA : list bool) (i : Z) : bool :=
  PipelineRegs.IsDefaultAttribute vertex_attributes_regs i
  && negb (enabled_at enableA (vs_GetRegisterForAttribute regs i))
  && negb (marked_default_below i (vs_GetRegisterForAttribute regs i)).

(** In the first loop of [SetupFixedAttribs] a location is enabled when
    a loader resolved it or an earlier default attribute fed it. *)
Lemma fixed_done_enabled (pica_core : PicaCore) (fixed_ptr : Z)
    (layoutA : VertexLayout) (enableA : list bool) (m : Z)
    (offset : Z) (data : Bytes) (layout : VertexLayout) (enable : list bool)
    (loc : Z) :
  fixed_done pica_core fixed_ptr layoutA enableA m offset data layout enable ->
  0 <= loc < 16 ->
  enabled_at enable loc = enabled_at enableA loc || marked_default_below m loc.
Proof.
  intros (_ & _ & _ & _ & _ & _ & _ & Hloc) Hl. specialize (Hloc loc Hl).
  destruct (enabled_at enableA loc); [destruct Hloc as (-> & _); reflexivity |].
  destruct (marked_default_below m loc); destruct Hloc as (-> & _); reflexivity.
Qed.

Lemma fixed_attrib_offset (pica_core : PicaCore) (fixed_ptr : Z)
    (layoutA : VertexLayout) (enableA : list bool) (m : Z)
    (offset : Z) (data : Bytes) (layout : VertexLayout) (enable : list bool) :
  registers_in_range -> 0 <= m < 16 ->
  fixed_done pica_core fixed_ptr layoutA enableA m offset data layout enable ->
  fst (fst (fst (fixed_attrib pica_core fixed_ptr (offset, data, layout, enable) m)))
  = offset + (if first_default enableA m then 16 else 0).
Proof.
  intros Hreg Hm Hdone.
  pose proof (fixed_done_enabled _ _ _ _ _ _ _ _ _
                (vs_GetRegisterForAttribute regs m) Hdone (Hreg m)) as Hen.
  destruct Hdone as (_ & _ & _ & _ & _ & Ho & _).
  unfold fixed_attrib, first_default. cbv beta iota zeta. unfold enabled_at in *.
  destruct (PipelineRegs.IsDefaultAttribute vertex_attributes_regs m);
    cbn [andb fst]; [| lia].
  rewrite Hen. rewrite <- negb_orb.
  destruct (default false (enableA !! Z.to_nat (vs_GetRegisterForAttribute regs m))
            || marked_default_below m (vs_GetRegisterForAttribute regs m));
    cbn [negb fst]; [lia |].
  unfold sizeof_float. apply u32_small. lia.
Qed.

Lemma fixed_loop_offset (pica_core : PicaCore) (fixed_ptr : Z)
    (layoutA : VertexLayout) (enableA : list bool) (data : Bytes) (n : nat) :
  registers_in_range -> (n <= 16)%nat ->
  fixed_done pica_core fixed_ptr layoutA enableA 0 sizeof_Vec4f data layoutA enableA ->
  fst (fst (fst (fold_left (fixed_attrib pica_core fixed_ptr) (seqZ 0 (Z.of_nat n))
                   (sizeof_Vec4f, data, layoutA, enableA))))
  = 16 + 16 * Z.of_nat (length (List.filter (first_default enableA)
                                  (seqZ 0 (Z.of_nat n)))).
Proof.
  intros Hreg. induction n as [| n IH]; intros Hn H0; [reflexivity |].
  rewrite seqZ_S, fold_left_app, List.filter_app, length_app.
  cbn [fold_left List.filter]. rewrite Z.add_0_l.
  destruct (fixed_loop pica_core fixed_ptr layoutA enableA n sizeof_Vec4f data
              Hreg ltac:(lia) H0)
    as (o1 & d1 & l1 & e1 & Hrun & Hdone).
  specialize (IH ltac:(lia) H0). rewrite Hrun in IH |- *. cbn [fst] in IH.
  rewrite (fixed_attrib_offset pica_core fixed_ptr layoutA enableA (Z.of_nat n))
    by (try assumption; lia).
  rewrite IH. destruct (first_default enableA (Z.of_nat n)); cbn [length]; lia.
Qed.

(** X21: the stride of the fixed binding, which is also what
    [SetupFixedAttribs] commits to the stream buffer, is 16 bytes for the
    constant (0, 0, 0, 1) plus 16 bytes for every default attribute that
    is the first to feed a location no loader resolved.  It lies between
    16 and 272 bytes, while the region mapped for it has 256. *)
Theorem SetupFixedAttribs_stride (s : RasterizerVulkan) :
  let layoutA := vertex_layout (pipeline_info s) in
  let enableA := enable_attributes s in
  let nb := binding_count layoutA in
  let mapped := sb_Map (sb_state (stream_buffer s)) (16 * sizeof_Vec4f) 0 in
  let s' := snd (SetupFixedAttribs s) in
  let written :=
    Z.of_nat (length (List.filter (first_default enableA) (seqZ 0 16))) in
  let stride := 16 + 16 * written in
  registers_in_range ->
  length (attributes layoutA) = 16%nat -> length (bindings layoutA) = 16%nat ->
  length enableA = 16%nat ->
  0 <= nb < 16 ->
  bindings (vertex_layout (pipeline_info s')) !! Z.to_nat nb
  = Some {| vb_binding := nb; vb_fixed := 1; vb_stride := stride |}
  /\ sb_state (stream_buffer s') = sb_Commit (snd mapped) stride
  /\ 16 <= stride <= 272.
Proof.
  intros layoutA enableA nb mapped s' written stride Hreg Hla Hlb Hle Hnb.
  assert (Hbound : 16 <= stride <= 272).
  { subst stride written.
    pose proof (List.filter_length_le (first_default enableA) (seqZ 0 16)) as Hlen.
    rewrite length_seqZ in Hlen. lia. }
  split; [| split; [| exact Hbound]].
  - subst s'. unfold SetupFixedAttribs. fold mapped.
    destruct mapped as [[fixed_offset invalidate] st].
    cbn [fst snd]. fold layoutA enableA.
    pose proof (fixed_loop_offset (pica s) fixed_offset layoutA enableA
                  (memcpy (sb_content (stream_buffer s)) fixed_offset
                     (AsArray default_attrib) 0 sizeof_Vec4f) 16 Hreg ltac:(lia)
                  (fixed_done_start (pica s) fixed_offset layoutA enableA _ Hla Hle))
      as Hoff.
    destruct (fixed_loop (pica s) fixed_offset layoutA enableA 16 sizeof_Vec4f
                (memcpy (sb_content (stream_buffer s)) fixed_offset
                   (AsArray default_attrib) 0 sizeof_Vec4f) Hreg ltac:(lia)
                (fixed_done_start (pica s) fixed_offset layoutA enableA _ Hla Hle))
      as (offset & data & layoutB & enableB & Hrun
          & (Hbc & Hac & Hb & HlaB & HleB & Ho & Hdef & Hloc)).
    change (Z.of_nat 16) with 16 in *.
    cbn [pica enable_attributes set_binding_offsets]. fold enableA.
    rewrite Hrun in Hoff |- *. cbn [fst] in Hoff.
    destruct (unused_loop enableB layoutB 16 HlaB ltac:(lia))
      as (HbcC & HacC & HbC & HlaC & HattrC).
    change (Z.of_nat 16) with 16 in *.
    set (layoutC := fold_left (unused_attrib enableB) (seqZ 0 16) layoutB) in *.
    cbn [snd pipeline_info set_pipeline_info set_stream_buffer set_enable_attributes
           vertex_layout set_vertex_layout bindings set_binding_count set_binding].
    fold nb in Hbc. rewrite HbcC, Hbc, HbC, Hb, Hoff.
    apply list_lookup_insert_eq. lia.
  - subst s'. unfold SetupFixedAttribs. fold mapped.
    destruct mapped as [[fixed_offset invalidate] st].
    cbn [fst snd]. fold layoutA enableA.
    pose proof (fixed_loop_offset (pica s) fixed_offset layoutA enableA
                  (memcpy (sb_content (stream_buffer s)) fixed_offset
                     (AsArray default_attrib) 0 sizeof_Vec4f) 16 Hreg ltac:(lia)
                  (fixed_done_start (pica s) fixed_offset layoutA enableA _ Hla Hle))
      as Hoff.
    change (Z.of_nat 16) with 16 in *.
    cbn [pica enable_attributes set_binding_offsets]. fold enableA.
    destruct (fold_left (fixed_attrib (pica s) fixed_offset) (seqZ 0 16) _)
      as [[[offset data] layoutB] enableB].
    cbn [fst] in Hoff.
    cbn [snd stream_buffer set_stream_buffer sb_state]. rewrite Hoff. reflexivity.
Qed.


(** ** The display path *)

(** X22: [AccelerateDisplay] fails exactly when the framebuffer address
    is 0 or the surface cache has no surface for the framebuffer, and then
    leaves the screen info as it was.  The surface it asks for is linear,
    starts at the framebuffer address, has the pixel stride as its stride
    and a width that is the configured width cut down to the stride.  On
    success the screen takes the image view of the surface found. *)
Theorem AccelerateDisplay_result (config : Pica_FramebufferConfig)
    (framebuffer_addr pixel_stride : Z) (screen_info : ScreenInfo) :
  let src_params :=
    {| params_addr := framebuffer_addr;
       params_width := Z.min (config_width config) pixel_stride;
       params_height := config_height config;
       params_stride := pixel_stride;
       params_is_tiled := false;
       params_pixel_format :=
         PixelFormatFromGPUPixelFormat (config_color_format config) |} in
  let found := fst (GetSurfaceSubRect src_params) in
  let r := AccelerateDisplay config framebuffer_addr pixel_stride screen_info in
  params_width src_params <= pixel_stride
  /\ params_width src_params <= config_width config
  /\ (fst r = false <-> framebuffer_addr = 0 \/ found = None)
  /\ (fst r = false -> snd r = screen_info)
  /\ (forall id, framebuffer_addr <> 0 -> found = Some id ->
        image_view (snd r) = ImageView (GetSurface id)).
Proof.
  intros src_params found r. subst r found. unfold AccelerateDisplay.
  fold src_params. cbn [params_width src_params].
  split; [lia |]. split; [lia |].
  destruct (Z.eqb_spec framebuffer_addr 0) as [E | E].
  { cbn. split; [split; [intros _; left; exact E | reflexivity] |].
    split; [reflexivity | intros; contradiction]. }
  destruct (GetSurfaceSubRect src_params) as [[id |] src_rect]; cbn.
  - split; [split; [discriminate | intros [H | H]; [contradiction | discriminate]] |].
    split; [discriminate |]. intros id' _ H. injection H as <-. reflexivity.
  - split; [split; [intros _; right; reflexivity | reflexivity] |].
    split; [reflexivity | intros id _ H; discriminate].
Qed.

(** ** The fragment uniforms through [Draw] *)

(** The scissor uniforms, in the order of the tuple of
    [FramebufferHelper::Scissor]. *)
Definition scissor_uniforms (fs : FSUniformData) : Z * Z * Z * Z :=
  (scissor_x1 fs, scissor_y2 fs, scissor_x2 fs, scissor_y1 fs).

(** [s'] comes from [s] by steps that leave the uniform buffer and the
    scissor uniforms alone and that flag every change of the fragment
    uniforms. *)
Definition flagged (s s' : RasterizerVulkan) : Prop :=
  uniform_buffer s' = uniform_buffer s
  /\ scissor_uniforms (fs_data s') = scissor_uniforms (fs_data s)
  /\ (fs_data s' = fs_data s \/ fs_data_dirty s' = true)
  /\ (fs_data_dirty s = true -> fs_data_dirty s' = true).

(** The members [UploadUniforms] works on. *)
Definition uniform_members (s : RasterizerVulkan) :=
  (uniform_buffer s, fs_data s, fs_data_dirty s, vs_data_dirty s).

Lemma flagged_same (s s' : RasterizerVulkan) :
  uniform_buffer s' = uniform_buffer s -> fs_data s' = fs_data s ->
  fs_data_dirty s' = fs_data_dirty s -> flagged s s'.
Proof.
  intros Hu Hf Hd. unfold flagged. rewrite Hu, Hf, Hd. auto.
Qed.

Lemma flagged_refl (s : RasterizerVulkan) : flagged s s.
Proof. apply flagged_same; reflexivity. Qed.

Lemma flagged_trans (s1 s2 s3 : RasterizerVulkan) :
  flagged s1 s2 -> flagged s2 s3 -> flagged s1 s3.
Proof.
  intros (Hu1 & Hs1 & Hf1 & Hd1) (Hu2 & Hs2 & Hf2 & Hd2).
  split; [congruence |]. split; [congruence |]. split; [| auto].
  destruct Hf2 as [Hf2 | Hf2]; [| auto].
  destruct Hf1 as [Hf1 | Hf1]; [left; congruence | auto].
Qed.

Lemma flagged_emits (l : list Event) (s : RasterizerVulkan) : flagged s (emits l s).
Proof. apply flagged_same; reflexivity. Qed.

Lemma SyncTextureUnits_flagged (fb : Framebuffer) (s : RasterizerVulkan) :
  flagged s (snd (SyncTextureUnits fb s)).
Proof.
  destruct (SyncTextureUnits_events fb s) as (l & Hrun & _).
  rewrite Hrun. apply flagged_emits.
Qed.

Lemma SyncUtilityTextures_flagged (fb : Framebuffer) (s : RasterizerVulkan) :
  flagged s (snd (SyncUtilityTextures fb s)).
Proof.
  unfold SyncUtilityTextures.
  destruct (FramebufferRegs.IsShadowRendering (framebuffer regs)); cbn [negb].
  - unfold bind, modify. cbn [snd]. rewrite !emit_emits, emits_emits.
    apply flagged_emits.
  - apply flagged_refl.
Qed.

Lemma sync_lighting_lut_flagged (offset : Z) (acc : Z * RasterizerVulkan) :
  flagged (snd acc) (snd (sync_lighting_lut offset acc)).
Proof.
  destruct acc as [bytes_used s]. unfold sync_lighting_lut, flagged.
  cbn [snd]. repeat split; auto.
Qed.

Lemma while_lut_dirty_flagged (offset : Z) (fuel : nat) :
  forall acc, flagged (snd acc) (snd (while_lut_dirty fuel offset acc)).
Proof.
  induction fuel as [| fuel IH]; intros acc; cbn [while_lut_dirty].
  - apply flagged_refl.
  - destruct (truthy _); [| apply flagged_refl].
    eapply flagged_trans; [apply sync_lighting_lut_flagged | apply IH].
Qed.

Lemma SyncAndUploadLUTsLF_flagged (s : RasterizerVulkan) :
  flagged s (snd (SyncAndUploadLUTsLF s)).
Proof.
  unfold SyncAndUploadLUTsLF.
  destruct (negb (truthy (lighting_lut_dirty (pica s))) && negb (fog_lut_dirty (pica s)));
    [apply flagged_refl |].
  destruct (sb_Map _ _ _) as [[offset invalidate] st].
  match goal with
  | |- context [while_lut_dirty 32 offset (0, ?t)] =>
      assert (H1 : flagged s t)
        by (destruct invalidate; apply flagged_same; reflexivity);
        pose proof (while_lut_dirty_flagged offset 32 (0, t)) as H2;
        destruct (while_lut_dirty 32 offset (0, t)) as [bytes_used s2]
  end.
  cbn [snd] in H2.
  eapply flagged_trans; [exact H1 |]. eapply flagged_trans; [exact H2 |].
  destruct (fog_lut_dirty (pica s2)); cbn [snd].
  - unfold flagged. repeat split; auto.
  - apply flagged_same; reflexivity.
Qed.

Lemma sync_proctex_table_flagged (is_dirty : ProcTexDirty -> bool) (offset : Z)
    (block : Block) (set_offset : Z -> FSUniformData -> FSUniformData)
    (elem entries : Z) (acc : Z * RasterizerVulkan) :
  (forall v fs, scissor_uniforms (set_offset v fs) = scissor_uniforms fs) ->
  flagged (snd acc)
    (snd (sync_proctex_table is_dirty offset block set_offset elem entries acc)).
Proof.
  intros Hset. unfold sync_proctex_table. destruct acc as [bytes_used s].
  destruct (is_dirty (proctex_dirty (pica s))); [| apply flagged_refl].
  unfold flagged. cbn [snd]. split; [reflexivity |]. split; [apply Hset |].
  split; [right; reflexivity | reflexivity].
Qed.

Lemma SyncAndUploadLUTs_flagged (s : RasterizerVulkan) :
  flagged s (snd (SyncAndUploadLUTs s)).
Proof.
  unfold SyncAndUploadLUTs.
  destruct (negb (lut_dirty (proctex_dirty (pica s)))); [apply flagged_refl |].
  destruct (sb_Map _ _ _) as [[offset invalidate] st].
  match goal with
  | |- context [sync_proctex_table ?d offset ?b ?f ?e ?n (0, ?t)] =>
      assert (K0 : flagged s t)
        by (destruct invalidate; apply flagged_same; reflexivity);
        pose proof (sync_proctex_table_flagged d offset b f e n (0, t)
                      ltac:(reflexivity)) as K1;
        destruct (sync_proctex_table d offset b f e n (0, t)) as [u1 t1]
  end.
  repeat match goal with
  | |- context [sync_proctex_table ?d offset ?b ?f ?e ?n (?u, ?t)] =>
      let K := fresh "K" in
      pose proof (sync_proctex_table_flagged d offset b f e n (u, t)
                    ltac:(reflexivity)) as K;
        destruct (sync_proctex_table d offset b f e n (u, t))
  end.
  cbn [snd] in *.
  repeat (eapply flagged_trans; [eassumption |]).
  apply flagged_same; reflexivity.
Qed.


(** One block of [UploadUniforms], for the fragment uniforms and the
    content of the uniform buffer. *)
Lemma upload_block_content (cond : RasterizerVulkan -> bool) (offset : Z)
    (block : Block) (binding size_aligned : Z)
    (clear : RasterizerVulkan -> RasterizerVulkan) (used_bytes : Z)
    (s : RasterizerVulkan) :
  (forall t, fs_data (clear t) = fs_data t
             /\ uniform_buffer (clear t) = uniform_buffer t) ->
  let r := upload_block cond offset block binding size_aligned clear (used_bytes, s) in
  fs_data (snd r) = fs_data s
  /\ sb_content (uniform_buffer (snd r))
     = sb_content (uniform_buffer s)
         ++ (if cond s then [(offset + used_bytes, block)] else []).
Proof.
  intros Hclear. unfold upload_block. cbv zeta.
  destruct (cond s); cbn [snd]; [| rewrite app_nil_r; auto].
  match goal with
  | |- context [clear ?t] => destruct (Hclear t) as (Hf & Hu)
  end.
  rewrite Hf, Hu. split; reflexivity.
Qed.

(** [UploadUniforms] leaves the fragment uniforms as they are and both
    uniform blocks clean; a fragment block it stores holds the current
    uniforms, and it stores one when they are dirty. *)
Lemma UploadUniforms_fragment (accelerate_draw : bool) (s : RasterizerVulkan) :
  let s' := snd (UploadUniforms accelerate_draw s) in
  fs_data s' = fs_data s
  /\ fs_data_dirty s' = false
  /\ vs_data_dirty s' = false
  /\ exists stored,
       sb_content (uniform_buffer s') = sb_content (uniform_buffer s) ++ stored
       /\ (fs_data_dirty s = true ->
           exists pos, In (pos, FSUniformData_block (fs_data s)) stored)
       /\ (forall pos fs, In (pos, FSUniformData_block fs) stored -> fs = fs_data s).
Proof.
  unfold UploadUniforms.
  destruct (negb (accelerate_draw && vs_setup_uniforms_dirty (pica s))
            && negb (vs_data_dirty s) && negb (fs_data_dirty s)) eqn:Hgate.
  { apply andb_true_iff in Hgate as [Hgate Hfs].
    apply andb_true_iff in Hgate as [_ Hvs].
    apply negb_true_iff in Hfs, Hvs. cbn [snd].
    split; [reflexivity |]. split; [exact Hfs |]. split; [exact Hvs |].
    exists []. rewrite app_nil_r. split; [reflexivity |].
    split; [congruence | intros pos fs []]. }
  destruct (sb_Map _ _ _) as [[offset invalidate] st].
  match goal with
  | |- context [upload_block ?c offset ?b ?n ?z ?f (0, ?t)] =>
      set (s0 := t);
        destruct (upload_vs_step offset invalidate 0 s0) as (_ & _ & _ & _ & Hv1 & Hd1 & _);
        destruct (upload_block_content c offset b n z f 0 s0
                    ltac:(intros; split; reflexivity)) as (Hf1 & Hc1);
        destruct (upload_block c offset b n z f (0, s0)) as [u1 s1]
  end.
  match goal with
  | |- context [upload_block ?c offset ?b ?n ?z ?f (u1, s1)] =>
      destruct (upload_fs_step offset invalidate b u1 s1) as (_ & _ & _ & _ & Hv2 & Hd2 & _);
        destruct (upload_block_content c offset b n z f u1 s1
                    ltac:(intros; split; reflexivity)) as (Hf2 & Hc2);
        destruct (upload_block c offset b n z f (u1, s1)) as [u2 s2]
  end.
  match goal with
  | |- context [upload_block ?c offset ?b ?n ?z ?f (u2, s2)] =>
      destruct (upload_vs_pica_step offset
                  (accelerate_draw && vs_setup_uniforms_dirty (pica s) || invalidate)
                  u2 s2) as (_ & _ & _ & _ & Hv3 & Hd3 & _);
        destruct (upload_block_content c offset b n z f u2 s2
                    ltac:(intros; split; reflexivity)) as (Hf3 & Hc3);
        destruct (upload_block c offset b n z f (u2, s2)) as [u3 s3]
  end.
  cbn [snd fst] in *.
  cbn [snd fs_data fs_data_dirty vs_data_dirty uniform_buffer set_uniform_buffer
         sb_content].
  split; [rewrite Hf3, Hf2, Hf1; reflexivity |].
  split; [rewrite Hd3, Hd2; reflexivity |].
  split; [rewrite Hv3, Hv2, Hv1; reflexivity |].
  rewrite Hc3, Hc2, Hc1, <- !app_assoc.
  eexists. split; [reflexivity |]. rewrite Hd1.
  change (fs_data_dirty s0) with (fs_data_dirty s).
  change (fs_data s0) with (fs_data s).
  split.
  - intros Hdirty. rewrite Hdirty. cbn [orb]. eexists.
    apply in_or_app. right. left. reflexivity.
  - intros pos fs Hin.
    apply in_app_or in Hin as [Hin | Hin].
    { destruct (vs_data_dirty s0 || invalidate); [| destruct Hin].
      destruct Hin as [Hin | []]. discriminate Hin. }
    apply in_app_or in Hin as [Hin | Hin].
    { destruct (fs_data_dirty s || invalidate); [| destruct Hin].
      destruct Hin as [Hin | []]. injection Hin as _ <-. reflexivity. }
    cbv beta in Hin.
    destruct (accelerate_draw && vs_setup_uniforms_dirty (pica s) || invalidate);
      [| destruct Hin].
    destruct Hin as [Hin | []]. discriminate Hin.
Qed.

(** The drawing steps of [Draw] do not touch the uniforms. *)
Lemma SetupIndexArray_uniform_members (s : RasterizerVulkan) :
  uniform_members (snd (SetupIndexArray s)) = uniform_members s.
Proof.
  unfold SetupIndexArray. cbv zeta.
  destruct (sb_Map _ _ _) as [[index_offset invalidate] st]. reflexivity.
Qed.

Lemma AccelerateDrawBatchInternal_uniform_members (is_indexed : bool)
    (s : RasterizerVulkan) :
  uniform_members (snd (AccelerateDrawBatchInternal is_indexed s)) = uniform_members s.
Proof.
  rewrite AccelerateDrawBatchInternal_run. cbn [snd].
  destruct is_indexed; [| reflexivity].
  rewrite <- (SetupIndexArray_uniform_members s). reflexivity.
Qed.

Lemma draw_vertex_batch_uniform_members (s : RasterizerVulkan) :
  uniform_members (snd (draw_vertex_batch s)) = uniform_members s.
Proof.
  unfold draw_vertex_batch. cbv zeta.
  destruct (sb_Map _ _ _) as [[offset invalidate] st]. reflexivity.
Qed.


(** X23: the uniforms the GPU sees are the ones the draw ends with.  On a
    live framebuffer [Draw] leaves the scissor uniforms equal to the
    scissor of the framebuffer helper and both uniform blocks clean.
    Whenever it changed the fragment uniforms after [SyncDrawState] (a new
    scissor, or table offsets recorded by the table uploads) or found them
    dirty, it stores a fragment block in the uniform buffer; and every
    fragment block it stores, also one stored only because the buffer
    wrapped, holds the fragment uniforms as they are when [Draw]
    returns. *)
Theorem Draw_uploads_fragment_uniforms (accelerate is_indexed : bool)
    (s : RasterizerVulkan) :
  let info := SyncDrawState_info (pipeline_info s) in
  let fb_helper := GetFramebufferSurfaces (using_color_fb info) (using_depth_fb info) in
  let s1 := snd (SyncDrawState s) in
  let s' := snd (Draw accelerate is_indexed s) in
  let stored :=
    drop (length (sb_content (uniform_buffer s))) (sb_content (uniform_buffer s')) in
  Handle (Framebuffer_ fb_helper) <> 0 ->
  scissor_uniforms (fs_data s') = Scissor fb_helper
  /\ fs_data_dirty s' = false
  /\ vs_data_dirty s' = false
  /\ (fs_data s' <> fs_data s1 \/ fs_data_dirty s1 = true ->
      exists pos, In (pos, FSUniformData_block (fs_data s')) stored)
  /\ (forall pos fs, In (pos, FSUniformData_block fs) stored -> fs = fs_data s').
Proof.
  intros info fb_helper s1 s' stored Hlive. subst s' stored s1. unfold Draw, bind.
  pose proof (SyncDrawState_pipeline_info s) as Hinfo.
  assert (Hub : uniform_buffer (snd (SyncDrawState s)) = uniform_buffer s).
  { unfold SyncDrawState. destruct (SyncDrawUniforms _) as [[fs vd] fd]. reflexivity. }
  destruct (SyncDrawState s) as [[] s1]. cbn [snd] in *.
  rewrite Hinfo. fold info. fold fb_helper.
  replace (negb (truthy (Handle (Framebuffer_ fb_helper)))) with false
    by (symmetry; apply negb_false_iff, truthy_true; exact Hlive).
  destruct (Scissor fb_helper) as [[[x1 y2] x2] y1].
  match goal with
  | |- context [SyncTextureUnits (Framebuffer_ fb_helper) ?t] => set (sA := t)
  end.
  assert (HA : uniform_buffer sA = uniform_buffer s1
               /\ scissor_uniforms (fs_data sA) = (x1, y2, x2, y1)
               /\ (fs_data sA = fs_data s1 \/ fs_data_dirty sA = true)
               /\ (fs_data_dirty s1 = true -> fs_data_dirty sA = true)).
  { subst sA. cbn [fs_data set_pipeline_info emit set_trace].
    destruct (negb (scissor_x1 (fs_data s1) =? x1) || negb (scissor_x2 (fs_data s1) =? x2)
              || negb (scissor_y1 (fs_data s1) =? y1)
              || negb (scissor_y2 (fs_data s1) =? y2)) eqn:E.
    - repeat split; auto.
    - apply orb_false_iff in E as [E E4]. apply orb_false_iff in E as [E E3].
      apply orb_false_iff in E as [E1 E2].
      apply negb_false_iff, Z.eqb_eq in E1, E2, E3, E4.
      unfold scissor_uniforms. cbn [fs_data set_pipeline_info emit set_trace].
      rewrite E1, E2, E3, E4. repeat split; auto. }
  clearbody sA. destruct HA as (HuA & HsA & HfA & HdA).
  pose proof (SyncTextureUnits_flagged (Framebuffer_ fb_helper) sA) as K1.
  destruct (SyncTextureUnits (Framebuffer_ fb_helper) sA) as [[] s2].
  pose proof (SyncUtilityTextures_flagged (Framebuffer_ fb_helper) s2) as K2.
  destruct (SyncUtilityTextures (Framebuffer_ fb_helper) s2) as [[] s3].
  unfold modify, ret.
  assert (K3 : flagged s3 (emit pipeline_cache_UseFragmentShader s3))
    by (rewrite emit_emits; apply flagged_emits).
  set (s3' := emit pipeline_cache_UseFragmentShader s3) in *. clearbody s3'.
  pose proof (SyncAndUploadLUTs_flagged s3') as K4.
  destruct (SyncAndUploadLUTs s3') as [[] s4].
  pose proof (SyncAndUploadLUTsLF_flagged s4) as K5.
  destruct (SyncAndUploadLUTsLF s4) as [[] s5].
  cbn [snd] in *.
  assert (K : flagged sA s5)
    by (repeat (eapply flagged_trans; [eassumption |]); apply flagged_refl).
  clear K1 K2 K3 K4 K5. destruct K as (Hu5 & Hs5 & Hf5 & Hd5).
  destruct (UploadUniforms_fragment accelerate s5)
    as (Hf6 & Hd6 & Hv6 & stored & Hc6 & Hstored & Honly).
  destruct (UploadUniforms accelerate s5) as [[] s6]. cbn [snd] in *.
  match goal with
  | |- context [(if accelerate then _ else _) ?t] =>
      assert (Hm : uniform_members
                     (snd ((if accelerate then AccelerateDrawBatchInternal is_indexed
                            else fun s0 =>
                                   let '(_, s2) := draw_vertex_batch s0 in (true, s2)) t))
                   = uniform_members s6);
        [| destruct ((if accelerate then AccelerateDrawBatchInternal is_indexed
                      else fun s0 =>
                             let '(_, s2) := draw_vertex_batch s0 in (true, s2)) t)
             as [r s7]]
  end.
  { destruct accelerate.
    - rewrite AccelerateDrawBatchInternal_uniform_members. reflexivity.
    - match goal with
      | |- context [draw_vertex_batch ?t] =>
          pose proof (draw_vertex_batch_uniform_members t) as Hm;
            destruct (draw_vertex_batch t) as [[] s7]
      end.
      exact Hm. }
  cbn [snd] in *. unfold uniform_members in Hm. injection Hm as Hu7 Hf7 Hd7 Hv7.
  cbn [fs_data fs_data_dirty vs_data_dirty uniform_buffer set_vertex_batch].
  assert (Hfs : fs_data s7 = fs_data s5) by congruence.
  assert (Hcontent : sb_content (uniform_buffer s7)
                     = sb_content (uniform_buffer s) ++ stored)
    by (rewrite Hu7, Hc6, Hu5, HuA, Hub; reflexivity).
  rewrite Hcontent, drop_app_length, Hfs.
  split; [congruence |]. split; [congruence |]. split; [congruence |].
  split; [| exact Honly].
  intros Hchanged. apply Hstored.
  destruct Hchanged as [Hchanged | Hdirty]; [| auto].
  destruct Hf5 as [Hf5 | Hf5]; [| exact Hf5].
  destruct HfA as [HfA | HfA]; [| auto].
  exfalso. apply Hchanged. congruence.
Qed.

End Backend.

Arguments sb_state {SB C} _.
Arguments sb_content {SB C} _.

(** * Concrete configurations

    Small register states and collaborators on which the embedding runs;
    the statements above are instantiated at them below. *)

Module Ex.

(** A ring that hands out the cursor and never wraps, and one that wraps
    on every [Map]. *)
Definition sb_Map (st size alignment : Z) : Z * bool * Z := (st, false, st).

Definition sb_Map_wrap (st size alignment : Z) : Z * bool * Z := (0, true, 0).

Definition sb_Commit (st n : Z) : Z := st + n.

Definition stencil_test : FramebufferRegs.StencilTest :=
  {| FramebufferRegs.enable := 1;
     FramebufferRegs.action_stencil_fail := 0;
     FramebufferRegs.action_depth_pass := 0;
     FramebufferRegs.action_depth_fail := 0;
     FramebufferRegs.func := FramebufferRegs.Always;
     FramebufferRegs.reference_value := 0;
     FramebufferRegs.input_mask := 255;
     FramebufferRegs.write_mask := 255 |}.

(** Blending off, logic op NoOp, all colour channels and depth write
    enabled in [depth_color_mask] (0x1F01). *)
Definition output_merger : FramebufferRegs.OutputMerger :=
  {| FramebufferRegs.alphablend_enable := 0;
     FramebufferRegs.alpha_blending :=
       {| FramebufferRegs.blend_equation_rgb := 0;
          FramebufferRegs.blend_equation_a := 0;
          FramebufferRegs.factor_source_rgb := 1;
          FramebufferRegs.factor_dest_rgb := 0;
          FramebufferRegs.factor_source_a := 1;
          FramebufferRegs.factor_dest_a := 0 |};
     FramebufferRegs.blend_const_raw := 0;
     FramebufferRegs.logic_op := FramebufferRegs.NoOp;
     FramebufferRegs.depth_color_mask := 0x1F01;
     FramebufferRegs.depth_test_enable := 1;
     FramebufferRegs.depth_test_func := FramebufferRegs.LessThan;
     FramebufferRegs.depth_write_enable := 1;
     FramebufferRegs.stencil_test := stencil_test |}.

Definition framebuffer_regs : FramebufferRegs.framebuffer_t :=
  {| FramebufferRegs.framebuffer :=
       {| FramebufferRegs.allow_color_write := 0xF;
          FramebufferRegs.allow_depth_stencil_write := 3;
          FramebufferRegs.depth_format := FramebufferRegs.D24S8;
          FramebufferRegs.IsFlipped := false;
          FramebufferRegs.GetColorBufferPhysicalAddress := 0x18000000;
          FramebufferRegs.GetDepthBufferPhysicalAddress := 0x18100000 |};
     FramebufferRegs.output_merger := output_merger;
     FramebufferRegs.IsShadowRendering := false;
     FramebufferRegs.HasStencil := true |}.

(** One loader of stride 4 holding attribute 0, a one-component float. *)
Definition loader0 : PipelineRegs.AttributeLoader :=
  {| PipelineRegs.data_offset := 0;
     PipelineRegs.component_count := 1;
     PipelineRegs.byte_count := 4;
     PipelineRegs.GetComponent := fun _ => 0 |}.

Definition empty_loader : PipelineRegs.AttributeLoader :=
  {| PipelineRegs.data_offset := 0;
     PipelineRegs.component_count := 0;
     PipelineRegs.byte_count := 0;
     PipelineRegs.GetComponent := fun _ => 0 |}.

(** Attribute 1 is marked default; the attributes 12 to 15 always are. *)
Definition vertex_attributes : PipelineRegs.VertexAttributes :=
  {| PipelineRegs.GetPhysicalBaseAddress := 0x100;
     PipelineRegs.attribute_loaders := loader0 :: replicate 11 empty_loader;
     PipelineRegs.GetNumElements := fun _ => 1;
     PipelineRegs.GetElementSizeInBytes := fun _ => 4;
     PipelineRegs.GetStride := fun _ => 4;
     PipelineRegs.GetFormat := fun _ => PipelineRegs.FLOAT;
     PipelineRegs.IsDefaultAttribute := fun i => (i =? 1) || (12 <=? i) |}.

Definition pipeline_regs (num_vertices : Z) : PipelineRegs.pipeline_t :=
  {| PipelineRegs.vertex_attributes := vertex_attributes;
     PipelineRegs.index_array := {| PipelineRegs.format := 0; PipelineRegs.offset := 0x40 |};
     PipelineRegs.num_vertices := num_vertices;
     PipelineRegs.use_gs := PipelineRegs.No;
     PipelineRegs.gs_config_mode := PipelineRegs.Point;
     PipelineRegs.triangle_topology := PipelineRegs.List |}.

Definition texture_config (ty : TexturingRegs.TextureType) : TexturingRegs.TextureConfig :=
  {| TexturingRegs.type := ty;
     TexturingRegs.width := 64;
     TexturingRegs.height := 64;
     TexturingRegs.lod_max_level := 2;
     TexturingRegs.raw := 0 |}.

(** Unit 0 is an enabled cube map, unit 1 an enabled 2D texture and unit 2
    is disabled. *)
Definition texture0 : TexturingRegs.FullTextureConfig :=
  {| TexturingRegs.enabled := true;
     TexturingRegs.config := texture_config TexturingRegs.TextureCube;
     TexturingRegs.format := 4 |}.

Definition texture1 : TexturingRegs.FullTextureConfig :=
  {| TexturingRegs.enabled := true;
     TexturingRegs.config := texture_config TexturingRegs.Texture2D;
     TexturingRegs.format := 0 |}.

Definition texture2 : TexturingRegs.FullTextureConfig :=
  {| TexturingRegs.enabled := false;
     TexturingRegs.config := texture_config TexturingRegs.Texture2D;
     TexturingRegs.format := 0 |}.

Definition texturing_regs : TexturingRegs.texturing_t :=
  {| TexturingRegs.GetTextures := [texture0; texture1; texture2];
     TexturingRegs.GetCubePhysicalAddress :=
       fun f => 0x20000000 + 0x1000 * TexturingRegs.CubeFace_index f |}.

Definition regs (num_vertices : Z) : RegsInternal :=
  {| rasterizer_cull_mode := 0;
     framebuffer := framebuffer_regs;
     pipeline := pipeline_regs num_vertices;
     texturing := texturing_regs;
     vs_GetRegisterForAttribute := fun i => i mod 16;
     lighting_disable := true |}.

(** A device without native logic ops and 8-bit indices, asking for
    vertex strides that are multiples of [stride_alignment]. *)
Definition instance (stride_alignment : Z) : Instance :=
  {| NeedsLogicOpEmulation := true;
     GetMinVertexStrideAlignment := stride_alignment;
     IsIndexTypeUint8Supported := false;
     IsTriangleFanSupported := true;
     IsFragmentShaderBarycentricSupported := false |}.

Definition rectangle0 : Rectangle := {| left := 0; top := 0; right := 0; bottom := 0 |}.

Definition vertex_layout0 : VertexLayout :=
  {| binding_count := 0;
     attribute_count := 0;
     bindings := replicate 16 {| vb_binding := 0; vb_fixed := 0; vb_stride := 0 |};
     attributes :=
       replicate 16
         {| va_binding := 0; va_location := 0; va_type := PipelineRegs.BYTE;
            va_size := 0; va_offset := 0 |} |}.

Definition pipeline_info0 : PipelineInfo :=
  {| blending :=
       {| blend_enable := 0; color_write_mask := 0xF;
          logic_op := FramebufferRegs.Copy;
          src_color_blend_factor := 0; dst_color_blend_factor := 0;
          color_blend_eq := 0; src_alpha_blend_factor := 0;
          dst_alpha_blend_factor := 0; alpha_blend_eq := 0 |};
     attachments := {| color := 0; depth := 0 |};
     rasterization :=
       {| topology := PipelineRegs.List; cull_mode := 0; flip_viewport := false |};
     depth_stencil :=
       {| depth_test_enable := false; depth_write_enable := false;
          stencil_test_enable := false;
          depth_compare_op := FramebufferRegs.Always;
          stencil_fail_op := 0; stencil_pass_op := 0; stencil_depth_fail_op := 0;
          stencil_compare_op := FramebufferRegs.Always |};
     dynamic :=
       {| blend_color := 0; stencil_reference := 0; stencil_compare_mask := 0;
          stencil_write_mask := 0; scissor := rectangle0; viewport := rectangle0 |};
     vertex_layout := vertex_layout0 |}.

Definition fs_data0 : FSUniformData :=
  {| scissor_x1 := 0; scissor_y1 := 0; scissor_x2 := 0; scissor_y2 := 0;
     lighting_lut_offset := replicate 24 0;
     fog_lut_offset := 0;
     proctex_noise_lut_offset := 0; proctex_color_map_offset := 0;
     proctex_alpha_map_offset := 0; proctex_lut_offset := 0;
     proctex_diff_lut_offset := 0 |}.

(** Lighting tables 3 and 5 dirty, the fog table clean, of the procedural
    texture only the colour table dirty; the default of attribute [i] is
    [(i, 0, 0, 1.0)] in bit patterns. *)
Definition pica0 : PicaCore :=
  {| lighting_lut_dirty := 0x28;
     fog_lut_dirty := false;
     proctex_dirty :=
       {| noise_lut_dirty := false; color_map_dirty := false;
          alpha_map_dirty := false; lut_dirty := true; diff_lut_dirty := false |};
     vs_setup_uniforms_dirty := false;
     input_default_attributes :=
       fun i => {| x := i; y := 0; z := 0; w := 0x3F800000 |} |}.

(** A rasterizer before its first draw of indices [0, 1]. *)
Definition rasterizer0 : @RasterizerVulkan Z :=
  {| pipeline_info := pipeline_info0;
     enable_attributes := replicate 16 false;
     binding_offsets := replicate 16 0;
     vertex_info :=
       {| vs_input_index_min := 0; vs_input_index_max := 1; vs_input_size := 8 |};
     vs_data_dirty := false;
     fs_data_dirty := true;
     fs_data := fs_data0;
     pica := pica0;
     vertex_batch := [];
     stream_buffer := {| sb_state := 0; sb_content := fun _ => 0 |};
     uniform_buffer := {| sb_state := 0; sb_content := [] |};
     texture_buffer := {| sb_state := 0; sb_content := [] |};
     texture_lf_buffer := {| sb_state := 0; sb_content := [] |};
     trace := [] |}.

Definition SyncDrawUniforms (u : FSUniformData * bool * bool)
  : FSUniformData * bool * bool := u.

(** Guest memory in which only four bytes remain behind every address,
    while the host memory after them holds [marker]. *)
Definition short_memory (marker : Z) (addr : Z) : MemoryRef :=
  {| GetSize := 4; GetPtr := fun k => if k <? 4 then k + 1 else marker |}.

(** Guest memory with room: the byte at [addr + k] is [(addr + k) mod 251]. *)
Definition memory (addr : Z) : MemoryRef :=
  {| GetSize := 0x1000; GetPtr := fun k => (addr + k) mod 251 |}.

Definition memory_pointer (addr : Z) : Bytes := fun k => (addr + k) mod 251.

(** The surface cache: handles derived from what is asked, and for the
    framebuffer either a live one or the null handle. *)
Definition framebuffer_helper (handle : Z) : FramebufferHelper :=
  {| Framebuffer_ :=
       {| Handle := handle; Format_Color := 4; Format_Depth := 16;
          ImageView_Color := 100 |};
     Scissor := (0, 240, 400, 0);
     DrawRect := {| left := 0; top := 240; right := 400; bottom := 0 |};
     Viewport := {| vp_x := 0; vp_y := 0; vp_width := 400; vp_height := 240 |} |}.

Definition GetFramebufferSurfaces (using_color_fb using_depth_fb : bool)
  : FramebufferHelper :=
  framebuffer_helper (if using_color_fb || using_depth_fb then 7 else 0).

Definition GetFramebufferSurfaces_null (using_color_fb using_depth_fb : bool)
  : FramebufferHelper := framebuffer_helper 0.

Definition GetTextureSurface (texture : TexturingRegs.FullTextureConfig) : Surface :=
  {| ImageView := 100 + TexturingRegs.format texture;
     CopyImageView := 200 + TexturingRegs.format texture;
     StorageView := 300 + TexturingRegs.format texture |}.

Definition GetTextureSurface_info (info : TextureInfo) : Surface :=
  {| ImageView := physical_address info;
     CopyImageView := physical_address info + 1;
     StorageView := physical_address info + 2 |}.

Definition GetSampler (config : TexturingRegs.TextureConfig) : Z :=
  900 + TexturingRegs.width config.

Definition GetTextureCube (config : TextureCubeConfig) : Surface :=
  {| ImageView := 500 + levels config;
     CopyImageView := 600 + levels config;
     StorageView := 700 + levels config |}.

Definition null_surface : Surface :=
  {| ImageView := 1; CopyImageView := 1; StorageView := 1 |}.

Definition null_sampler : Z := 2.

Definition Acquire (heap : DescriptorHeapType) : Z :=
  match heap with Buffer => 10 | Texture => 11 | Utility => 12 end.

(** A pipeline cache whose pipeline is still compiling: it binds only if
    asked to wait; and one whose pipeline is ready. *)
Definition BindPipeline_compiling (info : PipelineInfo) (wait_built : bool) : bool :=
  wait_built.

Definition BindPipeline_ready (info : PipelineInfo) (wait_built : bool) : bool := true.

Definition IsDepthWriteEnabled (info : PipelineInfo) : bool :=
  depth_write_enable (depth_stencil info).

(** [Draw] on a device with stride alignment 1, uniform blocks of 256
    bytes and 24 lighting tables. *)
Definition Draw_on (regs : RegsInternal) (async_shaders : bool)
    (GetFramebufferSurfaces : bool -> bool -> FramebufferHelper)
    (BindPipeline : PipelineInfo -> bool -> bool)
    (accelerate is_indexed : bool) : @RasterizerVulkan Z -> bool * @RasterizerVulkan Z :=
  Draw sb_Map sb_Commit (instance 1) regs async_shaders 256 256 256 256 40 24
    memory_pointer GetFramebufferSurfaces GetTextureSurface GetTextureSurface_info
    GetSampler GetTextureCube null_surface null_sampler Acquire BindPipeline
    IsDepthWriteEnabled SyncDrawUniforms accelerate is_indexed.

End Ex.

(** * The statements at the concrete configurations *)

(** C1 at a device that emulates logic ops, with blending off and the
    logic op NoOp: the colour write mask is 0 although the registers
    enable all four channels, and depth is still written. *)
Lemma C1_witness :
  let info :=
    pipeline_info
      (snd (SyncDrawState (Ex.instance 1) (Ex.regs 3) Ex.SyncDrawUniforms
              Ex.rasterizer0)) in
  color_write_mask (blending info) = 0
  /\ depth_write_enable (depth_stencil info) = true.
Proof.
  apply (C1_noop_logic_op_masks_color (Ex.instance 1) (Ex.regs 3)
           Ex.SyncDrawUniforms Ex.rasterizer0); reflexivity.
Defined.


(** C5 at a source that is too short: two vertices of stride 4 are asked
    of a guest address behind which 4 bytes are available.  The flush and
    the error report are the two events of the round, the binding is
    created, and the read is not clamped: of two guest memories that agree
    on the 4 available bytes, the staged byte 5 follows what the host holds
    past them, so the staged region depends on bytes outside the guest
    block. *)
Theorem C5_short_source_read_not_clamped :
  let s := Ex.rasterizer0 in
  let run mem :=
    snd (setup_loader (Ex.instance 1) (Ex.regs 3) mem 0 (0, s) Ex.loader0) in
  let mem1 := Ex.short_memory 0xEE in
  let mem2 := Ex.short_memory 0x11 in
  (GetSize (mem1 0x100) = 4 /\ GetSize (mem2 0x100) = 4)
  /\ (forall k, 0 <= k < 4 -> GetPtr (mem1 0x100) k = GetPtr (mem2 0x100) k)
  /\ events_since s (run mem1)
     = [res_cache_FlushRegion 0x100 8; LOG_ERROR_vertex_buffer_size 8 4 0x100]
  /\ sb_content (stream_buffer (run mem1)) 5 = 0xEE
  /\ sb_content (stream_buffer (run mem2)) 5 = 0x11
  /\ ~ read_clamped_to_available 4 0 (sb_content (stream_buffer s))
         (sb_content (stream_buffer (run mem1)))
  /\ binding_count (vertex_layout (pipeline_info (run mem1))) = 1.
Proof.
  cbv zeta. split; [split; reflexivity |].
  split.
  { intros k Hk. cbn. destruct (Z.ltb_spec k 4); [reflexivity | lia]. }
  split; [reflexivity |]. split; [reflexivity |]. split; [reflexivity |].
  split; [| reflexivity].
  intros H. specialize (H 5 ltac:(cbn; lia)). vm_compute in H. discriminate H.
Qed.

(** C2 at a ring that wraps on every [Map]: only the fragment uniforms,
    the lighting tables 3 and 5 and the procedural colour table were dirty,
    and each upload stores everything its buffer backs. *)
Lemma C2_witness :
  let s := Ex.rasterizer0 in
  stored_blocks (uniform_buffer s)
    (uniform_buffer (snd (UploadUniforms Ex.sb_Map_wrap Ex.sb_Commit 256 256 256 256 true s)))
  = [VSUniformData_block; FSUniformData_block Ex.fs_data0; VSPicaUniformData_block]
  /\ stored_blocks (texture_lf_buffer s)
       (texture_lf_buffer (snd (SyncAndUploadLUTsLF Ex.sb_Map_wrap Ex.sb_Commit 24 s)))
     = map lighting_lut (seqZ 0 24) ++ [fog_lut]
  /\ stored_blocks (texture_buffer s)
       (texture_buffer (snd (SyncAndUploadLUTs Ex.sb_Map_wrap Ex.sb_Commit s)))
     = [proctex_noise_table; proctex_color_map_table; proctex_alpha_map_table;
        proctex_color_table; proctex_color_diff_table].
Proof.
  destruct (C2_wrap_forces_full_upload Ex.sb_Map_wrap Ex.sb_Commit 256 256 256 256 24
              true Ex.rasterizer0) as (Hu & Hlf & Hpt).
  split; [apply Hu; reflexivity |].
  split; [apply Hlf; [lia | reflexivity | reflexivity] | apply Hpt; reflexivity].
Defined.

(** Without a wrap the same uploads store only what was dirty. *)
Example upload_without_wrap :
  let s := Ex.rasterizer0 in
  stored_blocks (uniform_buffer s)
    (uniform_buffer (snd (UploadUniforms Ex.sb_Map Ex.sb_Commit 256 256 256 256 true s)))
  = [FSUniformData_block Ex.fs_data0]
  /\ stored_blocks (texture_lf_buffer s)
       (texture_lf_buffer (snd (SyncAndUploadLUTsLF Ex.sb_Map Ex.sb_Commit 24 s)))
     = [lighting_lut 3; lighting_lut 5]
  /\ stored_blocks (texture_buffer s)
       (texture_buffer (snd (SyncAndUploadLUTs Ex.sb_Map Ex.sb_Commit s)))
     = [proctex_color_table].
Proof. vm_compute. repeat split. Qed.

(** C6 at a surface cache that resolves the null framebuffer. *)
Lemma C6_witness :
  let r :=
    Ex.Draw_on (Ex.regs 3) false Ex.GetFramebufferSurfaces_null Ex.BindPipeline_ready
      true false Ex.rasterizer0 in
  fst r = true
  /\ pipeline_binds (events_since Ex.rasterizer0 (snd r)) = []
  /\ existsb records_draw (events_since Ex.rasterizer0 (snd r)) = false.
Proof.
  destruct (C6_null_framebuffer_is_noop Ex.sb_Map Ex.sb_Commit (Ex.instance 1)
              (Ex.regs 3) false 256 256 256 256 40 24 Ex.memory_pointer
              Ex.GetFramebufferSurfaces_null Ex.GetTextureSurface
              Ex.GetTextureSurface_info Ex.GetSampler Ex.GetTextureCube
              Ex.null_surface Ex.null_sampler Ex.Acquire Ex.BindPipeline_ready
              Ex.IsDepthWriteEnabled Ex.SyncDrawUniforms true false Ex.rasterizer0)
    as (Hr & _ & Hb & Hd & _).
  - reflexivity.
  - split; [exact Hr |]. split; [exact Hb | exact Hd].
Defined.

(** With a live framebuffer the same draw binds a pipeline and records
    its draw. *)
Example draw_with_framebuffer :
  let r :=
    Ex.Draw_on (Ex.regs 3) false Ex.GetFramebufferSurfaces Ex.BindPipeline_ready
      true false Ex.rasterizer0 in
  fst r = true
  /\ length (pipeline_binds (events_since Ex.rasterizer0 (snd r))) = 1%nat
  /\ existsb records_draw (events_since Ex.rasterizer0 (snd r)) = true.
Proof. vm_compute. repeat split. Qed.

(** C7 with asynchronous compilation on, 100 vertices and a pipeline
    that is still compiling: the bind does not wait, no draw is recorded,
    the result is true. *)
Lemma C7_witness :
  let r :=
    AccelerateDrawBatchInternal Ex.sb_Map Ex.sb_Commit (Ex.instance 1) (Ex.regs 100)
      true Ex.memory_pointer Ex.BindPipeline_compiling false Ex.rasterizer0 in
  fst r = true
  /\ pipeline_binds (events_since Ex.rasterizer0 (snd r)) = [(Ex.pipeline_info0, false)]
  /\ existsb records_draw (events_since Ex.rasterizer0 (snd r)) = false.
Proof.
  destruct (C7_async_pipeline_bind Ex.sb_Map Ex.sb_Commit (Ex.instance 1) (Ex.regs 100)
              true Ex.memory_pointer Ex.BindPipeline_compiling false Ex.rasterizer0)
    as (_ & Hb & Hr & Hskip & _).
  split; [exact Hr |]. split; [exact Hb | apply Hskip; reflexivity].
Defined.

(** With 6 vertices the same bind waits, and the draw is recorded. *)
Example small_draw_waits :
  let r :=
    AccelerateDrawBatchInternal Ex.sb_Map Ex.sb_Commit (Ex.instance 1) (Ex.regs 6)
      true Ex.memory_pointer Ex.BindPipeline_compiling false Ex.rasterizer0 in
  pipeline_binds (events_since Ex.rasterizer0 (snd r)) = [(Ex.pipeline_info0, true)]
  /\ existsb records_draw (events_since Ex.rasterizer0 (snd r)) = true.
Proof. vm_compute. repeat split. Qed.

(** C8 at a cube map with maximum LOD level 2 on unit 0: one resolution
    with 3 levels and one binding for unit 0. *)
Lemma C8_witness :
  let fb := Framebuffer_ (Ex.framebuffer_helper 7) in
  let new :=
    events_since Ex.rasterizer0
      (snd (SyncTextureUnits (Ex.regs 3) Ex.GetTextureSurface Ex.GetTextureSurface_info
              Ex.GetSampler Ex.GetTextureCube Ex.null_surface Ex.null_sampler Ex.Acquire
              fb Ex.rasterizer0)) in
  cube_resolutions new
  = [ {| px := 0x20000000; nx := 0x20001000; py := 0x20002000; ny := 0x20003000;
         pz := 0x20004000; nz := 0x20005000; cube_width := 64; levels := 3;
         cube_format := 4 |} ]
  /\ image_sampler_bindings 0 new = [(11, 0, 503, 964)].
Proof.
  apply (C8_texture_cube_bound_once (Ex.regs 3) Ex.GetTextureSurface
           Ex.GetTextureSurface_info Ex.GetSampler Ex.GetTextureCube Ex.null_surface
           Ex.null_sampler Ex.Acquire (Framebuffer_ (Ex.framebuffer_helper 7))
           Ex.rasterizer0 Ex.texture0 [Ex.texture1; Ex.texture2]).
  - reflexivity.
  - reflexivity.
  - reflexivity.
  - cbn. lia.
Defined.

(** C10 as stated fails at [num_vertices = 2 ^ 31]: the buffer size is
    the 32-bit product [2 * num_vertices], which wraps to 0, so 0 bytes are
    committed while the claim asks for [2 * num_vertices]. *)
Lemma C10_counterexample :
  let regs := Ex.regs (2 ^ 31) in
  let n := PipelineRegs.num_vertices (pipeline regs) in
  let s' :=
    snd (SetupIndexArray Ex.sb_Map Ex.sb_Commit (Ex.instance 1) regs
           Ex.memory_pointer Ex.rasterizer0) in
  PipelineRegs.format (PipelineRegs.index_array (pipeline regs)) = 0
  /\ IsIndexTypeUint8Supported (Ex.instance 1) = false
  /\ 0 <= n < 2 ^ 32
  /\ sb_state (stream_buffer s')
     = Ex.sb_Commit (snd (Ex.sb_Map (sb_state (stream_buffer Ex.rasterizer0)) 0 2)) 0
  /\ sb_state (stream_buffer s')
     <> Ex.sb_Commit (snd (Ex.sb_Map (sb_state (stream_buffer Ex.rasterizer0)) (2 * n) 2))
          (2 * n).
Proof.
  cbv zeta.
  split; [reflexivity |]. split; [reflexivity |].
  split; [split; [discriminate | reflexivity] |].
  rewrite SetupIndexArray_commit.
  split; [reflexivity | discriminate].
Qed.

(** C10 (amended) at three 8-bit indices on a device without native 8-bit
    indices: index 1 is staged as the guest byte at [0x140 + 1] followed by
    a zero byte, and 6 bytes are committed. *)
Lemma C10_witness :
  let s' :=
    snd (SetupIndexArray Ex.sb_Map Ex.sb_Commit (Ex.instance 1) (Ex.regs 3)
           Ex.memory_pointer Ex.rasterizer0) in
  sb_content (stream_buffer s') 2 = (0x140 + 1) mod 251
  /\ sb_content (stream_buffer s') 3 = 0
  /\ sb_state (stream_buffer s') = 6
  /\ events_since Ex.rasterizer0 s' = [scheduler_Record [bindIndexBuffer 0 eUint16]].
Proof.
  destruct (C10_u8_indices_widened Ex.sb_Map Ex.sb_Commit (Ex.instance 1) (Ex.regs 3)
              Ex.memory_pointer Ex.rasterizer0) as (Hidx & Hsize & Hev).
  - reflexivity.
  - reflexivity.
  - cbn. lia.
  - cbn. lia.
  - destruct (Hidx 1 ltac:(cbn; lia)) as [Hlow Hhigh].
    split; [exact Hlow |]. split; [exact Hhigh |].
    split; [exact Hsize | exact Hev].
Defined.

(** C9 at one active loader that feeds location 0, with attribute 1
    marked default: location 0 points at the loader's binding 0, location
    1 at the fixed binding 1, where the default value (1, 0, 0, 1.0) of
    attribute 1 is staged, location 2 at offset 0 of that binding, where
    the constant ends in the bytes [80 3F] of 1.0. *)
Lemma C9_witness :
  let s' :=
    snd (SetupVertexArray Ex.sb_Map Ex.sb_Commit (Ex.instance 1) (Ex.regs 3)
           Ex.memory Ex.rasterizer0) in
  let layout' := vertex_layout (pipeline_info s') in
  let staged := sb_content (stream_buffer s') in
  attribute_count layout' = 16
  /\ binding_count layout' - 1 = 1
  /\ exists fixed_ptr,
       (exists a, attributes layout' !! 0%nat = Some a
                  /\ va_location a = 0 /\ va_binding a = 0)
       /\ (exists a, attributes layout' !! 1%nat = Some a
                     /\ va_location a = 1 /\ va_binding a = 1 /\ va_size a = 4
                     /\ staged (fixed_ptr + va_offset a + 0) = 1
                     /\ staged (fixed_ptr + va_offset a + 15) = 0x3F)
       /\ (exists a, attributes layout' !! 2%nat = Some a
                     /\ va_location a = 2 /\ va_binding a = 1 /\ va_offset a = 0
                     /\ staged (fixed_ptr + 12) = 0
                     /\ staged (fixed_ptr + 14) = 0x80
                     /\ staged (fixed_ptr + 15) = 0x3F).
Proof.
  destruct (C9_one_attribute_per_location Ex.sb_Map Ex.sb_Commit (Ex.instance 1)
              (Ex.regs 3) Ex.memory Ex.rasterizer0)
    as (Hac & _ & Hfixed & fixed_ptr & stride & _ & _ & Hloc).
  - intros i. cbn. apply Z.mod_pos_bound. lia.
  - vm_compute. lia.
  - reflexivity.
  - reflexivity.
  - reflexivity.
  - change (active_count
              (PipelineRegs.attribute_loaders (vertex_attributes_regs (Ex.regs 3))))
      with 1 in Hfixed.
    split; [exact Hac |]. split; [exact Hfixed |].
    exists fixed_ptr. split; [| split].
    + destruct (Hloc 0 ltac:(lia)) as (a & Ha & Hl & Hcase).
      change (resolved_by_loader (Ex.regs 3) 0) with true in Hcase.
      destruct Hcase as (k & loader & Hk & Hact & _ & Hb & _).
      exists a. split; [exact Ha |]. split; [exact Hl |].
      destruct k as [| k]; [exact Hb |].
      change (PipelineRegs.attribute_loaders (vertex_attributes_regs (Ex.regs 3)) !! S k)
        with (replicate 11 Ex.empty_loader !! k) in Hk.
      apply lookup_replicate in Hk as [-> _]. discriminate Hact.
    + destruct (Hloc 1 ltac:(lia)) as (a & Ha & Hl & Hcase).
      change (resolved_by_loader (Ex.regs 3) 1) with false in Hcase.
      change (marked_default (Ex.regs 3) 1) with true in Hcase.
      destruct Hcase as (i & Hi & _ & Hr & Hb & _ & Hsize & Hbytes).
      assert (Hone : i = 1).
      { change (vs_GetRegisterForAttribute (Ex.regs 3) i) with (i mod 16) in Hr.
        rewrite Z.mod_small in Hr by lia. exact Hr. }
      subst i. exists a. rewrite Hfixed in Hb.
      split; [exact Ha |]. split; [exact Hl |]. split; [exact Hb |].
      split; [exact Hsize |].
      split; [exact (Hbytes 0 ltac:(lia)) | exact (Hbytes 15 ltac:(lia))].
    + destruct (Hloc 2 ltac:(lia)) as (a & Ha & Hl & Hcase).
      change (resolved_by_loader (Ex.regs 3) 2) with false in Hcase.
      change (marked_default (Ex.regs 3) 2) with false in Hcase.
      destruct Hcase as (Hb & _ & _ & Ho & Hconst).
      exists a. rewrite Hfixed in Hb.
      split; [exact Ha |]. split; [exact Hl |]. split; [exact Hb |].
      split; [exact Ho |].
      split; [exact (Hconst 12 ltac:(lia)) |].
      split; [exact (Hconst 14 ltac:(lia)) | exact (Hconst 15 ltac:(lia))].
Defined.

(** The whole layout of that configuration, as (binding, location,
    offset, size) per attribute, and its two bindings. *)
Example vertex_layout_of_one_loader :
  let s' :=
    snd (SetupVertexArray Ex.sb_Map Ex.sb_Commit (Ex.instance 1) (Ex.regs 3)
           Ex.memory Ex.rasterizer0) in
  let layout' := vertex_layout (pipeline_info s') in
  map (fun a => (va_binding a, va_location a, va_offset a, va_size a))
    (attributes layout')
  = [(0, 0, 0, 1); (1, 1, 16, 4); (1, 2, 0, 4); (1, 3, 0, 4); (1, 4, 0, 4);
     (1, 5, 0, 4); (1, 6, 0, 4); (1, 7, 0, 4); (1, 8, 0, 4); (1, 9, 0, 4);
     (1, 10, 0, 4); (1, 11, 0, 4); (1, 12, 32, 4); (1, 13, 48, 4);
     (1, 14, 64, 4); (1, 15, 80, 4)]
  /\ take 2 (bindings layout')
     = [{| vb_binding := 0; vb_fixed := 0; vb_stride := 4 |};
        {| vb_binding := 1; vb_fixed := 1; vb_stride := 96 |}]
  /\ binding_count layout' = 2.
Proof. vm_compute. repeat split. Qed.

(** * Further configurations

    Variations of the configurations above for the further properties. *)

Module Ex2.

(** The output merger of [Ex.output_merger] with the depth test switched
    off and depth writes still on. *)
Definition output_merger_no_depth_test : FramebufferRegs.OutputMerger :=
  {| FramebufferRegs.alphablend_enable := 0;
     FramebufferRegs.alpha_blending :=
       FramebufferRegs.alpha_blending Ex.output_merger;
     FramebufferRegs.blend_const_raw := 0;
     FramebufferRegs.logic_op := FramebufferRegs.NoOp;
     FramebufferRegs.depth_color_mask := 0x1F01;
     FramebufferRegs.depth_test_enable := 0;
     FramebufferRegs.depth_test_func := FramebufferRegs.LessThan;
     FramebufferRegs.depth_write_enable := 1;
     FramebufferRegs.stencil_test := Ex.stencil_test |}.

Definition framebuffer_regs_with (allow_depth_stencil_write : Z)
    (om : FramebufferRegs.OutputMerger) : FramebufferRegs.framebuffer_t :=
  {| FramebufferRegs.framebuffer :=
       {| FramebufferRegs.allow_color_write := 0xF;
          FramebufferRegs.allow_depth_stencil_write := allow_depth_stencil_write;
          FramebufferRegs.depth_format := FramebufferRegs.D24S8;
          FramebufferRegs.IsFlipped := false;
          FramebufferRegs.GetColorBufferPhysicalAddress := 0x18000000;
          FramebufferRegs.GetDepthBufferPhysicalAddress := 0x18100000 |};
     FramebufferRegs.output_merger := om;
     FramebufferRegs.IsShadowRendering := false;
     FramebufferRegs.HasStencil := true |}.

(** Every attribute marked default and no loader active. *)
Definition vertex_attributes_all_default : PipelineRegs.VertexAttributes :=
  {| PipelineRegs.GetPhysicalBaseAddress := 0x100;
     PipelineRegs.attribute_loaders := replicate 12 Ex.empty_loader;
     PipelineRegs.GetNumElements := fun _ => 1;
     PipelineRegs.GetElementSizeInBytes := fun _ => 4;
     PipelineRegs.GetStride := fun _ => 4;
     PipelineRegs.GetFormat := fun _ => PipelineRegs.FLOAT;
     PipelineRegs.IsDefaultAttribute := fun _ => true |}.

Definition pipeline_regs_with (attrs : PipelineRegs.VertexAttributes)
    (index_format : Z) (gs : PipelineRegs.UseGS)
    (topology : PipelineRegs.TriangleTopology) : PipelineRegs.pipeline_t :=
  {| PipelineRegs.vertex_attributes := attrs;
     PipelineRegs.index_array :=
       {| PipelineRegs.format := index_format; PipelineRegs.offset := 0x40 |};
     PipelineRegs.num_vertices := 3;
     PipelineRegs.use_gs := gs;
     PipelineRegs.gs_config_mode := PipelineRegs.Point;
     PipelineRegs.triangle_topology := topology |}.

(** Unit 0 as an enabled shadow cube. *)
Definition shadow_cube : TexturingRegs.FullTextureConfig :=
  {| TexturingRegs.enabled := true;
     TexturingRegs.config := Ex.texture_config TexturingRegs.ShadowCube;
     TexturingRegs.format := 4 |}.

Definition texturing_shadow_cube : TexturingRegs.texturing_t :=
  {| TexturingRegs.GetTextures := [shadow_cube; Ex.texture1; Ex.texture2];
     TexturingRegs.GetCubePhysicalAddress :=
       fun f => 0x20000000 + 0x1000 * TexturingRegs.CubeFace_index f |}.

Definition regs_with (fb : FramebufferRegs.framebuffer_t)
    (p : PipelineRegs.pipeline_t) (t : TexturingRegs.texturing_t) : RegsInternal :=
  {| rasterizer_cull_mode := 0;
     framebuffer := fb;
     pipeline := p;
     texturing := t;
     vs_GetRegisterForAttribute := fun i => i mod 16;
     lighting_disable := true |}.

Definition regs_no_depth_test : RegsInternal :=
  regs_with (framebuffer_regs_with 3 output_merger_no_depth_test)
    (Ex.pipeline_regs 3) Ex.texturing_regs.

Definition regs_no_depth_stencil_write : RegsInternal :=
  regs_with (framebuffer_regs_with 0 Ex.output_merger)
    (Ex.pipeline_regs 3) Ex.texturing_regs.

(** Three 16-bit indices. *)
Definition regs_u16_indices : RegsInternal :=
  regs_with Ex.framebuffer_regs
    (pipeline_regs_with Ex.vertex_attributes 1 PipelineRegs.No PipelineRegs.List)
    Ex.texturing_regs.

(** A geometry shader in point mode with the shader topology. *)
Definition regs_geometry_shader : RegsInternal :=
  regs_with Ex.framebuffer_regs
    (pipeline_regs_with Ex.vertex_attributes 0 PipelineRegs.Yes PipelineRegs.Shader)
    Ex.texturing_regs.

Definition regs_all_default : RegsInternal :=
  regs_with Ex.framebuffer_regs
    (pipeline_regs_with vertex_attributes_all_default 0 PipelineRegs.No
       PipelineRegs.List)
    Ex.texturing_regs.

Definition regs_shadow_cube : RegsInternal :=
  regs_with Ex.framebuffer_regs (Ex.pipeline_regs 3) texturing_shadow_cube.

(** Three batched vertices of 40 bytes; byte [j] of vertex [v] is
    [40 * v + j]. *)
Definition batched_vertex (v : Z) : list Z := map (fun j => 40 * v + j) (seqZ 0 40).

Definition rasterizer_with_batch : @RasterizerVulkan Z :=
  set_vertex_batch [batched_vertex 0; batched_vertex 1; batched_vertex 2]
    Ex.rasterizer0.

Definition AnalyzeVertexArray (is_indexed : bool) (stride_alignment : Z)
  : VertexArrayInfo :=
  {| vs_input_index_min := 0; vs_input_index_max := 1; vs_input_size := 8 |}.

Definition UseProgrammableVertexShader (layout : VertexLayout) : bool := true.

End Ex2.

(** * The further properties at concrete configurations *)

(** X2 with the depth test off and depth writes on: the descriptor tests
    with Always, and its depth test is on. *)
Lemma SyncDrawState_depth_write_without_test_witness :
  let ds :=
    depth_stencil
      (pipeline_info
         (snd (SyncDrawState (Ex.instance 1) Ex2.regs_no_depth_test
                 Ex.SyncDrawUniforms Ex.rasterizer0))) in
  depth_compare_op ds = FramebufferRegs.Always /\ depth_test_enable ds = true.
Proof.
  destruct (SyncDrawState_depth_write_without_test (Ex.instance 1)
              Ex2.regs_no_depth_test Ex.SyncDrawUniforms Ex.rasterizer0)
    as [Hop Hen].
  - cbn. lia.
  - split; [exact Hop | apply Hen; reflexivity].
Defined.

(** X3 with depth and stencil writes disallowed, while the output merger
    enables the depth write and has the stencil write mask 255. *)
Lemma SyncDrawState_depth_stencil_write_disallowed_witness :
  let info :=
    pipeline_info
      (snd (SyncDrawState (Ex.instance 1) Ex2.regs_no_depth_stencil_write
              Ex.SyncDrawUniforms Ex.rasterizer0)) in
  depth_write_enable (depth_stencil info) = false
  /\ stencil_write_mask (dynamic info) = 0.
Proof.
  apply (SyncDrawState_depth_stencil_write_disallowed (Ex.instance 1)
           Ex2.regs_no_depth_stencil_write Ex.SyncDrawUniforms Ex.rasterizer0).
  reflexivity.
Defined.

(** X4 at three 16-bit indices: the six guest bytes from 0x140 are staged
    as they are. *)
Lemma SetupIndexArray_verbatim_witness :
  let s' :=
    snd (SetupIndexArray Ex.sb_Map Ex.sb_Commit (Ex.instance 1) Ex2.regs_u16_indices
           Ex.memory_pointer Ex.rasterizer0) in
  sb_content (stream_buffer s') 5 = Ex.memory_pointer 0x140 5
  /\ sb_content (stream_buffer s') 6 = 0
  /\ sb_state (stream_buffer s') = 6
  /\ events_since Ex.rasterizer0 s' = [scheduler_Record [bindIndexBuffer 0 eUint16]].
Proof.
  destruct (SetupIndexArray_verbatim Ex.sb_Map Ex.sb_Commit (Ex.instance 1)
              Ex2.regs_u16_indices Ex.memory_pointer Ex.rasterizer0)
    as (Hin & Hout & Hst & Hev).
  - left. cbn. lia.
  - cbn. lia.
  - split; [exact (Hin 5 ltac:(cbn; lia)) |].
    split; [exact (Hout 6 ltac:(cbn; lia)) |].
    split; [exact Hst | exact Hev].
Defined.

(** X5 at an indexed draw of three vertices with a ready pipeline. *)
Lemma AccelerateDrawBatchInternal_commands_witness :
  let new :=
    events_since Ex.rasterizer0
      (snd (AccelerateDrawBatchInternal Ex.sb_Map Ex.sb_Commit (Ex.instance 1)
              (Ex.regs 3) false Ex.memory_pointer Ex.BindPipeline_ready true
              Ex.rasterizer0)) in
  exists index_binds,
    new = index_binds
          ++ [pipeline_cache_BindPipeline Ex.pipeline_info0 true;
              scheduler_Record
                [bindVertexBuffers 0 0 (replicate 16 0); drawIndexed 3 1 0 0 0]]
    /\ exists offset index_type,
         index_binds = [scheduler_Record [bindIndexBuffer offset index_type]].
Proof.
  apply (AccelerateDrawBatchInternal_commands Ex.sb_Map Ex.sb_Commit (Ex.instance 1)
           (Ex.regs 3) false Ex.memory_pointer Ex.BindPipeline_ready true
           Ex.rasterizer0).
  - reflexivity.
  - cbn. lia.
Defined.

(** X6 at an accelerated draw on the live framebuffer 7: the one pipeline
    is bound after rendering begins, with the attachment formats of that
    framebuffer and its draw rectangle as scissor. *)
Lemma Draw_binds_after_begin_witness :
  let fb_helper := Ex.framebuffer_helper 7 in
  let r :=
    Ex.Draw_on (Ex.regs 3) false Ex.GetFramebufferSurfaces Ex.BindPipeline_ready
      true false Ex.rasterizer0 in
  exists pre post bound,
    events_since Ex.rasterizer0 (snd r)
    = pre ++ renderpass_cache_BeginRendering (Framebuffer_ fb_helper)
               (DrawRect fb_helper) :: post
    /\ passive pre
    /\ pipeline_binds post = [(bound, true)]
    /\ pipeline_info (snd r) = bound
    /\ attachments bound = {| color := 4; depth := 16 |}
    /\ viewport (dynamic bound) = {| left := 0; top := 0; right := 400; bottom := 240 |}
    /\ scissor (dynamic bound) = DrawRect fb_helper.
Proof.
  destruct (Draw_binds_after_begin Ex.sb_Map Ex.sb_Commit (Ex.instance 1) (Ex.regs 3)
              false 256 256 256 256 40 24 Ex.memory_pointer Ex.GetFramebufferSurfaces
              Ex.GetTextureSurface Ex.GetTextureSurface_info Ex.GetSampler
              Ex.GetTextureCube Ex.null_surface Ex.null_sampler Ex.Acquire
              Ex.BindPipeline_ready Ex.IsDepthWriteEnabled Ex.SyncDrawUniforms
              true false Ex.rasterizer0)
    as (pre & post & bound & Hnew & Hpre & Hbinds & Hinfo & Hatt & Hvp & Hsc & _).
  - vm_compute. discriminate.
  - exists pre, post, bound.
    split; [exact Hnew |]. split; [exact Hpre |]. split; [exact Hbinds |].
    split; [exact Hinfo |]. split; [exact Hatt |]. split; [exact Hvp | exact Hsc].
Defined.

(** X7 at a batch of three vertices of 40 bytes: one closure draws the
    three vertices from offset 0, and byte 2 of vertex 1 is staged at
    offset 42. *)
Lemma Draw_software_path_witness :
  let s := Ex2.rasterizer_with_batch in
  let s' :=
    snd (Ex.Draw_on (Ex.regs 3) false Ex.GetFramebufferSurfaces Ex.BindPipeline_ready
           false false s) in
  scheduler_records (events_since s s')
  = [[bindVertexBuffers 0 1 [0]; draw 3 1 0 0]]
  /\ sb_content (stream_buffer s') 42 = 42
  /\ sb_state (stream_buffer s') = 120
  /\ vertex_batch s' = [].
Proof.
  destruct (Draw_software_path Ex.sb_Map Ex.sb_Commit (Ex.instance 1) (Ex.regs 3)
              false 256 256 256 256 40 24 Ex.memory_pointer Ex.GetFramebufferSurfaces
              Ex.GetTextureSurface Ex.GetTextureSurface_info Ex.GetSampler
              Ex.GetTextureCube Ex.null_surface Ex.null_sampler Ex.Acquire
              Ex.BindPipeline_ready Ex.IsDepthWriteEnabled Ex.SyncDrawUniforms
              false Ex2.rasterizer_with_batch)
    as (Hrec & Hbytes & Hst & Hbatch).
  - vm_compute. discriminate.
  - lia.
  - vm_compute. reflexivity.
  - repeat constructor.
  - split; [exact Hrec |].
    split; [exact (Hbytes 1%nat 2 (Ex2.batched_vertex 1) eq_refl ltac:(lia)) |].
    split; [exact Hst | exact Hbatch].
Defined.

(** X10 at the same batch, whatever the accelerated path left in the
    descriptor. *)
Lemma DrawTriangles_draws_batch_witness :
  let s := Ex2.rasterizer_with_batch in
  let s' :=
    snd (DrawTriangles Ex.sb_Map Ex.sb_Commit (Ex.instance 1) (Ex.regs 3) false
           256 256 256 256 40 24 Ex.memory_pointer Ex.GetFramebufferSurfaces
           Ex.GetTextureSurface Ex.GetTextureSurface_info Ex.GetSampler
           Ex.GetTextureCube Ex.null_surface Ex.null_sampler Ex.Acquire
           Ex.BindPipeline_ready Ex.IsDepthWriteEnabled Ex.SyncDrawUniforms
           Ex.vertex_layout0 s) in
  exists bound rest,
    events_since s s'
    = pipeline_cache_UseTrivialVertexShader
        :: pipeline_cache_UseTrivialGeometryShader :: rest
    /\ pipeline_binds rest = [(bound, true)]
    /\ topology (rasterization bound) = PipelineRegs.List
    /\ binding_count (vertex_layout bound) = 1
    /\ attribute_count (vertex_layout bound) = 8
    /\ vertex_batch s' = [].
Proof.
  destruct (DrawTriangles_draws_batch Ex.sb_Map Ex.sb_Commit (Ex.instance 1) (Ex.regs 3)
              false 256 256 256 256 40 24 Ex.memory_pointer Ex.GetFramebufferSurfaces
              Ex.GetTextureSurface Ex.GetTextureSurface_info Ex.GetSampler
              Ex.GetTextureCube Ex.null_surface Ex.null_sampler Ex.Acquire
              Ex.BindPipeline_ready Ex.IsDepthWriteEnabled Ex.SyncDrawUniforms
              Ex.vertex_layout0 Ex2.rasterizer_with_batch)
    as (bound & rest & Hnew & Hbinds & Htop & _ & Hbc & Hac & Hbatch).
  - vm_compute. discriminate.
  - vm_compute. discriminate.
  - exists bound, rest.
    split; [exact Hnew |]. split; [exact Hbinds |]. split; [exact Htop |].
    split; [exact Hbc |]. split; [exact Hac | exact Hbatch].
Defined.

(** X13 at a draw with a geometry shader in point mode and shader
    topology: the vertex setup runs, the draw is turned down, and nothing
    was bound or recorded. *)
Lemma AccelerateDrawBatch_failure_is_passive_witness :
  let r :=
    AccelerateDrawBatch Ex.sb_Map Ex.sb_Commit (Ex.instance 1)
      Ex2.regs_geometry_shader false 256 256 256 256 40 24 Ex.memory
      Ex.memory_pointer Ex.GetFramebufferSurfaces Ex.GetTextureSurface
      Ex.GetTextureSurface_info Ex.GetSampler Ex.GetTextureCube Ex.null_surface
      Ex.null_sampler Ex.Acquire Ex.BindPipeline_ready
      Ex2.UseProgrammableVertexShader true Ex.IsDepthWriteEnabled
      Ex.SyncDrawUniforms Ex2.AnalyzeVertexArray false Ex.rasterizer0 in
  fst r = false
  /\ passive (events_since Ex.rasterizer0 (snd r))
  /\ events_since Ex.rasterizer0 (snd r) <> [].
Proof.
  split; [reflexivity |].
  split.
  - apply (AccelerateDrawBatch_failure_is_passive Ex.sb_Map Ex.sb_Commit
             (Ex.instance 1) Ex2.regs_geometry_shader false 256 256 256 256 40 24
             Ex.memory Ex.memory_pointer Ex.GetFramebufferSurfaces
             Ex.GetTextureSurface Ex.GetTextureSurface_info Ex.GetSampler
             Ex.GetTextureCube Ex.null_surface Ex.null_sampler Ex.Acquire
             Ex.BindPipeline_ready Ex2.UseProgrammableVertexShader true
             Ex.IsDepthWriteEnabled Ex.SyncDrawUniforms Ex2.AnalyzeVertexArray
             false Ex.rasterizer0).
    reflexivity.
  - vm_compute. discriminate.
Defined.

(** X14 at an enabled shadow cube on unit 0: six bindings for unit 0,
    none at binding point 3. *)
Lemma SyncTextureUnits_binds_every_unit_witness :
  let fb := Framebuffer_ (Ex.framebuffer_helper 7) in
  let new :=
    events_since Ex.rasterizer0
      (snd (SyncTextureUnits Ex2.regs_shadow_cube Ex.GetTextureSurface
              Ex.GetTextureSurface_info Ex.GetSampler Ex.GetTextureCube
              Ex.null_surface Ex.null_sampler Ex.Acquire fb Ex.rasterizer0)) in
  length (image_sampler_bindings 0 new) = 6%nat
  /\ image_sampler_bindings 3 new = [].
Proof.
  destruct (SyncTextureUnits_binds_every_unit Ex2.regs_shadow_cube Ex.GetTextureSurface
              Ex.GetTextureSurface_info Ex.GetSampler Ex.GetTextureCube
              Ex.null_surface Ex.null_sampler Ex.Acquire
              (Framebuffer_ (Ex.framebuffer_helper 7)) Ex.rasterizer0 0%nat
              Ex2.shadow_cube) as [Hsix Hnone].
  - reflexivity.
  - split; [exact Hsix | exact (Hnone 3 ltac:(cbn; lia))].
Defined.

(** X15 at unit 1, whose surface has the image view 100 that is also the
    colour view of the framebuffer: the unit is bound to the copy view
    200. *)
Lemma SyncTextureUnits_plain_unit_witness :
  let fb := Framebuffer_ (Ex.framebuffer_helper 7) in
  let new :=
    events_since Ex.rasterizer0
      (snd (SyncTextureUnits (Ex.regs 3) Ex.GetTextureSurface
              Ex.GetTextureSurface_info Ex.GetSampler Ex.GetTextureCube
              Ex.null_surface Ex.null_sampler Ex.Acquire fb Ex.rasterizer0)) in
  ImageView_Color fb = ImageView (Ex.GetTextureSurface Ex.texture1)
  /\ image_sampler_bindings 1 new = [(11, 0, 200, 964)].
Proof.
  destruct (SyncTextureUnits_plain_unit (Ex.regs 3) Ex.GetTextureSurface
              Ex.GetTextureSurface_info Ex.GetSampler Ex.GetTextureCube
              Ex.null_surface Ex.null_sampler Ex.Acquire
              (Framebuffer_ (Ex.framebuffer_helper 7)) Ex.rasterizer0 1%nat
              Ex.texture1) as [_ Henabled].
  - reflexivity.
  - destruct Henabled as (view & Hbound & Hcopy & _).
    + reflexivity.
    + left. lia.
    + split; [reflexivity |].
      rewrite (Hcopy eq_refl) in Hbound. exact Hbound.
Defined.

(** X16 at the shadow cube: the six faces are bound, in face order, to
    the storage views of the surfaces at their addresses. *)
Lemma SyncTextureUnits_shadow_unit_witness :
  let fb := Framebuffer_ (Ex.framebuffer_helper 7) in
  let new :=
    events_since Ex.rasterizer0
      (snd (SyncTextureUnits Ex2.regs_shadow_cube Ex.GetTextureSurface
              Ex.GetTextureSurface_info Ex.GetSampler Ex.GetTextureCube
              Ex.null_surface Ex.null_sampler Ex.Acquire fb Ex.rasterizer0)) in
  image_sampler_bindings 0 new
  = [(11, 0, 0x20000002, 964); (11, 1, 0x20001002, 964); (11, 2, 0x20002002, 964);
     (11, 3, 0x20003002, 964); (11, 4, 0x20004002, 964); (11, 5, 0x20005002, 964)]
  /\ map ImageView (shadow_maps new)
     = [0x20000000; 0x20001000; 0x20002000; 0x20003000; 0x20004000; 0x20005000].
Proof.
  destruct (SyncTextureUnits_shadow_unit Ex2.regs_shadow_cube Ex.GetTextureSurface
              Ex.GetTextureSurface_info Ex.GetSampler Ex.GetTextureCube
              Ex.null_surface Ex.null_sampler Ex.Acquire
              (Framebuffer_ (Ex.framebuffer_helper 7)) Ex.rasterizer0
              Ex2.shadow_cube [Ex.texture1; Ex.texture2]) as (_ & Hcube & _).
  - reflexivity.
  - destruct (Hcube eq_refl eq_refl) as [Hbound Hmaps].
    split; [exact Hbound |]. rewrite Hmaps. reflexivity.
Defined.

(** X17 with the lighting tables 3 and 5 dirty and no wrap: the two
    tables are stored at 0 and 2048 and 4096 bytes are committed. *)
Lemma SyncAndUploadLUTsLF_packs_witness :
  let s' := snd (SyncAndUploadLUTsLF Ex.sb_Map Ex.sb_Commit 24 Ex.rasterizer0) in
  sb_content (texture_lf_buffer s') = [(0, lighting_lut 3); (2048, lighting_lut 5)]
  /\ sb_state (texture_lf_buffer s') = 4096
  /\ lighting_lut_dirty (pica s') = 0.
Proof.
  destruct (SyncAndUploadLUTsLF_packs Ex.sb_Map Ex.sb_Commit 256 256 256 24
              Ex.rasterizer0) as (Hcontent & Hstate & _ & Hdirty & _).
  - reflexivity.
  - lia.
  - cbn. lia.
  - split; [exact Hcontent |]. split; [exact Hstate | exact Hdirty].
Defined.

(** X18 at the same state: table 5, stored at byte 2048, is recorded at
    texel offset 256. *)
Lemma SyncAndUploadLUTsLF_records_offsets_witness :
  let s' := snd (SyncAndUploadLUTsLF Ex.sb_Map Ex.sb_Commit 24 Ex.rasterizer0) in
  fs_data_dirty s' = true
  /\ lighting_lut_offset (fs_data s') !! 5%nat = Some 256.
Proof.
  destruct (SyncAndUploadLUTsLF_records_offsets Ex.sb_Map Ex.sb_Commit 256 256 256 24
              Ex.rasterizer0) as (Hdirty & Hlighting & _).
  - reflexivity.
  - lia.
  - cbn. lia.
  - split; [exact Hdirty |].
    apply (Hlighting 2048 5).
    + right. left. reflexivity.
    + cbn. lia.
Defined.

(** X19 with only the colour table dirty and no wrap: that table alone
    is stored, at 0, and 4096 bytes are committed. *)
Lemma SyncAndUploadLUTs_packs_witness :
  let s' := snd (SyncAndUploadLUTs Ex.sb_Map Ex.sb_Commit Ex.rasterizer0) in
  sb_content (texture_buffer s') = [(0, proctex_color_table)]
  /\ sb_state (texture_buffer s') = 4096
  /\ proctex_lut_offset (fs_data s') = 0.
Proof.
  destruct (SyncAndUploadLUTs_packs Ex.sb_Map Ex.sb_Commit 256 256 256 Ex.rasterizer0)
    as (Hcontent & Hstate & _ & _ & _ & _ & _ & _ & Hoffset & _).
  - reflexivity.
  - split; [exact Hcontent |]. split; [exact Hstate |].
    apply (Hoffset 0). left. reflexivity.
Defined.

(** X20 with only the fragment uniforms dirty and no wrap: that block
    alone is stored, at 0, and binding 2 is pointed at it. *)
Lemma UploadUniforms_packs_witness :
  let s := Ex.rasterizer0 in
  let s' := snd (UploadUniforms Ex.sb_Map Ex.sb_Commit 256 256 256 256 true s) in
  sb_content (uniform_buffer s') = [(0, FSUniformData_block Ex.fs_data0)]
  /\ sb_state (uniform_buffer s') = 256
  /\ update_ranges (events_since s s') = [(2, 0)]
  /\ fs_data_dirty s' = false.
Proof.
  destruct (UploadUniforms_packs Ex.sb_Map Ex.sb_Commit 256 256 256 256 true
              Ex.rasterizer0) as (Hcontent & Hstate & _ & Hranges & _ & Hfs & _).
  - reflexivity.
  - lia.
  - lia.
  - lia.
  - lia.
  - split; [exact Hcontent |]. split; [exact Hstate |].
    split; [exact Hranges | exact Hfs].
Defined.

(** X21 with all sixteen attributes default and no loader active: the
    fixed binding has a stride of 272 bytes, and 272 bytes are committed
    of a mapping of 256. *)
Lemma SetupFixedAttribs_stride_witness :
  let s' :=
    snd (SetupFixedAttribs Ex.sb_Map Ex.sb_Commit Ex2.regs_all_default Ex.rasterizer0) in
  bindings (vertex_layout (pipeline_info s')) !! 0%nat
  = Some {| vb_binding := 0; vb_fixed := 1; vb_stride := 272 |}
  /\ sb_state (stream_buffer s') = 272.
Proof.
  destruct (SetupFixedAttribs_stride Ex.sb_Map Ex.sb_Commit Ex2.regs_all_default
              Ex.rasterizer0) as (Hbinding & Hstate & _).
  - intros i. cbn. apply Z.mod_pos_bound. lia.
  - reflexivity.
  - reflexivity.
  - reflexivity.
  - cbn. lia.
  - split; [exact Hbinding | exact Hstate].
Defined.

(** X23 at the first draw on the live framebuffer 7: the scissor
    uniforms become those of the framebuffer, and the block stored in the
    uniform buffer holds them. *)
Lemma Draw_uploads_fragment_uniforms_witness :
  let s' :=
    snd (Ex.Draw_on (Ex.regs 3) false Ex.GetFramebufferSurfaces Ex.BindPipeline_ready
           true false Ex.rasterizer0) in
  scissor_uniforms (fs_data s') = (0, 240, 400, 0)
  /\ fs_data_dirty s' = false
  /\ exists pos,
       In (pos, FSUniformData_block (fs_data s')) (sb_content (uniform_buffer s')).
Proof.
  destruct (Draw_uploads_fragment_uniforms Ex.sb_Map Ex.sb_Commit (Ex.instance 1)
              (Ex.regs 3) false 256 256 256 256 40 24 Ex.memory_pointer
              Ex.GetFramebufferSurfaces Ex.GetTextureSurface Ex.GetTextureSurface_info
              Ex.GetSampler Ex.GetTextureCube Ex.null_surface Ex.null_sampler
              Ex.Acquire Ex.BindPipeline_ready Ex.IsDepthWriteEnabled
              Ex.SyncDrawUniforms true false Ex.rasterizer0)
    as (Hscissor & Hdirty & _ & Hstored & _).
  - vm_compute. discriminate.
  - split; [exact Hscissor |]. split; [exact Hdirty |].
    destruct Hstored as [pos Hin]; [right; reflexivity |].
    exists pos. rewrite drop_0 in Hin. exact Hin.
Defined.
